(** * HuaAgent: a shallow embedding of the QA data pipeline

    The development follows the Python sources:
    - [4_rag/2c_rag_excel.py]            (module [RagExcel]): the corpus builder;
    - [run/process_data/excel2QAjson.py] (module [Excel2QA]): the QA-JSON extractor;
    - [run/basellm.py]                   (module [BaseLLM]):  plain-generation batch run;
    - [run/rag.py]                       (module [Rag]):      retrieval-augmented batch run.

    Python [str] values are sequences of Unicode code points; dictionaries
    loaded from JSON are finite maps; the spreadsheet, the file system and
    the language model are explicit arguments of the functions that use
    them. The progress messages that the scripts print are left out. *)

From Stdlib Require Import ZArith NArith List String Ascii Lia DecimalString Permutation.
From stdpp Require Import base option list gmap strings.

Local Open Scope N_scope.

(** ** Python strings *)

Module PyStr.

(** A [str] is a list of code points, so that [len] counts characters
    and [strip] sees the Unicode white space of Chinese text. *)
Definition pystr : Type := list N.

(** Decoding of the UTF-8 bytes of a literal of this file. *)
Fixpoint utf8_decode (bs : list N) : pystr :=
  match bs with
  | [] => []
  | b0 :: r0 =>
    if b0 <? 0x80 then b0 :: utf8_decode r0
    else if b0 <? 0xE0 then
      match r0 with
      | b1 :: r1 =>
        N.lor (N.shiftl (N.land b0 0x1F) 6) (N.land b1 0x3F) :: utf8_decode r1
      | _ => []
      end
    else if b0 <? 0xF0 then
      match r0 with
      | b1 :: b2 :: r2 =>
        N.lor (N.shiftl (N.land b0 0x0F) 12)
          (N.lor (N.shiftl (N.land b1 0x3F) 6) (N.land b2 0x3F))
        :: utf8_decode r2
      | _ => []
      end
    else
      match r0 with
      | b1 :: b2 :: b3 :: r3 =>
        N.lor (N.shiftl (N.land b0 0x07) 18)
          (N.lor (N.shiftl (N.land b1 0x3F) 12)
             (N.lor (N.shiftl (N.land b2 0x3F) 6) (N.land b3 0x3F)))
        :: utf8_decode r3
      | _ => []
      end
  end.

(** [u "..."] is the Python literal ["..."]. *)
Definition u (s : string) : pystr :=
  utf8_decode (List.map N_of_ascii (list_ascii_of_string s)).

(** [str.isspace] for one character (CPython's [_PyUnicode_IsWhitespace]). *)
Definition isspace (c : N) : bool :=
  ((0x09 <=? c) && (c <=? 0x0D)) || ((0x1C <=? c) && (c <=? 0x20))
  || (c =? 0x85) || (c =? 0xA0) || (c =? 0x1680)
  || ((0x2000 <=? c) && (c <=? 0x200A))
  || (c =? 0x2028) || (c =? 0x2029) || (c =? 0x202F) || (c =? 0x205F)
  || (c =? 0x3000).

Fixpoint lstrip (s : pystr) : pystr :=
  match s with
  | [] => []
  | c :: s' => if isspace c then lstrip s' else s
  end.

Definition rstrip (s : pystr) : pystr := rev (lstrip (rev s)).

(** [s.strip()] *)
Definition strip (s : pystr) : pystr := rstrip (lstrip s).

(** Truth value of a [str]: non-empty. *)
Definition truthy (s : pystr) : bool :=
  match s with [] => false | _ => true end.

(** [str(z)] for an [int]. *)
Definition str_of_Z (z : Z) : pystr := u (NilZero.string_of_int (Z.to_int z)).

(** [repr(k)] of an ASCII key, as shown by [str(KeyError(k))]. *)
Definition quote (k : string) : pystr := u "'" ++ u k ++ u "'".

(** [s.startswith(prefix)] *)
Fixpoint startswith (s prefix : pystr) {struct prefix} : bool :=
  match prefix, s with
  | [], _ => true
  | p :: prefix', c :: s' => (c =? p) && startswith s' prefix'
  | _ :: _, [] => false
  end.

End PyStr.

Import PyStr.

(** ** Exceptions and results *)

Inductive exn : Type :=
| KeyError (key : string)          (* a missing dictionary key *)
| IndexError (k size : nat)        (* [df.columns[k]] out of bounds *)
| FileNotFoundError (path : string)
| Exception (msg : pystr).         (* any other exception, with its message *)

(** [str(e)] *)
Definition str_exn (e : exn) : pystr :=
  match e with
  | KeyError k => quote k
  | IndexError k size =>
    u "index " ++ str_of_Z (Z.of_nat k) ++ u " is out of bounds for axis 0 with size "
      ++ str_of_Z (Z.of_nat size)
  | FileNotFoundError p =>
    u "The file " ++ u p ++ u " does not exist. Please check the path."
  | Exception m => m
  end.

Inductive result (A : Type) : Type :=
| Ok (a : A)
| Raise (e : exn).
Arguments Ok {A} a.
Arguments Raise {A} e.

#[global] Instance result_fmap : FMap result := fun A B f r =>
  match r with Ok a => Ok (f a) | Raise e => Raise e end.

(** Sequencing of statements: the first exception raised ends the block. *)
#[global] Instance result_bind : MBind result := fun A B k r =>
  match r with Ok a => k a | Raise e => Raise e end.

(** [d[key]] on a dictionary. *)
Definition getitem {V} (d : gmap string V) (key : string) : result V :=
  match d !! key with Some v => Ok v | None => Raise (KeyError key) end.

(** ** The spreadsheet as pandas presents it *)

Module Frame.

(** A cell: missing ([NaN]), a string, or an integer. A float cell with an
    integral value compares with [1] as the integer does; the text of other
    floats is not modelled. *)
Inductive cell : Type :=
| CNa
| CStr (s : pystr)
| CInt (z : Z).

(** [pd.notna(c)] *)
Definition notna (c : cell) : bool :=
  match c with CNa => false | _ => true end.

(** [str(c)] *)
Definition py_str (c : cell) : pystr :=
  match c with
  | CNa => u "nan"
  | CStr s => s
  | CInt z => str_of_Z z
  end.

(** [c == z] for an integer literal [z]; a string never equals an integer. *)
Definition eq_int (c : cell) (z : Z) : bool :=
  match c with CInt z' => (z' =? z)%Z | _ => false end.

Definition label : Type := pystr.

Record DataFrame : Type := {
  columns : list label;
  rows : list (list cell)
}.

Fixpoint index_of (l : label) (cols : list label) : option nat :=
  match cols with
  | [] => None
  | c :: cols' => if bool_decide (c = l) then Some 0%nat else S <$> index_of l cols'
  end.

(** [row[l]] for a row of [iterrows()]; the labels used by the code are
    always taken from [df.columns], a missing one reads as [NaN]. *)
Definition row_get (cols : list label) (row : list cell) (l : label) : cell :=
  match index_of l cols with
  | Some k => default CNa (row !! k)
  | None => CNa
  end.

(** The idiom [str(row[c]) if pd.notna(row[c]) else ""]. *)
Definition text_of (c : cell) : pystr :=
  if notna c then py_str c else [].

End Frame.

Import Frame.

(** ** 4_rag/2c_rag_excel.py *)

Module RagExcel.

Record roles : Type := {
  question_col : label;
  answer_col : label;
  status_col : label;
  corrected_col : option label
}.

(** [df.columns[k]] *)
Definition column (cols : list label) (k : nat) : result label :=
  match cols !! k with
  | Some l => Ok l
  | None => Raise (IndexError k (length cols))
  end.

(** Lines 33-36: the roles are taken by position. *)
Definition resolve_roles (cols : list label) : result roles :=
  q ← column cols 0;
  a ← column cols 1;
  s ← column cols 2;
  c ← (if bool_decide (3 < length cols)%nat
       then Some <$> column cols 3 else Ok None);
  Ok {| question_col := q; answer_col := a; status_col := s; corrected_col := c |}.

Record Document : Type := {
  page_content : pystr;
  row_index : nat;
  question : pystr;
  answer : pystr;
  status : cell;
  has_correction : bool
}.

(** Lines 47-50: the four values read from a row. *)
Definition row_question (r : roles) cols (row : list cell) : pystr :=
  text_of (row_get cols row (question_col r)).
Definition row_answer (r : roles) cols (row : list cell) : pystr :=
  text_of (row_get cols row (answer_col r)).
Definition row_status (r : roles) cols (row : list cell) : cell :=
  let c := row_get cols row (status_col r) in
  if notna c then c else CInt 0.
Definition row_corrected (r : roles) cols (row : list cell) : pystr :=
  match corrected_col r with
  | Some l =>
    if truthy l && notna (row_get cols row l)
    then py_str (row_get cols row l) else []
  | None => []
  end.

(** Line 57. *)
Definition final_answer (status : cell) (corrected_answer answer : pystr) : pystr :=
  if eq_int status 1 && truthy (strip corrected_answer)
  then corrected_answer else answer.

(** Lines 47-74: the body of the loop; [None] is [continue]. *)
Definition build_row (r : roles) cols (index : nat) (row : list cell)
  : option Document :=
  let question := row_question r cols row in
  let answer := row_answer r cols row in
  let status := row_status r cols row in
  let corrected_answer := row_corrected r cols row in
  if negb (truthy (strip question)) || negb (truthy (strip answer)) then None
  else
    let final := final_answer status corrected_answer answer in
    Some {| page_content := u "Q: " ++ strip question ++ [10] ++ u "A: " ++ strip final;
            row_index := index;
            question := strip question;
            answer := strip final;
            status := status;
            has_correction :=
              if truthy corrected_answer then truthy (strip corrected_answer)
              else false |}.

(** Lines 44-74: [for index, row in df.iterrows()]. *)
Fixpoint build_from (r : roles) cols (index : nat) (rws : list (list cell))
  : list Document :=
  match rws with
  | [] => []
  | row :: rest =>
    match build_row r cols index row with
    | Some d => d :: build_from r cols (S index) rest
    | None => build_from r cols (S index) rest
    end
  end.

Definition build_documents (r : roles) (df : DataFrame) : list Document :=
  build_from r (columns df) 0 (rows df).

(** Lines 79-84: the configuration handed to langchain's
    [RecursiveCharacterTextSplitter]; the splitter itself is library code. *)
Definition chunk_size : nat := 500.
Definition chunk_overlap : nat := 50.
Definition separators : list pystr :=
  [[10; 10]; [10]; u "。"; u "!"; u "?"; u ";"; u ","; u "、"; []].

(** Lines 10-11, relative to the script's directory. *)
Definition file_path : string := "books/智能辅助回答审核.xlsx".
Definition persistent_directory : string := "db/chroma_db_excel".

(** What a run does to the outside world, in order: the two reports that
    head the branches, and the three build steps. *)
Inductive event : Type :=
| Report (msg : pystr)
| ReadExcel (path : string)
| SplitDocuments (n : nat)
| StoreWrite (dir : string).

Inductive outcome : Type :=
| AlreadyExists
| Built (documents docs : list Document)
| Failed (e : exn).

Definition is_build_step (ev : event) : bool :=
  match ev with Report _ => false | _ => true end.

Definition is_built (o : outcome) : bool :=
  match o with Built _ _ => true | _ => false end.

Section Run.
(** The file system and the three library calls of the script. *)
Context {FS : Type}.
Variable path_exists : FS -> string -> bool.               (* os.path.exists *)
Variable read_excel : FS -> string -> result DataFrame.    (* pd.read_excel *)
Variable split_documents : list Document -> list Document. (* text_splitter.split_documents *)
Variable from_documents :                                  (* Chroma.from_documents *)
  list Document -> string -> FS -> FS * option exn.

(** Lines 24-41: any exception of the block is re-raised as [Exception]. *)
Definition read_and_resolve (fs : FS) : result (DataFrame * roles) :=
  match (df ← read_excel fs file_path;
         r ← resolve_roles (columns df);
         Ok (df, r)) with
  | Ok x => Ok x
  | Raise e => Raise (Exception (u "Error reading Excel file: " ++ str_exn e))
  end.

(** The whole script, lines 13-122. *)
Definition run (fs : FS) : list event * FS * outcome :=
  if negb (path_exists fs persistent_directory) then
    let t0 := [Report (u "Persistent directory does not exist. Initializing vector store...")] in
    if negb (path_exists fs file_path) then
      (t0, fs, Failed (FileNotFoundError file_path))
    else
      match read_and_resolve fs with
      | Raise e => (t0 ++ [ReadExcel file_path], fs, Failed e)
      | Ok (df, r) =>
        let documents := build_documents r df in
        let docs := split_documents documents in
        let t1 := t0 ++ [ReadExcel file_path; SplitDocuments (length documents);
                         StoreWrite persistent_directory] in
        match from_documents docs persistent_directory fs with
        | (fs', Some e) => (t1, fs', Failed e)
        | (fs', None) => (t1, fs', Built documents docs)
        end
      end
  else
    ([Report (u "Vector store already exists. No need to initialize.")], fs,
     AlreadyExists).
End Run.

End RagExcel.

(** ** run/process_data/excel2QAjson.py *)

Module Excel2QA.

Definition possible_question_cols : list label :=
  [u "问题"; u "question"; u "Question"; u "问题列"; u "问题内容"].
Definition possible_answer_cols : list label :=
  [u "答案"; u "answer"; u "Answer"; u "答案列"; u "答案内容"].
Definition possible_corrected_answer_cols : list label :=
  [u "医生更正答案"; u "corrected_answer"; u "CorrectedAnswer"; u "更正答案"; u "医生答案"].

(** [pd.read_excel(path, nrows=n)]: the header and the first [n] data
    rows of the sheet; the sheet is [Raise e] when the file cannot be read. *)
Definition read_excel (sheet : result DataFrame) (nrows : nat) : result DataFrame :=
  df ← sheet;
  Ok {| columns := columns df; rows := take nrows (rows df) |}.

(** Lines 25-42; [self.data] is the value returned. *)
Definition load_excel_data (sheet : result DataFrame) (max_rows : nat)
  : option DataFrame :=
  match read_excel sheet max_rows with
  | Ok df => Some df
  | Raise _ => None
  end.

(** The default of the parameter [max_rows], also passed by [main]. *)
Definition default_max_rows : nat := 200.

Record names : Type := {
  question_col : option label;
  answer_col : option label;
  corrected_answer_col : option label
}.

(** Lines 64-70: one turn of the loop over [self.data.columns]. *)
Definition scan_step (n : names) (col : label) : names :=
  if bool_decide (col ∈ possible_question_cols) then
    {| question_col := Some col; answer_col := answer_col n;
       corrected_answer_col := corrected_answer_col n |}
  else if bool_decide (col ∈ possible_answer_cols) then
    {| question_col := question_col n; answer_col := Some col;
       corrected_answer_col := corrected_answer_col n |}
  else if bool_decide (col ∈ possible_corrected_answer_cols) then
    {| question_col := question_col n; answer_col := answer_col n;
       corrected_answer_col := Some col |}
  else n.

Definition scan_columns (cols : list label) : names :=
  foldl scan_step
    {| question_col := None; answer_col := None; corrected_answer_col := None |}
    cols.

(** Lines 73-80: the first two columns when a standard name is missing;
    [None] is the early [return []]. *)
Definition question_answer_cols (cols : list label) : option (label * label) :=
  let n := scan_columns cols in
  match question_col n, answer_col n with
  | Some q, Some a => Some (q, a)
  | _, _ =>
    if bool_decide (2 <= length cols)%nat then
      match cols !! 0%nat, cols !! 1%nat with
      | Some q, Some a => Some (q, a)
      | _, _ => None
      end
    else None
  end.

Record QAPair : Type := {
  id : nat;
  question : pystr;
  answer : pystr;
  row_index : nat;
  question_length : nat;
  answer_length : nat;
  used_corrected_answer : bool
}.

(** Lines 95-103: the answer after the corrected answer has been looked
    at, and whether it was used. *)
Definition row_corrected (c : option label) cols (row : list cell) : pystr :=
  match c with
  | Some l =>
    if truthy l && notna (row_get cols row l)
    then strip (py_str (row_get cols row l)) else []
  | None => []
  end.

Definition row_answer (a : label) (c : option label) cols (row : list cell)
  : pystr * bool :=
  let answer := text_of (row_get cols row a) in
  let corrected_answer := row_corrected c cols row in
  if truthy corrected_answer then (corrected_answer, true) else (answer, false).

(** Lines 91-121: the body of the loop; [None] is [continue]. *)
Definition extract_row (q a : label) (c : option label) cols
    (index : nat) (row : list cell) : option QAPair :=
  let question := text_of (row_get cols row q) in
  let '(answer, used_corrected) := row_answer a c cols row in
  if negb (truthy (strip question)) && negb (truthy (strip answer)) then None
  else
    Some {| id := index + 1;
            question := strip question;
            answer := strip answer;
            row_index := index + 1;
            question_length := length (strip question);
            answer_length := length (strip answer);
            used_corrected_answer := used_corrected |}.

Fixpoint extract_from (q a : label) (c : option label) cols
    (index : nat) (rws : list (list cell)) : list QAPair :=
  match rws with
  | [] => []
  | row :: rest =>
    match extract_row q a c cols index row with
    | Some p => p :: extract_from q a c cols (S index) rest
    | None => extract_from q a c cols (S index) rest
    end
  end.

(** Lines 44-127. *)
Definition extract_qa_pairs (data : option DataFrame) : list QAPair :=
  match data with
  | None => []
  | Some df =>
    match question_answer_cols (columns df) with
    | None => []
    | Some (q, a) =>
      extract_from q a (corrected_answer_col (scan_columns (columns df)))
        (columns df) 0 (rows df)
    end
  end.

(** Lines 216-223 of [main]: load, then extract. *)
Definition main_pairs (sheet : result DataFrame) : list QAPair :=
  extract_qa_pairs (load_excel_data sheet default_max_rows).

End Excel2QA.

(** ** The batch output log *)

(** One line of the JSONL log. *)
Record json_record : Type := {
  user_input : pystr;
  response : pystr;
  retrieved_contexts : pystr
}.

(** A QA pair of [qa_data.json] is a dictionary; the batch runs read its
    ["question"] and its ["answer"], which are strings. [has_keys] is the
    shape the extractor produces. *)
Definition has_keys (qa_pair : gmap string pystr) : Prop :=
  is_Some (qa_pair !! "question"%string) ∧ is_Some (qa_pair !! "answer"%string).

(** Writing a line: [f.write(json.dumps(record, ensure_ascii=False) + '\n')]
    on a file opened with [encoding='utf-8']. The text is encoded when it
    is written, and a str that holds a surrogate code point cannot be
    encoded: the write raises [UnicodeEncodeError] and the file is left as
    it was. *)
Module JsonLine.

Definition is_surrogate (c : N) : bool := (0xD800 <=? c) && (c <=? 0xDFFF).

(** Whether [s.encode('utf-8')] succeeds. *)
Definition encodable (s : pystr) : bool :=
  forallb (fun c => negb (is_surrogate c)) s.

Definition hex_digit (n : N) : N := if n <? 10 then 48 + n else 87 + n.

(** ['{0:04x}'.format(c)] for [c] below 65536. *)
Definition hex4 (c : N) : pystr :=
  [hex_digit ((c / 4096) mod 16); hex_digit ((c / 256) mod 16);
   hex_digit ((c / 16) mod 16); hex_digit (c mod 16)].

(** One character of a string as [json.dumps] writes it when
    [ensure_ascii] is false: the quote, the backslash and the control
    characters are escaped, every other character is kept. *)
Definition escape_char (c : N) : pystr :=
  if c =? 34 then [92; 34]
  else if c =? 92 then [92; 92]
  else if c =? 10 then [92; 110]
  else if c =? 13 then [92; 114]
  else if c =? 9 then [92; 116]
  else if c =? 8 then [92; 98]
  else if c =? 12 then [92; 102]
  else if c <? 32 then [92; 117] ++ hex4 c
  else [c].

Definition dumps_str (s : pystr) : pystr :=
  [34] ++ concat (List.map escape_char s) ++ [34].

(** [json.dumps(record, ensure_ascii=False)] for a record of the log. *)
Definition dumps (r : json_record) : pystr :=
  u "{" ++ dumps_str (u "user_input") ++ u ": " ++ dumps_str (user_input r)
  ++ u ", " ++ dumps_str (u "response") ++ u ": " ++ dumps_str (response r)
  ++ u ", " ++ dumps_str (u "retrieved_contexts") ++ u ": "
  ++ dumps_str (retrieved_contexts r) ++ u "}".

(** The number of surrogates at the head of a text. *)
Fixpoint surrogate_run (s : pystr) : nat :=
  match s with
  | c :: s' => if is_surrogate c then S (surrogate_run s') else 0%nat
  | [] => 0%nat
  end.

(** The exception of [text.encode('utf-8')], with the message Python gives
    it ([start] is the position of the head of [text]); [None] when the
    text can be encoded. The exception is carried as [Exception]. *)
Fixpoint encode_error_from (start : nat) (text : pystr) : option exn :=
  match text with
  | [] => None
  | c :: rest =>
    if is_surrogate c then
      Some (Exception
              match surrogate_run rest with
              | O =>
                u "'utf-8' codec can't encode character '" ++ [92; 117] ++ hex4 c
                ++ u "' in position " ++ str_of_Z (Z.of_nat start)
                ++ u ": surrogates not allowed"
              | S n =>
                u "'utf-8' codec can't encode characters in position "
                ++ str_of_Z (Z.of_nat start) ++ u "-"
                ++ str_of_Z (Z.of_nat (start + S n))
                ++ u ": surrogates not allowed"
              end)
    else encode_error_from (S start) rest
  end.

Definition encode_error (text : pystr) : option exn := encode_error_from 0 text.

(** The write of one line to the file [f]. *)
Definition write (f : list json_record) (r : json_record)
  : result (list json_record) :=
  match encode_error (dumps r ++ [10]) with
  | Some e => Raise e
  | None => Ok (f ++ [r])
  end.

End JsonLine.

(** ** run/basellm.py *)

Module BaseLLM.

(** What [future.result()] returns (the elapsed time is left out). *)
Record task_result : Type := {
  json : json_record;
  question : pystr;
  llm_response : pystr
}.

Section Single.
(** [qa_chain.invoke] followed by the extraction of the content. *)
Variable invoke : pystr -> result pystr.

(** Lines 68-88. *)
Definition get_llm_response (question : pystr) : pystr :=
  match invoke question with
  | Ok answer => answer
  | Raise e => u "Error: " ++ str_exn e
  end.

(** Lines 90-111. *)
Definition process_single_question (qa_pair : gmap string pystr)
  : result task_result :=
  question ← getitem qa_pair "question";
  ground_truth_answer ← getitem qa_pair "answer";
  let llm_response := get_llm_response question in
  Ok {| json := {| user_input := question;
                   response := llm_response;
                   retrieved_contexts := ground_truth_answer |};
        question := question;
        llm_response := llm_response |}.
End Single.

(** Lines 127-129: one task per pair; [invoke i] is the model call made
    by the [i]-th task. *)
Fixpoint submit_all (invoke : nat -> pystr -> result pystr) (i : nat)
    (qa_pairs : list (gmap string pystr)) : list (result task_result) :=
  match qa_pairs with
  | [] => []
  | qa_pair :: rest =>
    process_single_question (invoke i) qa_pair :: submit_all invoke (S i) rest
  end.

(** Lines 156-160: the error record reads the variable [qa_pair], which
    the submission loop left bound to its last element. *)
Definition error_record (qa_pair : gmap string pystr) (e : exn)
  : result json_record :=
  q ← getitem qa_pair "question";
  a ← getitem qa_pair "answer";
  Ok {| user_input := q;
        response := u "Error: " ++ str_exn e;
        retrieved_contexts := a |}.

(** Lines 136-162: the futures are read in submission order; [f] is the
    content of the file. The write of line 145 is inside the [try]: when
    the future raised, or when its record cannot be written, the handler
    of lines 153-162 writes the error record. An exception raised inside
    the handler (a missing key of [qa_pair], or an error record that
    cannot be written) leaves the loop. *)
Fixpoint collect (qa_pair : gmap string pystr)
    (futures : list (result task_result)) (f : list json_record)
  : list json_record * option exn :=
  match futures with
  | [] => (f, None)
  | future :: rest =>
    match (r ← future; JsonLine.write f (json r)) with
    | Ok f' => collect qa_pair rest f'
    | Raise e =>
      match (rec ← error_record qa_pair e; JsonLine.write f rec) with
      | Ok f' => collect qa_pair rest f'
      | Raise e' => (f, Some e')
      end
    end
  end.

(** Lines 113-166. The file is opened with mode ['w']; nothing is opened
    when no pair was loaded. *)
Definition process_all_questions (invoke : nat -> pystr -> result pystr)
    (qa_pairs : list (gmap string pystr)) (file : list json_record)
  : list json_record * option exn :=
  match last qa_pairs with
  | None => (file, None)
  | Some qa_pair => collect qa_pair (submit_all invoke 0 qa_pairs) []
  end.

End BaseLLM.

(** ** run/rag.py *)

Module Rag.

(** The dictionary returned by [rag_chain.invoke], as lines 136-149 read
    it: a call whose result cannot be read is a call that raises. *)
Record chain_result : Type := {
  answer : pystr;
  context : list pystr        (* page_content of the retrieved chunks *)
}.

(** Lines 145-149. *)
Definition result_record (question : pystr) (result : chain_result)
    (expected_answer : pystr) : json_record :=
  {| user_input := question;
     response := answer result;
     retrieved_contexts := expected_answer |}.

(** Lines 162-166. *)
Definition error_record (question : pystr) (e : exn) (expected_answer : pystr)
  : json_record :=
  {| user_input := question;
     response := u "处理出错: " ++ str_exn e;
     retrieved_contexts := expected_answer |}.

(** Lines 159-168, the handler: the error record is written; an error
    record that cannot be written ends the run. *)
Definition handle (question : pystr) (e : exn) (expected_answer : pystr)
    (f : list json_record) : result (list json_record) :=
  JsonLine.write f (error_record question e expected_answer).

(** Lines 128-168: [results] is the list returned, [f] the content of the
    file, opened with mode ['a'] for every line. Inside the [try] the
    record is appended to [results] (line 151) before it is written
    (lines 154-155): when the write raises, the handler writes an error
    record and the record stays in [results]. *)
Fixpoint loop (invoke : nat -> pystr -> result chain_result) (i : nat)
    (qa_pairs : list (gmap string pystr)) (results f : list json_record)
  : list json_record * result (list json_record) :=
  match qa_pairs with
  | [] => (f, Ok results)
  | qa_pair :: rest =>
    match getitem qa_pair "question", getitem qa_pair "answer" with
    | Raise e, _ => (f, Raise e)
    | Ok _, Raise e => (f, Raise e)
    | Ok question, Ok expected_answer =>
      match invoke i question with
      | Ok result =>
        let rec := result_record question result expected_answer in
        match JsonLine.write f rec with
        | Ok f' => loop invoke (S i) rest (results ++ [rec]) f'
        | Raise e =>
          match handle question e expected_answer f with
          | Ok f' => loop invoke (S i) rest (results ++ [rec]) f'
          | Raise e' => (f, Raise e')
          end
        end
      | Raise e =>
        match handle question e expected_answer f with
        | Ok f' => loop invoke (S i) rest results f'
        | Raise e' => (f, Raise e')
        end
      end
    end
  end.

(** Lines 116-171. *)
Definition process_qa_pairs (invoke : nat -> pystr -> result chain_result)
    (qa_pairs : list (gmap string pystr)) (file : list json_record)
  : list json_record * result (list json_record) :=
  loop invoke 0 qa_pairs [] file.

End Rag.

(** * Reference definitions and example data *)

(** The answer selected by the policy as the specification words it: the
    corrected answer when the row is reviewed and the corrected answer is
    not blank, the original answer otherwise; a record holds it trimmed. *)
Definition policy_answer (status : cell) (corrected original : pystr) : pystr :=
  strip (if eq_int status 1 && truthy (strip corrected) then corrected else original).

(** The question and the ground-truth answer of a pair that has them. *)
Definition question_of (qa_pair : gmap string pystr) : pystr :=
  match qa_pair !! "question"%string with Some q => q | None => [] end.
Definition truth_of (qa_pair : gmap string pystr) : pystr :=
  match qa_pair !! "answer"%string with Some a => a | None => [] end.

(** A pair whose question and answer can be written. *)
Definition pair_encodable (qa_pair : gmap string pystr) : Prop :=
  JsonLine.encodable (question_of qa_pair) = true
  /\ JsonLine.encodable (truth_of qa_pair) = true.

(** A record whose three fields can be encoded. *)
Definition writable (r : json_record) : bool :=
  JsonLine.encodable (user_input r) && JsonLine.encodable (response r)
  && JsonLine.encodable (retrieved_contexts r).

(** The record of a pair with a given response. *)
Definition record_of (qa_pair : gmap string pystr) (resp : pystr) : json_record :=
  {| user_input := question_of qa_pair;
     response := resp;
     retrieved_contexts := truth_of qa_pair |}.

(** The line [basellm.py] writes for a future when the last pair is
    complete and can be encoded: the record of the task, or, when the task
    raised or its record cannot be written, the error record that the
    handler makes of [last_pair]. *)
Definition collected_line (last_pair : gmap string pystr)
    (future : result BaseLLM.task_result) : json_record :=
  match future with
  | Ok r =>
    match JsonLine.encode_error (JsonLine.dumps (BaseLLM.json r) ++ [10]) with
    | None => BaseLLM.json r
    | Some e => record_of last_pair (u "Error: " ++ str_exn e)
    end
  | Raise e => record_of last_pair (u "Error: " ++ str_exn e)
  end.

(** The line [rag.py] writes for the complete pair at position [i]: its
    record, or the error record of the pair when the call raised or the
    record cannot be written. *)
Definition rag_line (invoke : nat -> pystr -> result Rag.chain_result) (i : nat)
    (qa_pair : gmap string pystr) : json_record :=
  match invoke i (question_of qa_pair) with
  | Ok result =>
    let rec := Rag.result_record (question_of qa_pair) result (truth_of qa_pair) in
    match JsonLine.encode_error (JsonLine.dumps rec ++ [10]) with
    | None => rec
    | Some e => Rag.error_record (question_of qa_pair) e (truth_of qa_pair)
    end
  | Raise e => Rag.error_record (question_of qa_pair) e (truth_of qa_pair)
  end.

(** The messages of the exceptions that the calls of a batch raise can be
    encoded. *)
Definition messages_encodable (invoke : nat -> pystr -> result Rag.chain_result)
    (qa_pairs : list (gmap string pystr)) : Prop :=
  forall (k : nat) (p : gmap string pystr) (e : exn),
    qa_pairs !! k = Some p -> invoke k (question_of p) = Raise e ->
    JsonLine.encodable (str_exn e) = true.

(** Pairs used in the examples: one without its answer, two complete. *)
Module Pairs.

Definition no_answer : gmap string pystr :=
  {[ "question"%string := u "q1" ]}.
Definition fever : gmap string pystr :=
  <[ "question"%string := u "发烧怎么办" ]> {[ "answer"%string := u "多喝水" ]}.
Definition cough : gmap string pystr :=
  <[ "question"%string := u "咳嗽怎么办" ]> {[ "answer"%string := u "多休息" ]}.

(** A model that answers, and one whose every call times out. *)
Definition answering : nat -> pystr -> result pystr :=
  fun _ _ => Ok (u "drink water").
Definition failing : nat -> pystr -> result pystr :=
  fun _ _ => Raise (Exception (u "timed out")).
Definition chain_answering : nat -> pystr -> result Rag.chain_result :=
  fun _ _ => Ok {| Rag.answer := u "drink water"; Rag.context := [u "Q: x"] |}.
Definition chain_failing : nat -> pystr -> result Rag.chain_result :=
  fun _ _ => Raise (Exception (u "timed out")).

(** A chain whose answer holds a lone surrogate. *)
Definition chain_garbling : nat -> pystr -> result Rag.chain_result :=
  fun _ _ => Ok {| Rag.answer := [97; 0xD800; 98]; Rag.context := [] |}.
Definition garbling : nat -> pystr -> result pystr :=
  fun _ _ => Ok [97; 0xD800; 98].

(** A pair whose question holds a lone surrogate. *)
Definition garbled : gmap string pystr :=
  <[ "question"%string := [0xD800] ]> {[ "answer"%string := u "多喝水" ]}.

(** A chain that raises with a message that holds a lone surrogate. *)
Definition chain_failing_garbled : nat -> pystr -> result Rag.chain_result :=
  fun _ _ => Raise (Exception [0xD800]).

End Pairs.

(** ** Concrete sheets used in the examples *)

Module Fixtures.

Definition review_columns : list label :=
  [u "问题"; u "答案"; u "审核状态"; u "医生更正答案"].

Definition review_roles : RagExcel.roles :=
  {| RagExcel.question_col := u "问题"; RagExcel.answer_col := u "答案";
     RagExcel.status_col := u "审核状态";
     RagExcel.corrected_col := Some (u "医生更正答案") |}.

(** A reviewed row with a correction, and the same row not reviewed. *)
Definition fever_reviewed : list cell :=
  [CStr (u "发烧怎么办"); CStr (u "多喝水"); CInt 1; CStr (u "及时就医并退烧")].
Definition fever_unreviewed : list cell :=
  [CStr (u "发烧怎么办"); CStr (u "多喝水"); CInt 0; CStr (u "及时就医并退烧")].

(** A row whose question is blank. *)
Definition blank_question : list cell :=
  [CStr (u "  "); CStr (u "无"); CNa; CNa].

Definition unreviewed_sheet : DataFrame :=
  {| columns := review_columns; rows := [fever_unreviewed] |}.

Definition blank_sheet : DataFrame :=
  {| columns := review_columns; rows := [blank_question] |}.

(** A sheet with a question and an answer column only. *)
Definition two_column_sheet : DataFrame :=
  {| columns := [u "问题"; u "答案"];
     rows := [[CStr (u "发烧怎么办"); CStr (u "多喝水")]] |}.

(** Two hundred rows. *)
Definition filler_rows : list (list cell) :=
  replicate 200 [CStr (u "q"); CStr (u "a")].

End Fixtures.

(** A small file system: the directories that exist and the sheets that
    can be read; the store creates its directory. *)
Module World.

Record world : Type := {
  directories : gset string;
  sheets : gmap string DataFrame
}.

Definition path_exists (w : world) (p : string) : bool :=
  bool_decide (p ∈ directories w) || bool_decide (is_Some (sheets w !! p)).

Definition read_excel (w : world) (p : string) : result DataFrame :=
  match sheets w !! p with
  | Some df => Ok df
  | None => Raise (FileNotFoundError p)
  end.

Definition from_documents (docs : list RagExcel.Document) (dir : string)
    (w : world) : world * option exn :=
  ({| directories := {[dir]} ∪ directories w; sheets := sheets w |}, None).

Definition run : world -> list RagExcel.event * world * RagExcel.outcome :=
  RagExcel.run path_exists read_excel (fun docs => docs) from_documents.

(** Before the first build: the sheet is there, the store is not. *)
Definition fresh : world :=
  {| directories := ∅;
     sheets := {[ RagExcel.file_path :=
                    {| columns := Fixtures.review_columns;
                       rows := [Fixtures.fever_reviewed] |} ]} |}.

End World.

(** * Further code of the scripts *)

(** ** Searching in a Python string *)

Module PyFind.

(** [s.find(pat)]: the index of the first occurrence, [None] for [-1]. *)
Fixpoint find (s pat : pystr) : option nat :=
  if startswith s pat then Some 0%nat
  else match s with
       | [] => None
       | _ :: s' => S <$> find s' pat
       end.

(** [pat in s] *)
Definition contains (s pat : pystr) : bool :=
  match find s pat with Some _ => true | None => false end.

(** [s.replace(old, "")] for a non-empty [old]: occurrences are removed from
    left to right; [skip] counts the characters of an occurrence still to
    drop. *)
Fixpoint remove_all (old : pystr) (skip : nat) (s : pystr) : pystr :=
  match s with
  | [] => []
  | c :: s' =>
    match skip with
    | S k => remove_all old k s'
    | O =>
      if startswith s old then remove_all old (pred (length old)) s'
      else c :: remove_all old 0 s'
    end
  end.

End PyFind.

Import PyFind.

(** ** JSON values *)

Module Json.

(** What [json.loads] returns; numbers are integers. *)
#[warnings="-register-all"]
Inductive json : Type :=
| JNull
| JBool (b : bool)
| JInt (z : Z)
| JStr (s : pystr)
| JArr (l : list json)
| JObj (m : gmap string json).

(** [bool(v)] *)
Definition truthy_json (v : json) : bool :=
  match v with
  | JNull => false
  | JBool b => b
  | JInt z => negb (z =? 0)%Z
  | JStr s => truthy s
  | JArr l => match l with [] => false | _ => true end
  | JObj m => match map_to_list m with [] => false | _ => true end
  end.

(** [a or b] *)
Definition py_or (a b : json) : json := if truthy_json a then a else b.

(** [d.get(key)] on a dictionary: [None] is [JNull]. *)
Definition dict_get (m : gmap string json) (key : string) : json :=
  match m !! key with Some v => v | None => JNull end.

(** A line of the batch log as [json.loads] reads it back. *)
Definition record_json (r : json_record) : json :=
  JObj (<["user_input"%string := JStr (user_input r)]>
        (<["response"%string := JStr (response r)]>
         {["retrieved_contexts"%string := JStr (retrieved_contexts r)]})).

End Json.

Import Json.

(** ** run/process_data/remove_think.py *)

Module RemoveThink.

Definition open_tag : pystr := u "<think>".
Definition close_tag : pystr := u "</think>".

(** The length of the match of [<think>.*?</think>] (with [re.DOTALL]) at
    the start of [s], when there is one: the opening tag, then the shortest
    text up to a closing tag. *)
Definition think_match (s : pystr) : option nat :=
  if startswith s open_tag then
    match find (drop (length open_tag) s) close_tag with
    | Some i => Some (length open_tag + i + length close_tag)%nat
    | None => None
    end
  else None.

(** Line 11, [re.sub(pattern, '', text, flags=re.DOTALL)]: the text is
    scanned from the left; where the pattern matches, the match is dropped
    and the scan goes on after it; [skip] counts the characters of a match
    still to drop. *)
Fixpoint sub_think (skip : nat) (s : pystr) : pystr :=
  match s with
  | [] => []
  | c :: s' =>
    match skip with
    | S k => sub_think k s'
    | O =>
      match think_match s with
      | Some n => sub_think (pred n) s'
      | None => c :: sub_think 0 s'
      end
    end
  end.

(** Lines 5-12. *)
Definition remove_think_tags (text : pystr) : pystr := strip (sub_think 0 text).

(** Line 31, ['response' in data]; [None] is the [TypeError] of a value
    that is not a container. *)
Definition has_response (data : json) : option bool :=
  match data with
  | JObj m => Some (bool_decide (is_Some (m !! "response"%string)))
  | JArr l =>
    Some (existsb (fun v => match v with
                            | JStr s => bool_decide (s = u "response")
                            | _ => false
                            end) l)
  | JStr s => Some (contains s (u "response"))
  | _ => None
  end.

(** Lines 28-43 for one line, given what [json.loads] makes of it ([None]
    when it raises): the value written, or [None] when an exception sends
    the line to the error count. The write of line 43 is taken to succeed,
    as it does on the lines of a log that the batch runs wrote. *)
Definition process_line (parsed : option json) : option json :=
  match parsed with
  | None => None
  | Some data =>
    match has_response data with
    | None => None
    | Some false => Some data
    | Some true =>
      match data with
      | JObj m =>
        match m !! "response"%string with
        | Some (JStr original_response) =>
          let cleaned_response := remove_think_tags original_response in
          Some (JObj (<["response"%string :=
                          JStr (if truthy cleaned_response then cleaned_response
                                else u "无答案")]> m))
        | _ => None
        end
      | _ => None
      end
    end
  end.

(** What a run leaves: the lines of the output file and the two counts. *)
Record report : Type := {
  written : list json;
  processed_count : nat;
  error_count : nat
}.

(** Lines 25-57. *)
Fixpoint process_lines (lines : list (option json)) (acc : report) : report :=
  match lines with
  | [] => acc
  | line :: rest =>
    match process_line line with
    | Some data =>
      process_lines rest
        {| written := written acc ++ [data];
           processed_count := S (processed_count acc);
           error_count := error_count acc |}
    | None =>
      process_lines rest
        {| written := written acc;
           processed_count := processed_count acc;
           error_count := S (error_count acc) |}
    end
  end.

(** Lines 14-69; the input file is [None] when it does not exist, and then
    the output file is not opened. *)
Definition process_jsonl_file (input : option (list (option json))) : option report :=
  match input with
  | None => None
  | Some lines =>
    Some (process_lines lines
            {| written := []; processed_count := 0; error_count := 0 |})
  end.

End RemoveThink.

(** ** run/evaluate/tradition_nlp.py *)

Module Evaluate.

(** The exceptions that end [evaluate_model] while it reads the samples,
    with the position of the line. *)
Inductive read_error : Type :=
| JSONDecodeError (line : nat)
| TypeError (line : nat)
| MissingKey (line : nat) (key : string).

(** The arguments given to [SingleTurnSample]. *)
Record sample : Type := {
  response : json;
  reference : json
}.

(** Lines 30-34 for the line at position [i]. *)
Definition read_sample (i : nat) (parsed : option json) : read_error + sample :=
  match parsed with
  | None => inl (JSONDecodeError i)
  | Some (JObj m) =>
    match m !! "response"%string with
    | None => inl (MissingKey i "response")
    | Some resp =>
      inr {| response := resp;
             reference := py_or (py_or (dict_get m "reference")
                                       (dict_get m "retrieved_contexts"))
                                (JStr []) |}
    end
  | Some _ => inl (TypeError i)
  end.

(** Lines 27-35: the first exception ends the function. *)
Fixpoint read_samples (i : nat) (lines : list (option json))
  : read_error + list sample :=
  match lines with
  | [] => inr []
  | line :: rest =>
    match read_sample i line with
    | inl e => inl e
    | inr s =>
      match read_samples (S i) rest with
      | inl e => inl e
      | inr samples => inr (s :: samples)
      end
    end
  end.

(** [os.path.basename(path)] for a POSIX path. *)
Fixpoint basename_from (current : pystr) (path : pystr) : pystr :=
  match path with
  | [] => current
  | c :: rest =>
    if (c =? 47) then basename_from rest rest
    else basename_from current rest
  end.
Definition basename (path : pystr) : pystr := basename_from path path.

(** Line 24. *)
Definition model_name (jsonl_path : pystr) : pystr :=
  remove_all (u "_return.jsonl") 0 (basename jsonl_path).

End Evaluate.

(** ** excel2QAjson.py: the counts, the analysis and the dataset *)

Module Excel2QAReport.

Import Excel2QA.

(** Lines 87-103: [corrected_count], incremented for every row whose
    corrected answer is used. *)
Fixpoint corrected_count (c : option label) cols (rws : list (list cell)) : nat :=
  match rws with
  | [] => 0%nat
  | row :: rest =>
    ((if truthy (row_corrected c cols row) then 1 else 0)
     + corrected_count c cols rest)%nat
  end.

(** Lines 159-205, the integers of [analyze_data]: the two averages it
    returns are the quotients of the character totals by [total_pairs]. *)
Record analysis : Type := {
  total_pairs : nat;
  total_question_chars : nat;
  total_answer_chars : nat;
  short_questions : nat;
  medium_questions : nat;
  long_questions : nat
}.

Definition count (f : QAPair -> bool) (qa_pairs : list QAPair) : nat :=
  length (List.filter f qa_pairs).

Definition analyze_data (qa_pairs : list QAPair) : option analysis :=
  match qa_pairs with
  | [] => None
  | _ =>
    Some {| total_pairs := length qa_pairs;
            total_question_chars := list_sum (List.map (fun qa => length (question qa)) qa_pairs);
            total_answer_chars := list_sum (List.map (fun qa => length (answer qa)) qa_pairs);
            short_questions :=
              count (fun qa => length (question qa) <? 50)%nat qa_pairs;
            medium_questions :=
              count (fun qa => (50 <=? length (question qa))%nat
                               && (length (question qa) <? 200)%nat) qa_pairs;
            long_questions :=
              count (fun qa => 200 <=? length (question qa))%nat qa_pairs |}
  end.

(** Lines 138-146: what [save_to_json] writes (the time stamp is left out). *)
Record dataset : Type := {
  ds_total_pairs : nat;
  ds_processed_rows : nat;
  ds_qa_pairs : list QAPair
}.

Definition save_to_json (data : option DataFrame) (qa_pairs : list QAPair) : dataset :=
  {| ds_total_pairs := length qa_pairs;
     ds_processed_rows := match data with Some df => length (rows df) | None => 0%nat end;
     ds_qa_pairs := qa_pairs |}.

(** Lines 207-233 of [main]: the dataset written, [None] when the run stops
    before writing. *)
Definition main (sheet : result DataFrame) : option dataset :=
  match load_excel_data sheet default_max_rows with
  | None => None
  | Some df =>
    match extract_qa_pairs (Some df) with
    | [] => None
    | qa_pairs => Some (save_to_json (Some df) qa_pairs)
    end
  end.

End Excel2QAReport.

(** ** More example data *)

Module Samples.

(** The document the builder makes of the reviewed row. *)
Definition fever_document : RagExcel.Document :=
  {| RagExcel.page_content := u "Q: 发烧怎么办" ++ [10] ++ u "A: 及时就医并退烧";
     RagExcel.row_index := 0;
     RagExcel.question := u "发烧怎么办";
     RagExcel.answer := u "及时就医并退烧";
     RagExcel.status := CInt 1;
     RagExcel.has_correction := true |}.

Definition reviewed_sheet : DataFrame :=
  {| columns := Fixtures.review_columns; rows := [Fixtures.fever_reviewed] |}.

(** A file system where neither the store nor the sheet exists. *)
Definition empty_world : World.world :=
  {| World.directories := ∅; World.sheets := ∅ |}.

End Samples.

(** Lines of a batch log with a model that thinks aloud. *)
Module Logs.

Definition thinking : json_record :=
  {| user_input := u "发烧怎么办";
     response := u "<think>先想一想</think> 多喝水";
     retrieved_contexts := u "多喝水" |}.

(** The line of the first example pair when the model answers. *)
Definition fever_answered : json_record :=
  {| user_input := u "发烧怎么办";
     response := u "drink water";
     retrieved_contexts := u "多喝水" |}.

Definition only_thinking : json_record :=
  {| user_input := u "咳嗽怎么办";
     response := u "<think>不知道</think>";
     retrieved_contexts := u "多休息" |}.

End Logs.

(** ** The batch log seen by the later stages *)

(** The sample the evaluator makes of a line of the batch log. *)
Definition sample_of (r : json_record) : Evaluate.sample :=
  {| Evaluate.response := JStr (response r);
     Evaluate.reference := JStr (retrieved_contexts r) |}.

(** A line the evaluator can read: an object with a ["response"]. *)
Definition readable (line : option json) : Prop :=
  exists m, line = Some (JObj m) /\ is_Some (m !! "response"%string).

(** A line of the batch log after [remove_think.py]. *)
Definition cleaned (r : json_record) : json_record :=
  {| user_input := user_input r;
     response :=
       (let cleaned_response := RemoveThink.remove_think_tags (response r) in
        if truthy cleaned_response then cleaned_response else u "无答案");
     retrieved_contexts := retrieved_contexts r |}.

(** The record [rag.py] appends to the list it returns for the pair at
    position [i]: one when the call succeeds, none otherwise. *)
Definition successes (invoke : nat -> pystr -> result Rag.chain_result) (i : nat)
    (qa_pair : gmap string pystr) : list json_record :=
  match invoke i (question_of qa_pair) with
  | Ok result => [Rag.result_record (question_of qa_pair) result (truth_of qa_pair)]
  | Raise _ => []
  end.

(** The position of the line that ended the reading of the samples. *)
Definition error_line (e : Evaluate.read_error) : nat :=
  match e with
  | Evaluate.JSONDecodeError i => i
  | Evaluate.TypeError i => i
  | Evaluate.MissingKey i _ => i
  end.

(** * Properties *)

(** ** Literals and trimming on examples *)

Example u_ascii : u "Q: " = [81; 58; 32].
Proof. reflexivity. Qed.

Example u_cjk : u "问题" = [0x95EE; 0x9898].
Proof. reflexivity. Qed.

Example strip_blank : strip (u "  ") = [].
Proof. reflexivity. Qed.

Example strip_ideographic : strip ([0x3000] ++ u "无 ") = [0x65E0].
Proof. reflexivity. Qed.

Example str_of_Z_neg : str_of_Z (-12) = u "-12".
Proof. reflexivity. Qed.

(** ** Facts about [strip] *)

Section StripFacts.

Lemma lstrip_app_nonspace (l : pystr) (c : N) :
  isspace c = false -> lstrip (l ++ [c]) = lstrip l ++ [c].
Proof.
  intros Hc. induction l as [|x l IH]; simpl.
  - now rewrite Hc.
  - destruct (isspace x); [exact IH | reflexivity].
Qed.

Lemma lstrip_head (s : pystr) :
  lstrip s = [] \/ exists c t, lstrip s = c :: t /\ isspace c = false.
Proof.
  induction s as [|x s IH]; simpl; [now left|].
  destruct (isspace x) eqn:Hx; [exact IH|].
  right. now exists x, s.
Qed.

Lemma lstrip_idem (s : pystr) : lstrip (lstrip s) = lstrip s.
Proof.
  destruct (lstrip_head s) as [E | (c & t & E & Hc)]; rewrite E; simpl.
  - reflexivity.
  - now rewrite Hc.
Qed.

Lemma rstrip_cons_nonspace (c : N) (t : pystr) :
  isspace c = false -> rstrip (c :: t) = c :: rstrip t.
Proof.
  intros Hc. unfold rstrip. simpl.
  rewrite lstrip_app_nonspace by exact Hc.
  now rewrite rev_app_distr.
Qed.

Lemma rstrip_idem (s : pystr) : rstrip (rstrip s) = rstrip s.
Proof. unfold rstrip. now rewrite rev_involutive, lstrip_idem. Qed.

(** Trimming a trimmed string changes nothing. *)
Lemma strip_idem (s : pystr) : strip (strip s) = strip s.
Proof.
  unfold strip.
  destruct (lstrip_head s) as [E | (c & t & E & Hc)]; rewrite E.
  - reflexivity.
  - rewrite rstrip_cons_nonspace by exact Hc. simpl. rewrite Hc.
    rewrite rstrip_cons_nonspace by exact Hc. now rewrite rstrip_idem.
Qed.

Lemma truthy_false (s : pystr) : truthy s = false <-> s = [].
Proof. destruct s; simpl; split; congruence. Qed.

Lemma truthy_true (s : pystr) : truthy s = true <-> s <> [].
Proof. destruct s; simpl; split; congruence. Qed.

End StripFacts.

(** ** The two row converters *)

Section Converters.

Import RagExcel.

Lemma build_row_index (r : roles) cols (i : nat) (row : list cell) (d : Document) :
  build_row r cols i row = Some d -> row_index d = i.
Proof.
  unfold build_row.
  destruct (negb _ || negb _); [discriminate|].
  intros [= <-]. reflexivity.
Qed.

Lemma build_row_answer_any_index (r : roles) cols (i j : nat) (row : list cell) :
  answer <$> build_row r cols i row = answer <$> build_row r cols j row.
Proof. unfold build_row. now destruct (negb _ || negb _). Qed.

Lemma build_from_answers (r : roles) cols (i : nat) (rws : list (list cell)) :
  answer <$> build_from r cols i rws
  = omap (fun row => answer <$> build_row r cols 0 row) rws.
Proof.
  revert i. induction rws as [|row rest IH]; intros i; simpl; [reflexivity|].
  rewrite <- (build_row_answer_any_index r cols i 0 row).
  destruct (build_row r cols i row); simpl; now rewrite IH.
Qed.

(** Every document comes from one row, and carries its position. *)
Lemma elem_of_build_from (r : roles) cols (i : nat) (rws : list (list cell))
    (d : Document) :
  d ∈ build_from r cols i rws ->
  exists k row, rws !! k = Some row /\ build_row r cols (i + k) row = Some d.
Proof.
  revert i. induction rws as [|row rest IH]; intros i; simpl.
  - intros H. inversion H.
  - destruct (build_row r cols i row) as [d0|] eqn:E.
    + intros [-> | H]%elem_of_cons.
      * exists 0%nat, row. split; [reflexivity|]. now rewrite Nat.add_0_r.
      * destruct (IH _ H) as (k & row' & Hk & Hb).
        exists (S k), row'. split; [exact Hk|].
        now rewrite Nat.add_succ_r.
    + intros H. destruct (IH _ H) as (k & row' & Hk & Hb).
      exists (S k), row'. split; [exact Hk|].
      now rewrite Nat.add_succ_r.
Qed.

End Converters.

Section Extractor.

Import Excel2QA.

Lemma extract_row_answer_any_index (q a : label) (c : option label) cols
    (i j : nat) (row : list cell) :
  answer <$> extract_row q a c cols i row = answer <$> extract_row q a c cols j row.
Proof.
  unfold extract_row. destruct (row_answer a c cols row) as [ans used].
  now destruct (negb _ && negb _).
Qed.

Lemma extract_from_answers (q a : label) (c : option label) cols
    (i : nat) (rws : list (list cell)) :
  answer <$> extract_from q a c cols i rws
  = omap (fun row => answer <$> extract_row q a c cols 0 row) rws.
Proof.
  revert i. induction rws as [|row rest IH]; intros i; simpl; [reflexivity|].
  rewrite <- (extract_row_answer_any_index q a c cols i 0 row).
  destruct (extract_row q a c cols i row); simpl; now rewrite IH.
Qed.

Lemma row_corrected_stripped (c : option label) cols (row : list cell) :
  strip (row_corrected c cols row) = row_corrected c cols row.
Proof.
  unfold row_corrected. destruct c as [l|]; [|reflexivity].
  destruct (truthy l && notna (row_get cols row l)); [|reflexivity].
  apply strip_idem.
Qed.

Lemma extract_row_id (q a : label) (c : option label) cols (i : nat)
    (row : list cell) (p : QAPair) :
  extract_row q a c cols i row = Some p -> id p = S i.
Proof.
  unfold extract_row. destruct (row_answer a c cols row) as [ans used].
  destruct (negb _ && negb _); [discriminate|].
  intros [= <-]. simpl. lia.
Qed.

Lemma elem_of_extract_from (q a : label) (c : option label) cols (i : nat)
    (rws : list (list cell)) (p : QAPair) :
  p ∈ extract_from q a c cols i rws ->
  exists k row, rws !! k = Some row /\ extract_row q a c cols (i + k) row = Some p.
Proof.
  revert i. induction rws as [|row rest IH]; intros i; simpl.
  - intros H. inversion H.
  - destruct (extract_row q a c cols i row) as [p0|] eqn:E.
    + intros [-> | H]%elem_of_cons.
      * exists 0%nat, row. split; [reflexivity|]. now rewrite Nat.add_0_r.
      * destruct (IH _ H) as (k & row' & Hk & Hb).
        exists (S k), row'. split; [exact Hk|].
        now rewrite Nat.add_succ_r.
    + intros H. destruct (IH _ H) as (k & row' & Hk & Hb).
      exists (S k), row'. split; [exact Hk|].
      now rewrite Nat.add_succ_r.
Qed.

End Extractor.

(** ** Correction override (C1) *)

(** C1, as stated, fails in the QA-JSON extractor: for a row that is not
    reviewed (status 0) and carries a corrected answer, the extractor emits
    the corrected answer, where the policy selects the original one. *)
Lemma C1_extractor_overrides_unreviewed_row :
  exists p,
    Excel2QA.extract_qa_pairs (Some Fixtures.unreviewed_sheet) = [p]
    /\ Excel2QA.answer p = u "及时就医并退烧"
    /\ policy_answer (CInt 0) (u "及时就医并退烧") (u "多喝水") = u "多喝水"
    /\ Excel2QA.answer p
       <> policy_answer (CInt 0) (u "及时就医并退烧") (u "多喝水").
Proof.
  eexists. split; [vm_compute; reflexivity|].
  split; [reflexivity|]. split; [reflexivity|].
  vm_compute. discriminate.
Qed.

(** C1, amended. In the corpus builder the emitted answer is the trimmed
    corrected answer exactly when the status equals 1 and the corrected
    answer is not blank, and the trimmed original answer otherwise. In the
    extractor the emitted answer is the trimmed corrected answer whenever
    that is not blank, whatever the status, and the trimmed original answer
    otherwise. In both, the answers emitted for a permutation of the rows
    are a permutation of the answers emitted. *)
Theorem C1_override_policy_per_converter :
  (forall r cols i row d,
      RagExcel.build_row r cols i row = Some d ->
      RagExcel.answer d
      = policy_answer (RagExcel.row_status r cols row)
          (RagExcel.row_corrected r cols row) (RagExcel.row_answer r cols row)
      /\ (RagExcel.answer d = strip (RagExcel.row_corrected r cols row)
          /\ strip (RagExcel.row_corrected r cols row) <> []
          /\ eq_int (RagExcel.row_status r cols row) 1 = true
          \/ RagExcel.answer d = strip (RagExcel.row_answer r cols row)
             /\ (eq_int (RagExcel.row_status r cols row) 1 = false
                 \/ strip (RagExcel.row_corrected r cols row) = [])))
  /\ (forall q a c cols i row p,
         Excel2QA.extract_row q a c cols i row = Some p ->
         (Excel2QA.row_corrected c cols row <> [] ->
          Excel2QA.answer p = Excel2QA.row_corrected c cols row)
         /\ (Excel2QA.row_corrected c cols row = [] ->
             Excel2QA.answer p = strip (text_of (row_get cols row a))))
  /\ (forall r cols i j rws rws',
         rws ≡ₚ rws' ->
         RagExcel.answer <$> RagExcel.build_from r cols i rws
         ≡ₚ RagExcel.answer <$> RagExcel.build_from r cols j rws')
  /\ (forall q a c cols i j rws rws',
         rws ≡ₚ rws' ->
         Excel2QA.answer <$> Excel2QA.extract_from q a c cols i rws
         ≡ₚ Excel2QA.answer <$> Excel2QA.extract_from q a c cols j rws').
Proof.
  repeat split.
  - revert H. unfold RagExcel.build_row, policy_answer, RagExcel.final_answer.
    destruct (negb _ || negb _); [discriminate|]. now intros [= <-].
  - revert H. unfold RagExcel.build_row, RagExcel.final_answer.
    destruct (negb _ || negb _); [discriminate|]. intros [= <-]. simpl.
    destruct (eq_int _ 1) eqn:Hs; simpl.
    + destruct (truthy (strip (RagExcel.row_corrected r cols row))) eqn:Hc.
      * left. repeat split. now apply truthy_true.
      * right. split; [reflexivity|]. right. now apply truthy_false.
    + right. split; [reflexivity|]. now left.
  - intros Hne. revert H. unfold Excel2QA.extract_row, Excel2QA.row_answer.
    apply truthy_true in Hne. rewrite Hne.
    destruct (negb _ && negb _); [discriminate|]. intros [= <-]. simpl.
    apply row_corrected_stripped.
  - intros He. revert H. unfold Excel2QA.extract_row, Excel2QA.row_answer.
    rewrite He. simpl.
    destruct (negb _ && negb _); [discriminate|]. now intros [= <-].
  - intros r cols i j rws rws' HP. rewrite !build_from_answers. now rewrite HP.
  - intros q a c cols i j rws rws' HP. rewrite !extract_from_answers. now rewrite HP.
Qed.

(** The builder on the specification's example row: the reviewed row emits
    the corrected answer. *)
Lemma C1_override_policy_witness :
  exists d,
    RagExcel.build_row Fixtures.review_roles Fixtures.review_columns 0
      Fixtures.fever_reviewed = Some d
    /\ RagExcel.answer d = u "及时就医并退烧"
    /\ RagExcel.page_content d = u "Q: 发烧怎么办" ++ [10] ++ u "A: 及时就医并退烧".
Proof.
  eexists. split; [vm_compute; reflexivity|]. split; [|reflexivity].
  exact (proj1 (proj1 C1_override_policy_per_converter
                  Fixtures.review_roles Fixtures.review_columns 0%nat
                  Fixtures.fever_reviewed _ eq_refl)).
Defined.

(** ** Row filtering (C2) *)

(** C2, as stated, fails in the QA-JSON extractor: the row with question
    ["  "] and answer ["无"] is emitted, with an empty question. *)
Lemma C2_extractor_keeps_blank_question :
  exists p,
    Excel2QA.extract_qa_pairs (Some Fixtures.blank_sheet) = [p]
    /\ Excel2QA.question p = []
    /\ Excel2QA.answer p = u "无".
Proof. eexists. split; [vm_compute; reflexivity|]. now split. Qed.

(** C2, amended. The corpus builder emits no document for a row whose
    question or whose answer is blank: the loop body skips the row, and no
    document of the build carries its position. The extractor skips a row
    exactly when its question and its answer (after the override) are both
    blank. *)
Theorem C2_row_filtering_per_converter :
  (forall r df k row,
      rows df !! k = Some row ->
      strip (RagExcel.row_question r (columns df) row) = []
      \/ strip (RagExcel.row_answer r (columns df) row) = [] ->
      RagExcel.build_row r (columns df) k row = None
      /\ forall d, d ∈ RagExcel.build_documents r df -> RagExcel.row_index d <> k)
  /\ (forall q a c cols i row,
         Excel2QA.extract_row q a c cols i row = None
         <-> strip (text_of (row_get cols row q)) = []
             /\ strip (fst (Excel2QA.row_answer a c cols row)) = []).
Proof.
  split.
  - intros r df k row Hk Hblank.
    assert (Hnone : forall i, RagExcel.build_row r (columns df) i row = None).
    { intros i. unfold RagExcel.build_row.
      destruct Hblank as [-> | ->]; simpl; [reflexivity|].
      now rewrite orb_true_r. }
    split; [apply Hnone|].
    intros d Hd Hidx. unfold RagExcel.build_documents in Hd.
    apply elem_of_build_from in Hd as (k' & row' & Hk' & Hb).
    simpl in Hb. pose proof (build_row_index _ _ _ _ _ Hb) as Hi.
    rewrite Hidx in Hi. subst k'.
    rewrite Hk in Hk'. injection Hk' as <-.
    rewrite Hnone in Hb. discriminate.
  - intros q a c cols i row. unfold Excel2QA.extract_row.
    destruct (Excel2QA.row_answer a c cols row) as [ans used]. simpl.
    destruct (truthy (strip (text_of (row_get cols row q)))) eqn:Hq;
      destruct (truthy (strip ans)) eqn:Ha; simpl;
      first [apply truthy_true in Hq | apply truthy_false in Hq];
      first [apply truthy_true in Ha | apply truthy_false in Ha];
      split; try discriminate; try tauto.
Qed.

(** The builder on the blank-question row of the specification: skipped. *)
Lemma C2_row_filtering_witness :
  RagExcel.build_row Fixtures.review_roles (columns Fixtures.blank_sheet) 0
    Fixtures.blank_question = None.
Proof.
  exact (proj1 (proj1 C2_row_filtering_per_converter
                  Fixtures.review_roles Fixtures.blank_sheet 0%nat
                  Fixtures.blank_question eq_refl (or_introl eq_refl))).
Defined.

(** ** Column roles (C6) *)

(** C6, as stated, fails: a sheet with exactly two columns has at least two
    columns, and the builder's role resolution raises on it. *)
Lemma C6_two_columns_raise :
  (2 <= length (columns Fixtures.two_column_sheet))%nat
  /\ RagExcel.resolve_roles (columns Fixtures.two_column_sheet)
     = Raise (IndexError 2 2).
Proof. split; [simpl; lia | reflexivity]. Qed.

(** C6, amended. The builder's role resolution raises exactly when the
    sheet has fewer than three columns; with at least three columns it
    succeeds by position: question, answer and status are columns 0, 1 and
    2, and the corrected answer is column 3 when there is one. Accordingly
    the reading block of the build re-raises the failure as an [Exception]
    in the first case and hands the sheet and its roles on in the second. *)
Theorem C6_roles_need_three_columns (cols : list label) :
  ((length cols < 3)%nat <-> exists e, RagExcel.resolve_roles cols = Raise e)
  /\ ((3 <= length cols)%nat ->
      exists q a s,
        cols !! 0%nat = Some q /\ cols !! 1%nat = Some a /\ cols !! 2%nat = Some s
        /\ RagExcel.resolve_roles cols
           = Ok {| RagExcel.question_col := q; RagExcel.answer_col := a;
                   RagExcel.status_col := s;
                   RagExcel.corrected_col := cols !! 3%nat |})
  /\ (forall (FS : Type) (read_excel : FS -> string -> result DataFrame)
             (fs : FS) (rws : list (list cell)),
         read_excel fs RagExcel.file_path = Ok {| columns := cols; rows := rws |} ->
         ((length cols < 3)%nat ->
          exists msg, RagExcel.read_and_resolve read_excel fs = Raise (Exception msg))
         /\ ((3 <= length cols)%nat ->
             exists r, RagExcel.read_and_resolve read_excel fs
                       = Ok ({| columns := cols; rows := rws |}, r))).
Proof.
  assert (Hlt : (length cols < 3)%nat ->
                exists e, RagExcel.resolve_roles cols = Raise e).
  { destruct cols as [|q [|a [|s rest]]]; simpl; intros H;
      try (eexists; reflexivity); lia. }
  assert (Hge : (3 <= length cols)%nat ->
      exists q a s,
        cols !! 0%nat = Some q /\ cols !! 1%nat = Some a /\ cols !! 2%nat = Some s
        /\ RagExcel.resolve_roles cols
           = Ok {| RagExcel.question_col := q; RagExcel.answer_col := a;
                   RagExcel.status_col := s;
                   RagExcel.corrected_col := cols !! 3%nat |}).
  { destruct cols as [|q [|a [|s rest]]]; simpl; intros H; try lia.
    exists q, a, s. repeat split.
    unfold RagExcel.resolve_roles. simpl. destruct rest; reflexivity. }
  split; [|split].
  - split; [exact Hlt|]. intros [e He].
    destruct (Nat.lt_ge_cases (length cols) 3) as [Hc|Hc]; [exact Hc|].
    destruct (Hge Hc) as (q & a & s & _ & _ & _ & Hr). congruence.
  - exact Hge.
  - intros FS read_excel fs rws Hread. unfold RagExcel.read_and_resolve.
    rewrite Hread. simpl. split; intros Hc.
    + destruct (Hlt Hc) as [e ->]. simpl. eexists. reflexivity.
    + destruct (Hge Hc) as (q & a & s & _ & _ & _ & ->). simpl.
      eexists. reflexivity.
Qed.

(** Role resolution on the four review columns. *)
Lemma C6_roles_witness :
  RagExcel.resolve_roles Fixtures.review_columns = Ok Fixtures.review_roles.
Proof.
  destruct (proj1 (proj2 (C6_roles_need_three_columns Fixtures.review_columns)))
    as (q & a & s & Hq & Ha & Hs & Hr); [simpl; lia|].
  rewrite Hr. injection Hq as <-. injection Ha as <-. injection Hs as <-.
  reflexivity.
Defined.

(** ** The 200-row cap of the extractor (C10) *)

(** C10. [load_excel_data] keeps the first 200 rows of the sheet, so every
    pair of the dataset comes from one of the first 200 rows (its id is at
    most 200), and two sheets with the same header and the same first 200
    rows give the same dataset, whatever their later rows hold. *)
Theorem C10_first_200_rows_only :
  (forall df,
      Excel2QA.load_excel_data (Ok df) Excel2QA.default_max_rows
      = Some {| columns := columns df; rows := take 200 (rows df) |})
  /\ (forall df p,
         p ∈ Excel2QA.main_pairs (Ok df) ->
         exists k row,
           (k < 200)%nat /\ rows df !! k = Some row
           /\ Excel2QA.id p = S k /\ (Excel2QA.id p <= 200)%nat)
  /\ (forall df df',
         columns df' = columns df ->
         take 200 (rows df') = take 200 (rows df) ->
         Excel2QA.main_pairs (Ok df') = Excel2QA.main_pairs (Ok df)).
Proof.
  split; [reflexivity|]. split.
  - intros df p. unfold Excel2QA.main_pairs. simpl.
    destruct (Excel2QA.question_answer_cols (columns df)) as [[q a]|];
      [|intros H; inversion H].
    intros (k & row & Hk & Hp)%elem_of_extract_from.
    apply lookup_take_Some in Hk as [Hk Hlt]. simpl in Hp.
    apply extract_row_id in Hp.
    unfold Excel2QA.default_max_rows in Hlt.
    exists k, row. repeat split; try assumption; lia.
  - intros df df' Hc Hr.
    unfold Excel2QA.main_pairs, Excel2QA.default_max_rows. simpl.
    now rewrite Hc, Hr.
Qed.

(** A sheet of 201 rows and the same sheet with another row 201. *)
Lemma C10_first_200_rows_witness :
  Excel2QA.main_pairs
    (Ok {| columns := [u "问题"; u "答案"];
           rows := Fixtures.filler_rows ++ [[CStr (u "x"); CStr (u "y")]] |})
  = Excel2QA.main_pairs
      (Ok {| columns := [u "问题"; u "答案"];
             rows := Fixtures.filler_rows ++ [[CStr (u "z"); CNa]] |}).
Proof.
  apply (proj2 (proj2 C10_first_200_rows_only)); reflexivity.
Defined.

(** ** Build idempotence (C8) *)

Section BuildOnce.

Import RagExcel.

Context {FS : Type}.
Variable path_exists : FS -> string -> bool.
Variable read_excel : FS -> string -> result DataFrame.
Variable split_documents : list Document -> list Document.
Variable from_documents : list Document -> string -> FS -> FS * option exn.

Let run := RagExcel.run path_exists read_excel split_documents from_documents.

Lemma run_existing (fs : FS) :
  path_exists fs persistent_directory = true ->
  run fs = ([Report (u "Vector store already exists. No need to initialize.")],
            fs, AlreadyExists).
Proof. intros H. unfold run, RagExcel.run. now rewrite H. Qed.

Lemma run_missing (fs : FS) :
  path_exists fs persistent_directory = false ->
  snd (run fs) <> AlreadyExists.
Proof.
  intros H. unfold run, RagExcel.run. rewrite H. simpl.
  destruct (path_exists fs file_path); simpl; [|discriminate].
  destruct (read_and_resolve read_excel fs) as [[df r]|e]; [|discriminate].
  destruct (from_documents _ _ fs) as [fs' [e|]]; discriminate.
Qed.

(** A run that builds calls the store and gets no exception from it. *)
Lemma run_built (fs fs1 : FS) (t1 : list event) (documents docs : list Document) :
  run fs = (t1, fs1, Built documents docs) ->
  from_documents docs persistent_directory fs = (fs1, None).
Proof.
  unfold run, RagExcel.run.
  destruct (path_exists fs persistent_directory); simpl; [discriminate|].
  destruct (path_exists fs file_path); simpl; [|discriminate].
  destruct (read_and_resolve read_excel fs) as [[df r]|e]; [|discriminate].
  destruct (from_documents _ _ fs) as [fs' [e|]] eqn:E; [discriminate|].
  intros [= <- <- <- <-]. exact E.
Qed.

End BuildOnce.

(** C8. When the persistent directory exists, a run performs no build step:
    it only reports that the store exists and leaves the file system as it
    was, whatever else the file system holds; when it does not exist, the
    run does not take that branch. Given that the store, once written
    without an exception, leaves its directory in existence, of two
    consecutive runs at most one builds, and the run after a build only
    reports. *)
Theorem C8_build_at_most_once {FS : Type}
    (path_exists : FS -> string -> bool)
    (read_excel : FS -> string -> result DataFrame)
    (split_documents : list RagExcel.Document -> list RagExcel.Document)
    (from_documents : list RagExcel.Document -> string -> FS -> FS * option exn)
    (fs : FS) :
  (forall docs dir fs0 fs', from_documents docs dir fs0 = (fs', None) ->
                            path_exists fs' dir = true) ->
  let run := RagExcel.run path_exists read_excel split_documents from_documents in
  let already :=
    [RagExcel.Report (u "Vector store already exists. No need to initialize.")] in
  (path_exists fs RagExcel.persistent_directory = true ->
   run fs = (already, fs, RagExcel.AlreadyExists)
   /\ List.filter RagExcel.is_build_step (fst (fst (run fs))) = [])
  /\ (path_exists fs RagExcel.persistent_directory = false ->
      snd (run fs) <> RagExcel.AlreadyExists)
  /\ (forall t1 fs1 o1 t2 fs2 o2,
         run fs = (t1, fs1, o1) -> run fs1 = (t2, fs2, o2) ->
         RagExcel.is_built o1 && RagExcel.is_built o2 = false
         /\ (RagExcel.is_built o1 = true ->
             t2 = already /\ fs2 = fs1 /\ o2 = RagExcel.AlreadyExists)).
Proof.
  intros Hpersist run already. split; [|split].
  - intros H. subst run. rewrite (run_existing _ _ _ _ fs H). now split.
  - apply run_missing.
  - intros t1 fs1 o1 t2 fs2 o2 H1 H2.
    destruct o1 as [|documents docs|e]; simpl; try (split; [reflexivity|discriminate]).
    subst run. apply run_built in H1. apply Hpersist in H1.
    rewrite (run_existing _ _ _ _ fs1 H1) in H2.
    injection H2 as <- <- <-. now repeat split.
Qed.

(** Two runs from a file system where only the sheet exists: the first
    builds, the second reports. *)
Lemma C8_build_at_most_once_witness :
  exists t1 w1 documents docs,
    World.run World.fresh = (t1, w1, RagExcel.Built documents docs)
    /\ World.run w1
       = ([RagExcel.Report (u "Vector store already exists. No need to initialize.")],
          w1, RagExcel.AlreadyExists).
Proof.
  destruct (World.run World.fresh) as [[t1 w1] o1] eqn:E1.
  destruct (World.run w1) as [[t2 w2] o2] eqn:E2.
  assert (Hb : RagExcel.is_built o1 = true).
  { apply (f_equal snd) in E1. simpl in E1. rewrite <- E1. vm_compute. reflexivity. }
  destruct (proj2 (proj2 (C8_build_at_most_once World.path_exists World.read_excel
                            (fun docs => docs) World.from_documents World.fresh
                            ltac:(intros docs dir w w' [= <-]; unfold World.path_exists;
                                  simpl; rewrite bool_decide_eq_true_2;
                                  [reflexivity | set_solver])))
              t1 w1 o1 t2 w2 o2 E1 E2) as [_ Hsecond].
  destruct (Hsecond Hb) as (-> & -> & ->).
  destruct o1 as [|documents docs|e]; try discriminate.
  exists t1, w1, documents, docs. now split.
Defined.

(** ** Writing a line of the log *)

Example dumps_escapes :
  JsonLine.dumps {| user_input := u "a";
                    response := [34; 92; 10; 13; 9; 8; 12; 1; 31; 127];
                    retrieved_contexts := u "多" |}
  = [123; 34; 117; 115; 101; 114; 95; 105; 110; 112; 117; 116; 34; 58; 32;
     34; 97; 34; 44; 32; 34; 114; 101; 115; 112; 111; 110; 115; 101; 34; 58;
     32; 34; 92; 34; 92; 92; 92; 110; 92; 114; 92; 116; 92; 98; 92; 102; 92;
     117; 48; 48; 48; 49; 92; 117; 48; 48; 49; 102; 127; 34; 44; 32; 34; 114;
     101; 116; 114; 105; 101; 118; 101; 100; 95; 99; 111; 110; 116; 101; 120;
     116; 115; 34; 58; 32; 34; 22810; 34; 125].
Proof. reflexivity. Qed.

Example encode_error_none : JsonLine.encode_error (u "多喝水") = None.
Proof. reflexivity. Qed.

Example encode_error_one :
  JsonLine.encode_error [97; 0x103FF; 0xDC00; 98]
  = Some (Exception
            (u "'utf-8' codec can't encode character '\udc00' in position 2: surrogates not allowed")).
Proof. reflexivity. Qed.

Example encode_error_run :
  JsonLine.encode_error [120; 121; 0xD800; 0xD801; 122; 0xD802]
  = Some (Exception
            (u "'utf-8' codec can't encode characters in position 2-3: surrogates not allowed")).
Proof. reflexivity. Qed.

Section LineFacts.

Import JsonLine.

Lemma encodable_app (s t : pystr) :
  encodable (s ++ t) = encodable s && encodable t.
Proof. apply forallb_app. Qed.

Lemma below_surrogates (c : N) : (c < 0xD800) -> is_surrogate c = false.
Proof.
  intros H. unfold is_surrogate. apply andb_false_iff. left.
  apply N.leb_gt. exact H.
Qed.

Lemma encodable_ascii (s : pystr) :
  Forall (fun c => (c < 128)) s -> encodable s = true.
Proof.
  induction 1 as [|c s Hc _ IH]; simpl; [reflexivity|].
  rewrite below_surrogates, IH; [reflexivity | lia].
Qed.

Lemma utf8_decode_ascii (bs : list N) :
  Forall (fun c => (c < 128)) bs -> utf8_decode bs = bs.
Proof.
  induction 1 as [|b bs Hb _ IH]; [reflexivity|].
  cbn [utf8_decode]. apply N.ltb_lt in Hb. rewrite Hb. now rewrite IH.
Qed.

Lemma string_of_uint_digits (d : Decimal.uint) :
  Forall (fun c => c < 128)
    (List.map N_of_ascii (list_ascii_of_string (NilEmpty.string_of_uint d))).
Proof.
  induction d; cbn [NilEmpty.string_of_uint list_ascii_of_string List.map];
    try (apply Forall_cons_2; [reflexivity | assumption]).
  apply Forall_nil_2.
Qed.

Lemma string_of_int_digits (d : Decimal.signed_int) :
  Forall (fun c => c < 128)
    (List.map N_of_ascii (list_ascii_of_string (NilZero.string_of_int d))).
Proof.
  assert (H : forall d', Forall (fun c => c < 128)
                (List.map N_of_ascii
                   (list_ascii_of_string (NilZero.string_of_uint d')))).
  { intros d'. destruct d'; try apply string_of_uint_digits.
    apply Forall_cons_2; [reflexivity | apply Forall_nil_2]. }
  destruct d as [d|d]; cbn [NilZero.string_of_int list_ascii_of_string List.map].
  - apply H.
  - apply Forall_cons_2; [reflexivity | apply H].
Qed.

Lemma str_of_Z_ascii (z : Z) : Forall (fun c => c < 128) (str_of_Z z).
Proof.
  unfold str_of_Z, u.
  rewrite (utf8_decode_ascii _ (string_of_int_digits (Z.to_int z))).
  apply string_of_int_digits.
Qed.

Lemma hex_digit_ascii (n : N) : (n < 16) -> (hex_digit n < 128).
Proof. intros H. unfold hex_digit. destruct (n <? 10); lia. Qed.

Lemma hex4_ascii (c : N) : Forall (fun x => (x < 128)) (hex4 c).
Proof.
  unfold hex4.
  repeat (apply Forall_cons_2;
          [apply hex_digit_ascii; apply N.mod_lt; discriminate|]).
  apply Forall_nil_2.
Qed.

Lemma encodable_escape_char (c : N) :
  encodable (escape_char c) = negb (is_surrogate c).
Proof.
  unfold escape_char.
  destruct (N.eqb_spec c 34) as [->|_]; [reflexivity|].
  destruct (N.eqb_spec c 92) as [->|_]; [reflexivity|].
  destruct (N.eqb_spec c 10) as [->|_]; [reflexivity|].
  destruct (N.eqb_spec c 13) as [->|_]; [reflexivity|].
  destruct (N.eqb_spec c 9) as [->|_]; [reflexivity|].
  destruct (N.eqb_spec c 8) as [->|_]; [reflexivity|].
  destruct (N.eqb_spec c 12) as [->|_]; [reflexivity|].
  destruct (N.ltb_spec c 32) as [Hc|_].
  - rewrite below_surrogates by lia. simpl negb.
    apply encodable_ascii. apply Forall_app. split; [|apply hex4_ascii].
    repeat (apply Forall_cons_2; [reflexivity|]). apply Forall_nil_2.
  - simpl. now rewrite andb_true_r.
Qed.

Lemma encodable_dumps_str (s : pystr) : encodable (dumps_str s) = encodable s.
Proof.
  unfold dumps_str. rewrite !encodable_app.
  change (encodable [34]) with true. rewrite andb_true_r. cbn [andb].
  induction s as [|c s IH]; [reflexivity|].
  cbn [List.map concat]. rewrite encodable_app, encodable_escape_char, IH.
  reflexivity.
Qed.

(** A record can be written exactly when its three fields can be encoded. *)
Lemma encodable_line (r : json_record) :
  encodable (dumps r ++ [10])
  = encodable (user_input r) && encodable (response r)
    && encodable (retrieved_contexts r).
Proof.
  unfold dumps. rewrite !encodable_app, !encodable_dumps_str.
  change (encodable (u "{")) with true.
  change (encodable (u ": ")) with true.
  change (encodable (u ", ")) with true.
  change (encodable (u "}")) with true.
  change (encodable (u "user_input")) with true.
  change (encodable (u "response")) with true.
  change (encodable (u "retrieved_contexts")) with true.
  change (encodable [10]) with true.
  cbn [andb]. rewrite !andb_true_r, andb_assoc. reflexivity.
Qed.

Lemma encode_error_from_encodable (text : pystr) :
  encodable text = true -> forall start, encode_error_from start text = None.
Proof.
  induction text as [|c text IH]; intros H start; [reflexivity|].
  simpl in H. apply andb_true_iff in H as [Hc Ht].
  cbn [encode_error_from]. apply negb_true_iff in Hc. rewrite Hc. now apply IH.
Qed.

(** The message of the exception of a text that cannot be encoded is
    plain ASCII. *)
Lemma encode_error_from_surrogate (text : pystr) :
  encodable text = false ->
  forall start, exists msg,
    encode_error_from start text = Some (Exception msg)
    /\ encodable msg = true.
Proof.
  induction text as [|c text IH]; intros H start; [discriminate|].
  cbn [encode_error_from]. simpl in H.
  destruct (is_surrogate c) eqn:Hc.
  - eexists. split; [reflexivity|].
    destruct (surrogate_run text); rewrite !encodable_app.
    + rewrite (encodable_ascii _ (hex4_ascii c)).
      rewrite (encodable_ascii _ (str_of_Z_ascii _)). reflexivity.
    + rewrite !(encodable_ascii _ (str_of_Z_ascii _)). reflexivity.
  - simpl in H. now apply IH.
Qed.

Lemma write_inv (f f' : list json_record) (r : json_record) :
  write f r = Ok f' -> f' = f ++ [r].
Proof.
  unfold write. destruct (encode_error _); [discriminate|]. now intros [= <-].
Qed.

Lemma encode_error_None (r : json_record) :
  encode_error (dumps r ++ [10]) = None
  <-> encodable (user_input r) && encodable (response r)
      && encodable (retrieved_contexts r) = true.
Proof.
  rewrite <- encodable_line. split.
  - intros H. destruct (encodable (dumps r ++ [10])) eqn:E; [reflexivity|].
    destruct (encode_error_from_surrogate _ E 0) as (msg & Hm & _).
    unfold encode_error in H. congruence.
  - intros H. now apply encode_error_from_encodable.
Qed.

Lemma encode_error_Some (r : json_record) (e : exn) :
  encode_error (dumps r ++ [10]) = Some e -> encodable (str_exn e) = true.
Proof.
  intros H. destruct (encodable (dumps r ++ [10])) eqn:E.
  - unfold encode_error in H.
    now rewrite (encode_error_from_encodable _ E) in H.
  - destruct (encode_error_from_surrogate _ E 0) as (msg & Hm & Hmsg).
    unfold encode_error in H. rewrite Hm in H. injection H as <-. exact Hmsg.
Qed.

Lemma write_encodable (f : list json_record) (r : json_record) :
  encodable (user_input r) = true -> encodable (response r) = true ->
  encodable (retrieved_contexts r) = true ->
  write f r = Ok (f ++ [r]).
Proof.
  intros H1 H2 H3. unfold write.
  rewrite (proj2 (encode_error_None r)); [reflexivity|].
  now rewrite H1, H2, H3.
Qed.

Lemma write_writable (f : list json_record) (r : json_record) :
  writable r = true -> JsonLine.write f r = Ok (f ++ [r]).
Proof.
  intros H. unfold JsonLine.write.
  now rewrite (proj2 (encode_error_None r) H).
Qed.

Lemma write_unwritable (f : list json_record) (r : json_record) :
  writable r = false ->
  exists e, JsonLine.write f r = Raise e
            /\ JsonLine.encode_error (JsonLine.dumps r ++ [10]) = Some e
            /\ JsonLine.encodable (str_exn e) = true.
Proof.
  intros H. unfold JsonLine.write.
  destruct (JsonLine.encode_error (JsonLine.dumps r ++ [10])) as [e|] eqn:E.
  - exists e. repeat split. exact (encode_error_Some r e E).
  - apply encode_error_None in E. unfold writable in H. congruence.
Qed.

Lemma write_raise (f : list json_record) (r : json_record) (e : exn) :
  JsonLine.encode_error (JsonLine.dumps r ++ [10]) = Some e ->
  JsonLine.write f r = Raise e.
Proof. intros H. unfold JsonLine.write. now rewrite H. Qed.

End LineFacts.

(** ** The batch runs (C3, C4, C5, C7) *)

Section BatchRuns.

Lemma has_keys_getitem (qa_pair : gmap string pystr) :
  has_keys qa_pair ->
  getitem qa_pair "question" = Ok (question_of qa_pair)
  /\ getitem qa_pair "answer" = Ok (truth_of qa_pair).
Proof.
  intros [[q Hq] [a Ha]]. unfold getitem, question_of, truth_of.
  rewrite Hq, Ha. split; reflexivity.
Qed.

(** The task of a complete pair returns the record of the pair. *)
Lemma process_single_question_keys (invoke : pystr -> result pystr)
    (qa_pair : gmap string pystr) :
  has_keys qa_pair ->
  exists r, BaseLLM.process_single_question invoke qa_pair = Ok r
            /\ BaseLLM.json r
               = record_of qa_pair
                   (BaseLLM.get_llm_response invoke (question_of qa_pair)).
Proof.
  intros [Hq Ha]%has_keys_getitem. unfold BaseLLM.process_single_question.
  rewrite Hq. simpl. rewrite Ha. simpl. eexists. split; reflexivity.
Qed.

(** A task raises only for a missing key. *)
Lemma process_single_question_raise (invoke : pystr -> result pystr)
    (qa_pair : gmap string pystr) (e : exn) :
  BaseLLM.process_single_question invoke qa_pair = Raise e ->
  JsonLine.encodable (str_exn e) = true.
Proof.
  unfold BaseLLM.process_single_question, getitem.
  destruct (qa_pair !! "question"%string); simpl; [|now intros [= <-]].
  destruct (qa_pair !! "answer"%string); simpl; [discriminate | now intros [= <-]].
Qed.

Lemma submit_all_lookup (invoke : nat -> pystr -> result pystr)
    (qa_pairs : list (gmap string pystr)) :
  forall (i k : nat),
    BaseLLM.submit_all invoke i qa_pairs !! k
    = BaseLLM.process_single_question (invoke (i + k)%nat) <$> qa_pairs !! k.
Proof.
  induction qa_pairs as [|p rest IH]; intros i k; [reflexivity|].
  destruct k as [|k]; simpl.
  - now rewrite Nat.add_0_r.
  - rewrite IH. now rewrite Nat.add_succ_r.
Qed.

Lemma length_submit_all (invoke : nat -> pystr -> result pystr) (i : nat)
    (qa_pairs : list (gmap string pystr)) :
  length (BaseLLM.submit_all invoke i qa_pairs) = length qa_pairs.
Proof.
  revert i. induction qa_pairs as [|p rest IH]; intros i; simpl; [reflexivity|].
  now rewrite IH.
Qed.

Lemma error_record_complete (last_pair : gmap string pystr) (e : exn) :
  has_keys last_pair ->
  BaseLLM.error_record last_pair e
  = Ok (record_of last_pair (u "Error: " ++ str_exn e)).
Proof.
  intros Hk. unfold BaseLLM.error_record.
  destruct (has_keys_getitem last_pair Hk) as [-> ->]. reflexivity.
Qed.

(** The handler of [basellm.py] with a complete last pair that can be
    encoded: it writes its line for every exception whose message can be
    encoded. *)
Lemma handler_writes (last_pair : gmap string pystr) (e : exn)
    (f : list json_record) :
  has_keys last_pair -> pair_encodable last_pair ->
  JsonLine.encodable (str_exn e) = true ->
  (rec ← BaseLLM.error_record last_pair e; JsonLine.write f rec)
  = Ok (f ++ [record_of last_pair (u "Error: " ++ str_exn e)]).
Proof.
  intros Hk [Hq Ha] He. rewrite (error_record_complete last_pair e Hk).
  apply write_encodable; [exact Hq | | exact Ha].
  simpl. rewrite He. reflexivity.
Qed.

(** One round of the collecting loop. *)
Lemma collect_step (last_pair : gmap string pystr)
    (future : result BaseLLM.task_result)
    (rest : list (result BaseLLM.task_result)) (f : list json_record) :
  has_keys last_pair -> pair_encodable last_pair ->
  (forall e, future = Raise e -> JsonLine.encodable (str_exn e) = true) ->
  BaseLLM.collect last_pair (future :: rest) f
  = BaseLLM.collect last_pair rest (f ++ [collected_line last_pair future]).
Proof.
  intros Hk Hp Hf. cbn [BaseLLM.collect]. unfold collected_line.
  destruct future as [r|e]; cbn [mbind result_bind].
  - unfold JsonLine.write at 1.
    destruct (JsonLine.encode_error (JsonLine.dumps (BaseLLM.json r) ++ [10]))
      as [e|] eqn:E; [|reflexivity].
    now rewrite (handler_writes last_pair e f Hk Hp (encode_error_Some _ _ E)).
  - now rewrite (handler_writes last_pair e f Hk Hp (Hf e eq_refl)).
Qed.

(** With a complete last pair that can be encoded the collecting loop
    finishes with one line per future. *)
Lemma collect_total (last_pair : gmap string pystr)
    (futures : list (result BaseLLM.task_result)) :
  has_keys last_pair -> pair_encodable last_pair ->
  Forall (fun future => forall e, future = Raise e ->
                                  JsonLine.encodable (str_exn e) = true) futures ->
  forall f : list json_record,
    BaseLLM.collect last_pair futures f
    = (f ++ List.map (collected_line last_pair) futures, None).
Proof.
  intros Hk Hp. induction 1 as [|future rest Hf _ IH]; intros f.
  - simpl. now rewrite app_nil_r.
  - rewrite (collect_step last_pair future rest f Hk Hp Hf), IH, <- app_assoc.
    reflexivity.
Qed.

Lemma submit_all_raise (invoke : nat -> pystr -> result pystr)
    (qa_pairs : list (gmap string pystr)) (i : nat) :
  Forall (fun future => forall e, future = Raise e ->
                                  JsonLine.encodable (str_exn e) = true)
    (BaseLLM.submit_all invoke i qa_pairs).
Proof.
  revert i. induction qa_pairs as [|p rest IH]; intros i; simpl.
  - apply Forall_nil_2.
  - apply Forall_cons_2; [|apply IH].
    intros e He. exact (process_single_question_raise _ _ _ He).
Qed.

(** The run of [basellm.py] with a complete last pair that can be encoded. *)
Lemma process_all_questions_total (invoke : nat -> pystr -> result pystr)
    (qa_pairs : list (gmap string pystr)) (last_pair : gmap string pystr)
    (file : list json_record) :
  last qa_pairs = Some last_pair ->
  has_keys last_pair -> pair_encodable last_pair ->
  BaseLLM.process_all_questions invoke qa_pairs file
  = (List.map (collected_line last_pair) (BaseLLM.submit_all invoke 0 qa_pairs), None).
Proof.
  intros Hlast Hk Hp. unfold BaseLLM.process_all_questions. rewrite Hlast.
  apply (collect_total last_pair _ Hk Hp (submit_all_raise invoke qa_pairs 0) []).
Qed.

(** The line of a complete pair in that run. *)
Lemma process_all_questions_line (invoke : nat -> pystr -> result pystr)
    (qa_pairs : list (gmap string pystr)) (last_pair : gmap string pystr)
    (file : list json_record) (k : nat) (p : gmap string pystr) :
  last qa_pairs = Some last_pair ->
  has_keys last_pair -> pair_encodable last_pair ->
  qa_pairs !! k = Some p -> has_keys p ->
  let rec := record_of p (BaseLLM.get_llm_response (invoke k) (question_of p)) in
  fst (BaseLLM.process_all_questions invoke qa_pairs file) !! k
  = Some match JsonLine.encode_error (JsonLine.dumps rec ++ [10]) with
         | None => rec
         | Some e => record_of last_pair (u "Error: " ++ str_exn e)
         end.
Proof.
  intros Hlast Hk Hp Hkp Hkeys rec.
  rewrite (process_all_questions_total invoke qa_pairs last_pair file Hlast Hk Hp).
  cbn [fst].
  change (List.map (collected_line last_pair) (BaseLLM.submit_all invoke 0 qa_pairs))
    with (collected_line last_pair <$> BaseLLM.submit_all invoke 0 qa_pairs).
  rewrite list_lookup_fmap, submit_all_lookup, Hkp. cbn [fmap option_fmap option_map].
  destruct (process_single_question_keys (invoke k) p Hkeys) as (r & Hr1 & Hr2).
  cbn [Nat.add]. rewrite Hr1. unfold collected_line. now rewrite Hr2.
Qed.

(** The handler of [rag.py] for a pair and a message that can be encoded. *)
Lemma handle_writes (p : gmap string pystr) (e : exn) (f : list json_record) :
  pair_encodable p -> JsonLine.encodable (str_exn e) = true ->
  Rag.handle (question_of p) e (truth_of p) f
  = Ok (f ++ [Rag.error_record (question_of p) e (truth_of p)]).
Proof.
  intros [Hq Ha] He. unfold Rag.handle.
  apply write_encodable; [exact Hq | | exact Ha].
  simpl. rewrite He. reflexivity.
Qed.

(** One round of the loop of [rag.py] on a complete pair. *)
Lemma loop_step (invoke : nat -> pystr -> result Rag.chain_result) (i : nat)
    (p : gmap string pystr) (rest : list (gmap string pystr))
    (results f : list json_record) :
  has_keys p -> pair_encodable p ->
  (forall e, invoke i (question_of p) = Raise e ->
             JsonLine.encodable (str_exn e) = true) ->
  Rag.loop invoke i (p :: rest) results f
  = Rag.loop invoke (S i) rest (results ++ successes invoke i p)
      (f ++ [rag_line invoke i p]).
Proof.
  intros Hk Hp He. cbn [Rag.loop].
  destruct (has_keys_getitem p Hk) as [-> ->].
  unfold rag_line, successes.
  destruct (invoke i (question_of p)) as [r|e].
  - unfold JsonLine.write at 1.
    destruct (JsonLine.encode_error _) as [e|] eqn:E.
    + now rewrite (handle_writes p e f Hp (encode_error_Some _ _ E)).
    + reflexivity.
  - rewrite (handle_writes p e f Hp (He e eq_refl)). now rewrite app_nil_r.
Qed.

Lemma messages_encodable_cons (invoke : nat -> pystr -> result Rag.chain_result)
    (i : nat) (p : gmap string pystr) (rest : list (gmap string pystr)) :
  messages_encodable (fun k => invoke (i + k)%nat) (p :: rest) ->
  (forall e, invoke i (question_of p) = Raise e ->
             JsonLine.encodable (str_exn e) = true)
  /\ messages_encodable (fun k => invoke (S i + k)%nat) rest.
Proof.
  intros H. split.
  - intros e He. apply (H 0%nat p e); [reflexivity|]. now rewrite Nat.add_0_r.
  - intros k q e Hk He. apply (H (S k) q e); [exact Hk|].
    now rewrite Nat.add_succ_r.
Qed.

(** The loop of [rag.py] on complete pairs that can be encoded, the
    messages of the failing calls too: it finishes, appends one line per
    pair, and returns the records of the calls that returned. *)
Lemma loop_complete_pairs (invoke : nat -> pystr -> result Rag.chain_result)
    (qa_pairs : list (gmap string pystr)) :
  Forall has_keys qa_pairs -> Forall pair_encodable qa_pairs ->
  forall (i : nat) (results f : list json_record),
    messages_encodable (fun k => invoke (i + k)%nat) qa_pairs ->
    Rag.loop invoke i qa_pairs results f
    = (f ++ imap (fun k => rag_line invoke (i + k)) qa_pairs,
       Ok (results ++ mjoin (imap (fun k => successes invoke (i + k)) qa_pairs))).
Proof.
  intros Hk. induction Hk as [|p rest Hp _ IH]; intros Henc i results f Hm.
  - simpl. now rewrite !app_nil_r.
  - apply Forall_cons_1 in Henc as [Hpe Henc].
    apply messages_encodable_cons in Hm as [He Hm].
    rewrite (loop_step invoke i p rest results f Hp Hpe He).
    rewrite (IH Henc (S i) _ _ Hm), <- !app_assoc. cbn [imap].
    rewrite Nat.add_0_r.
    rewrite (imap_ext (fun k => rag_line invoke (S i + k))
               ((fun k => rag_line invoke (i + k)) ∘ S) rest)
      by (intros k x _; simpl; now rewrite Nat.add_succ_r).
    rewrite (imap_ext (fun k => successes invoke (S i + k))
               ((fun k => successes invoke (i + k)) ∘ S) rest)
      by (intros k x _; simpl; now rewrite Nat.add_succ_r).
    reflexivity.
Qed.

Lemma getitem_keys (p : gmap string pystr) (q a : pystr) :
  getitem p "question" = Ok q -> getitem p "answer" = Ok a ->
  has_keys p /\ q = question_of p /\ a = truth_of p.
Proof.
  unfold getitem, has_keys, question_of, truth_of.
  destruct (p !! "question"%string) as [q'|]; [|discriminate].
  destruct (p !! "answer"%string) as [a'|]; [|discriminate].
  intros [= <-] [= <-]. repeat split; eauto.
Qed.

(** One round of the loop of [rag.py]: a pair without one of its keys ends
    the run; so does a pair whose line cannot be written; otherwise the
    line is appended and the loop goes on. *)
Lemma loop_round (invoke : nat -> pystr -> result Rag.chain_result) (i : nat)
    (p : gmap string pystr) (rest : list (gmap string pystr))
    (results f : list json_record) :
  (has_keys p /\ writable (rag_line invoke i p) = true
   /\ Rag.loop invoke i (p :: rest) results f
      = Rag.loop invoke (S i) rest (results ++ successes invoke i p)
          (f ++ [rag_line invoke i p]))
  \/ (exists e, Rag.loop invoke i (p :: rest) results f = (f, Raise e)).
Proof.
  cbn [Rag.loop].
  destruct (getitem p "question") as [q|e] eqn:Hq; [|right; now exists e].
  destruct (getitem p "answer") as [a|e] eqn:Ha; [|right; now exists e].
  destruct (getitem_keys p q a Hq Ha) as (Hk & -> & ->).
  unfold Rag.handle, rag_line, successes.
  destruct (invoke i (question_of p)) as [r|e].
  - destruct (JsonLine.encode_error
                (JsonLine.dumps (Rag.result_record (question_of p) r (truth_of p))
                 ++ [10])) as [e|] eqn:E.
    + rewrite (write_raise f _ e E).
      destruct (writable (Rag.error_record (question_of p) e (truth_of p))) eqn:W.
      * left. rewrite (write_writable _ _ W).
        split; [exact Hk|]. split; reflexivity.
      * right. destruct (write_unwritable f _ W) as (e' & -> & _). now exists e'.
    + apply encode_error_None in E. left. rewrite (write_writable _ _ E).
      split; [exact Hk|]. split; [exact E | reflexivity].
  - destruct (writable (Rag.error_record (question_of p) e (truth_of p))) eqn:W.
    + left. rewrite (write_writable _ _ W), app_nil_r.
      split; [exact Hk|]. split; reflexivity.
    + right. destruct (write_unwritable f _ W) as (e' & -> & _). now exists e'.
Qed.

(** The loop of [rag.py] on any input: it appends the lines of the first
    [n] pairs, each of which has its keys and can be encoded, and it
    returns exactly when [n] is the number of pairs. *)
Lemma loop_prefix (invoke : nat -> pystr -> result Rag.chain_result)
    (qa_pairs : list (gmap string pystr)) :
  forall (i : nat) (results f : list json_record),
    exists n : nat,
      (n <= length qa_pairs)%nat
      /\ fst (Rag.loop invoke i qa_pairs results f)
         = f ++ imap (fun k => rag_line invoke (i + k)) (take n qa_pairs)
      /\ Forall has_keys (take n qa_pairs)
      /\ Forall (fun r => writable r = true)
           (imap (fun k => rag_line invoke (i + k)) (take n qa_pairs))
      /\ (n = length qa_pairs
          <-> exists results', snd (Rag.loop invoke i qa_pairs results f) = Ok results').
Proof.
  induction qa_pairs as [|p rest IH]; intros i results f.
  - exists 0%nat. simpl. rewrite app_nil_r. repeat split; eauto using Forall_nil_2.
  - destruct (loop_round invoke i p rest results f) as [(Hk & W & ->)|[e ->]].
    + destruct (IH (S i) (results ++ successes invoke i p) (f ++ [rag_line invoke i p]))
        as (n & Hn & -> & Hkeys & Hw & Hret).
      exists (S n). cbn [take imap length]. rewrite Nat.add_0_r, <- app_assoc.
      rewrite (imap_ext ((fun k => rag_line invoke (i + k)) ∘ S)
                 (fun k => rag_line invoke (S i + k)) (take n rest))
        by (intros k x _; simpl; now rewrite Nat.add_succ_r).
      split; [lia|]. split; [reflexivity|].
      split; [now apply Forall_cons_2|]. split; [now apply Forall_cons_2|].
      rewrite <- Hret. split; [now intros [= ->] | now intros ->].
    + exists 0%nat. simpl. rewrite app_nil_r.
      split; [lia|]. split; [reflexivity|]. split; [apply Forall_nil_2|].
      split; [apply Forall_nil_2|]. split; [discriminate | now intros [res [=]]].
Qed.

(** One round of the collecting loop of [basellm.py]: the record of the
    task when it can be written, else the error record of the handler when
    the last pair has its keys and that record can be written, else the
    run ends. *)
Lemma collect_round (last_pair : gmap string pystr)
    (future : result BaseLLM.task_result)
    (rest : list (result BaseLLM.task_result)) (f : list json_record) :
  (writable (collected_line last_pair future) = true
   /\ BaseLLM.collect last_pair (future :: rest) f
      = BaseLLM.collect last_pair rest (f ++ [collected_line last_pair future]))
  \/ (exists e, BaseLLM.collect last_pair (future :: rest) f = (f, Some e)).
Proof.
  assert (Hhandler : forall e,
             (writable (record_of last_pair (u "Error: " ++ str_exn e)) = true
              /\ (rec ← BaseLLM.error_record last_pair e; JsonLine.write f rec)
                 = Ok (f ++ [record_of last_pair (u "Error: " ++ str_exn e)]))
             \/ (exists e', (rec ← BaseLLM.error_record last_pair e; JsonLine.write f rec)
                            = Raise e')).
  { intros e. unfold BaseLLM.error_record.
    destruct (getitem last_pair "question") as [q|e'] eqn:Hq; [|right; now exists e'].
    destruct (getitem last_pair "answer") as [a|e'] eqn:Ha; [|right; now exists e'].
    destruct (getitem_keys last_pair q a Hq Ha) as (_ & -> & ->).
    cbn [mbind result_bind].
    change {| user_input := question_of last_pair;
              response := u "Error: " ++ str_exn e;
              retrieved_contexts := truth_of last_pair |}
      with (record_of last_pair (u "Error: " ++ str_exn e)).
    destruct (writable (record_of last_pair (u "Error: " ++ str_exn e))) eqn:W.
    - left. now rewrite (write_writable _ _ W).
    - right. destruct (write_unwritable f _ W) as (e' & -> & _). now exists e'. }
  cbn [BaseLLM.collect]. unfold collected_line.
  destruct future as [r|e]; cbn [mbind result_bind].
  - destruct (JsonLine.encode_error (JsonLine.dumps (BaseLLM.json r) ++ [10]))
      as [e|] eqn:E.
    + rewrite (write_raise f _ e E).
      destruct (Hhandler e) as [[W ->]|[e' ->]]; [left; now split | right; now exists e'].
    + apply encode_error_None in E. left. rewrite (write_writable _ _ E). now split.
  - destruct (Hhandler e) as [[W ->]|[e' ->]]; [left; now split | right; now exists e'].
Qed.

(** The collecting loop on any input. *)
Lemma collect_prefix (last_pair : gmap string pystr)
    (futures : list (result BaseLLM.task_result)) :
  forall f : list json_record,
    exists n : nat,
      (n <= length futures)%nat
      /\ fst (BaseLLM.collect last_pair futures f)
         = f ++ List.map (collected_line last_pair) (take n futures)
      /\ Forall (fun r => writable r = true)
           (List.map (collected_line last_pair) (take n futures))
      /\ (n = length futures <-> snd (BaseLLM.collect last_pair futures f) = None).
Proof.
  induction futures as [|future rest IH]; intros f.
  - exists 0%nat. simpl. rewrite app_nil_r. repeat split; eauto using Forall_nil_2.
  - destruct (collect_round last_pair future rest f) as [(W & ->)|[e ->]].
    + destruct (IH (f ++ [collected_line last_pair future]))
        as (n & Hn & -> & Hw & Hret).
      exists (S n). cbn [take List.map length]. rewrite <- app_assoc.
      split; [lia|]. split; [reflexivity|]. split; [now apply Forall_cons_2|].
      rewrite <- Hret. split; [now intros [= ->] | now intros ->].
    + exists 0%nat. simpl. rewrite app_nil_r.
      split; [lia|]. split; [reflexivity|]. split; [apply Forall_nil_2|].
      split; discriminate.
Qed.

End BatchRuns.

Section Lines.

Lemma rag_line_lookup (invoke : nat -> pystr -> result Rag.chain_result)
    (qa_pairs : list (gmap string pystr)) (file : list json_record)
    (k : nat) (p : gmap string pystr) :
  Forall has_keys qa_pairs -> Forall pair_encodable qa_pairs ->
  messages_encodable invoke qa_pairs ->
  qa_pairs !! k = Some p ->
  fst (Rag.process_qa_pairs invoke qa_pairs file) !! (length file + k)%nat
  = Some (rag_line invoke k p).
Proof.
  intros H He Hm Hk. unfold Rag.process_qa_pairs.
  rewrite (loop_complete_pairs invoke qa_pairs H He 0 [] file Hm).
  cbn [fst]. rewrite lookup_app_r by lia.
  replace (length file + k - length file)%nat with k by lia.
  now rewrite list_lookup_imap, Hk.
Qed.

Lemma written_record_lookup (invoke : nat -> pystr -> result pystr)
    (qa_pairs : list (gmap string pystr)) (file : list json_record)
    (k : nat) (p : gmap string pystr) :
  Forall has_keys qa_pairs -> Forall pair_encodable qa_pairs ->
  qa_pairs !! k = Some p ->
  JsonLine.encodable (BaseLLM.get_llm_response (invoke k) (question_of p)) = true ->
  fst (BaseLLM.process_all_questions invoke qa_pairs file) !! k
  = Some (record_of p (BaseLLM.get_llm_response (invoke k) (question_of p))).
Proof.
  intros H He Hk Hr.
  pose proof (proj1 (Forall_forall _ _) H) as Hall.
  pose proof (proj1 (Forall_forall _ _) He) as Eall.
  destruct (last qa_pairs) as [last_pair|] eqn:Hlast;
    [|apply last_None in Hlast; now subst].
  rewrite (process_all_questions_line invoke qa_pairs last_pair file k p Hlast
             (Hall _ (last_Some_elem_of _ _ Hlast))
             (Eall _ (last_Some_elem_of _ _ Hlast)) Hk
             (Hall _ (list_elem_of_lookup_2 _ _ _ Hk))).
  destruct (Eall _ (list_elem_of_lookup_2 _ _ _ Hk)) as [Hq Ha].
  rewrite (proj2 (encode_error_None _)); [reflexivity|].
  simpl. now rewrite Hq, Hr, Ha.
Qed.

Lemma startswith_app (prefix rest : pystr) : startswith (prefix ++ rest) prefix = true.
Proof.
  induction prefix as [|c prefix IH]; simpl; [reflexivity|].
  now rewrite N.eqb_refl, IH.
Qed.

Lemma complete_pairs : Forall has_keys [Pairs.fever; Pairs.cough].
Proof.
  repeat (apply Forall_cons_2; [split; eexists; vm_compute; reflexivity|]).
  apply Forall_nil_2.
Qed.

Lemma encodable_pairs : Forall pair_encodable [Pairs.fever; Pairs.cough].
Proof.
  repeat (apply Forall_cons_2; [split; vm_compute; reflexivity|]).
  apply Forall_nil_2.
Qed.

Lemma failing_messages (qa_pairs : list (gmap string pystr)) :
  messages_encodable Pairs.chain_failing qa_pairs.
Proof. intros k p e _ [= <-]. reflexivity. Qed.

Lemma garbling_messages (qa_pairs : list (gmap string pystr)) :
  messages_encodable Pairs.chain_garbling qa_pairs.
Proof. intros k p e _ [=]. Qed.

End Lines.

(** C3 at a failing input of [basellm.py]. The first pair has no answer, so
    its task raises [KeyError('answer')]; the handler builds the error
    record from the variable [qa_pair], which holds the last pair: the line
    written for question ["q1"] carries the question and the answer of the
    other pair. *)
Theorem C3_basellm_error_record_reads_last_pair :
  Pairs.no_answer !! "question"%string = Some (u "q1")
  /\ BaseLLM.process_all_questions Pairs.answering [Pairs.no_answer; Pairs.fever] []
     = ([ {| user_input := u "发烧怎么办";
             response := u "Error: 'answer'";
             retrieved_contexts := u "多喝水" |};
          {| user_input := u "发烧怎么办";
             response := u "drink water";
             retrieved_contexts := u "多喝水" |} ], None).
Proof. split; vm_compute; reflexivity. Qed.

(** C4, as stated, fails: a batch can end before its N lines are written.
    In [rag.py] a pair without its answer raises [KeyError] at line 130,
    outside the [try]: one line of three is written. In [basellm.py] the
    handler raises when the last pair is the incomplete one: one line of
    two. With complete pairs, [rag.py] ends with no line when a call fails
    with a message that cannot be encoded (the write of the handler
    raises), and both runs end with no line when the question of the first
    pair cannot be encoded. *)
Lemma C4_batch_can_end_early :
  Rag.process_qa_pairs Pairs.chain_answering
    [Pairs.fever; Pairs.no_answer; Pairs.cough] []
  = ([ {| user_input := u "发烧怎么办";
          response := u "drink water";
          retrieved_contexts := u "多喝水" |} ], Raise (KeyError "answer"))
  /\ BaseLLM.process_all_questions Pairs.answering [Pairs.fever; Pairs.no_answer] []
     = ([ {| user_input := u "发烧怎么办";
             response := u "drink water";
             retrieved_contexts := u "多喝水" |} ], Some (KeyError "answer"))
  /\ (exists e,
         Rag.process_qa_pairs Pairs.chain_failing_garbled [Pairs.fever; Pairs.cough] []
         = ([], Raise e))
  /\ (exists e,
         Rag.process_qa_pairs Pairs.chain_answering [Pairs.garbled; Pairs.cough] []
         = ([], Raise e))
  /\ (exists e,
         BaseLLM.process_all_questions Pairs.answering [Pairs.garbled] []
         = ([], Some e)).
Proof.
  split; [vm_compute; reflexivity|]. split; [vm_compute; reflexivity|].
  repeat split; eexists; vm_compute; reflexivity.
Qed.

(** C4, amended. Take a batch of N pairs, each with a string under
    ["question"] and under ["answer"], both free of lone surrogates (a
    record that holds them can be encoded in UTF-8). Whatever the model
    calls do, [basellm.py] finishes without an exception and writes exactly
    N lines to a file opened anew (it opens nothing when N is 0); the line
    at position [k] is the record of the [k]-th pair with its response (the
    generated answer, or the marker made of the failure of the call)
    whenever that response can be encoded. [rag.py] finishes and appends
    exactly N lines provided the messages of the exceptions its calls raise
    can be encoded: the line at position [k] is the record of the [k]-th
    pair, or its error record when the call raised or the record cannot be
    written. *)
Theorem C4_one_line_per_question
    (invoke_llm : nat -> pystr -> result pystr)
    (invoke_rag : nat -> pystr -> result Rag.chain_result)
    (qa_pairs : list (gmap string pystr)) (file : list json_record) :
  Forall has_keys qa_pairs -> Forall pair_encodable qa_pairs ->
  (exists lines,
      BaseLLM.process_all_questions invoke_llm qa_pairs file
      = (match qa_pairs with [] => file | _ => lines end, None)
      /\ length lines = length qa_pairs
      /\ (forall k p,
            qa_pairs !! k = Some p ->
            JsonLine.encodable
              (BaseLLM.get_llm_response (invoke_llm k) (question_of p)) = true ->
            lines !! k
            = Some (record_of p
                      (BaseLLM.get_llm_response (invoke_llm k) (question_of p)))))
  /\ (messages_encodable invoke_rag qa_pairs ->
      exists lines results,
        Rag.process_qa_pairs invoke_rag qa_pairs file = (file ++ lines, Ok results)
        /\ length lines = length qa_pairs
        /\ lines = imap (rag_line invoke_rag) qa_pairs).
Proof.
  intros H He. split.
  - destruct (last qa_pairs) as [last_pair|] eqn:Hlast.
    + pose proof (process_all_questions_total invoke_llm qa_pairs last_pair file
                    Hlast
                    (proj1 (Forall_forall _ _) H _ (last_Some_elem_of _ _ Hlast))
                    (proj1 (Forall_forall _ _) He _ (last_Some_elem_of _ _ Hlast)))
        as Hrun.
      eexists. split; [|split].
      * rewrite Hrun. destruct qa_pairs; [discriminate | reflexivity].
      * now rewrite length_map, length_submit_all.
      * intros k p Hk Hr.
        rewrite <- (written_record_lookup invoke_llm qa_pairs file k p H He Hk Hr).
        now rewrite Hrun.
    + apply last_None in Hlast. subst. exists []. repeat split.
      intros k p [=].
  - intros Hm. eexists _, _. unfold Rag.process_qa_pairs.
    rewrite (loop_complete_pairs invoke_rag qa_pairs H He 0 [] file Hm).
    split; [reflexivity|]. split; [apply length_imap | reflexivity].
Qed.

(** Two questions, every model call failing: two lines in each log. *)
Lemma C4_one_line_per_question_witness :
  length (fst (BaseLLM.process_all_questions Pairs.failing
                 [Pairs.fever; Pairs.cough] [])) = 2%nat
  /\ length (fst (Rag.process_qa_pairs Pairs.chain_failing
                    [Pairs.fever; Pairs.cough] [])) = 2%nat.
Proof.
  destruct (C4_one_line_per_question Pairs.failing Pairs.chain_failing
              [Pairs.fever; Pairs.cough] [] complete_pairs encodable_pairs)
    as [(l1 & -> & Hl1 & _) Hrag].
  destruct (Hrag (failing_messages _)) as (l2 & res & -> & Hl2 & _).
  split; simpl; assumption.
Defined.

(** C5, as stated, fails. In [rag.py], when the chain raises, the line
    written for the question has a response that does not begin with
    ["Error: "]. And a failing call does not always leave a record: in
    [basellm.py], with pairs that lack their answer around a complete one,
    the handler raises at the first future and the complete pair, whose
    call failed, gets no line; in [rag.py] a failure whose message cannot
    be encoded ends the run with no line, and so does, in either run, the
    failure of the call for a question that cannot be encoded. *)
Lemma C5_rag_marker_is_not_error_prefix :
  (exists r,
      Rag.process_qa_pairs Pairs.chain_failing [Pairs.fever] [] = ([r], Ok [])
      /\ response r = u "处理出错: timed out"
      /\ startswith (response r) (u "Error: ") = false)
  /\ BaseLLM.process_all_questions Pairs.failing
       [Pairs.no_answer; Pairs.fever; Pairs.no_answer] []
     = ([], Some (KeyError "answer"))
  /\ (exists e,
         Rag.process_qa_pairs Pairs.chain_failing_garbled [Pairs.fever] []
         = ([], Raise e))
  /\ (exists e,
         Rag.process_qa_pairs Pairs.chain_failing [Pairs.garbled] [] = ([], Raise e))
  /\ (exists e,
         BaseLLM.process_all_questions Pairs.failing [Pairs.garbled] []
         = ([], Some e)).
Proof.
  split.
  { eexists. split; [vm_compute; reflexivity|]. split; reflexivity. }
  split; [vm_compute; reflexivity|].
  repeat split; eexists; vm_compute; reflexivity.
Qed.

(** C5, amended. In a batch whose pairs each hold a string under
    ["question"] and under ["answer"], all free of lone surrogates, let
    the model call of the question at position [k] fail with an exception
    [e] whose message is free of lone surrogates. [basellm.py] writes at
    position [k] the record of that question and of its ground truth with
    the response ["Error: "] followed by the message of [e]. [rag.py],
    provided the messages of the other failing calls of the batch can be
    encoded too, appends at position [k] the record of that question and
    of its ground truth with the response ["处理出错: "] followed by the
    message of [e]: its marker is not ["Error: "]. *)
Theorem C5_error_marker_per_pipeline
    (invoke_llm : nat -> pystr -> result pystr)
    (invoke_rag : nat -> pystr -> result Rag.chain_result)
    (qa_pairs : list (gmap string pystr)) (file : list json_record)
    (k : nat) (p : gmap string pystr) (e : exn) :
  Forall has_keys qa_pairs -> Forall pair_encodable qa_pairs ->
  qa_pairs !! k = Some p ->
  JsonLine.encodable (str_exn e) = true ->
  (invoke_llm k (question_of p) = Raise e ->
   fst (BaseLLM.process_all_questions invoke_llm qa_pairs file) !! k
   = Some {| user_input := question_of p;
             response := u "Error: " ++ str_exn e;
             retrieved_contexts := truth_of p |}
   /\ startswith (u "Error: " ++ str_exn e) (u "Error: ") = true)
  /\ (invoke_rag k (question_of p) = Raise e ->
      messages_encodable invoke_rag qa_pairs ->
      fst (Rag.process_qa_pairs invoke_rag qa_pairs file) !! (length file + k)%nat
      = Some {| user_input := question_of p;
                response := u "处理出错: " ++ str_exn e;
                retrieved_contexts := truth_of p |}
      /\ startswith (u "处理出错: " ++ str_exn e) (u "处理出错: ") = true
      /\ startswith (u "处理出错: " ++ str_exn e) (u "Error: ") = false).
Proof.
  intros H Hp Hk He. split.
  - intros Hcall.
    assert (Hr : BaseLLM.get_llm_response (invoke_llm k) (question_of p)
                 = u "Error: " ++ str_exn e).
    { unfold BaseLLM.get_llm_response. now rewrite Hcall. }
    split; [|apply startswith_app].
    rewrite (written_record_lookup invoke_llm qa_pairs file k p H Hp Hk).
    + now rewrite Hr.
    + rewrite Hr, encodable_app, He. reflexivity.
  - intros Hcall Hm.
    rewrite (rag_line_lookup invoke_rag qa_pairs file k p H Hp Hm Hk).
    unfold rag_line. rewrite Hcall.
    split; [reflexivity|]. split; [apply startswith_app | reflexivity].
Qed.

(** The second of two questions, every model call timing out. *)
Lemma C5_error_marker_witness :
  fst (BaseLLM.process_all_questions Pairs.failing [Pairs.fever; Pairs.cough] [])
    !! 1%nat
  = Some {| user_input := u "咳嗽怎么办";
            response := u "Error: timed out";
            retrieved_contexts := u "多休息" |}
  /\ fst (Rag.process_qa_pairs Pairs.chain_failing [Pairs.fever; Pairs.cough] [])
       !! 1%nat
     = Some {| user_input := u "咳嗽怎么办";
               response := u "处理出错: timed out";
               retrieved_contexts := u "多休息" |}.
Proof.
  destruct (C5_error_marker_per_pipeline Pairs.failing Pairs.chain_failing
              [Pairs.fever; Pairs.cough] [] 1 Pairs.cough
              (Exception (u "timed out")) complete_pairs encodable_pairs
              eq_refl eq_refl)
    as [Hllm Hrag].
  split.
  - exact (proj1 (Hllm eq_refl)).
  - exact (proj1 (Hrag eq_refl (failing_messages _))).
Defined.

(** C7, as stated, fails: a line of the log can carry a response that is not
    the generated answer. In [rag.py], when the chain answers the question
    with a text that holds a lone surrogate, the write of lines 154-155
    raises inside the [try] and the handler writes the error record: the
    response of the line is the marker with the message of the codec, while
    the record with the generated answer stays in the list returned. *)
Lemma C7_unwritable_answer_is_replaced :
  Pairs.chain_garbling 0%nat (u "发烧怎么办")
  = Ok {| Rag.answer := [97; 0xD800; 98]; Rag.context := [] |}
  /\ Rag.process_qa_pairs Pairs.chain_garbling [Pairs.fever] []
     = ([ {| user_input := u "发烧怎么办";
             response :=
               u "处理出错: 'utf-8' codec can't encode character '\ud800' in position 38: surrogates not allowed";
             retrieved_contexts := u "多喝水" |} ],
        Ok [ {| user_input := u "发烧怎么办";
                response := [97; 0xD800; 98];
                retrieved_contexts := u "多喝水" |} ]).
Proof. split; vm_compute; reflexivity. Qed.

(** C7, amended. Every record that [rag.py] appends is the record of the
    pair at its position, which has its two keys: [user_input] is the
    question of that pair and [retrieved_contexts] its ground-truth answer,
    whatever chunks the chain retrieved; [response] is the generated answer
    verbatim when the chain returned an answer that can be encoded, and the
    marker ["处理出错: "] followed by the message of the exception when the
    chain raised or when its answer cannot be encoded (the exception is
    then that of the codec). In [basellm.py], the record at the position of
    a pair that holds strings free of lone surrogates under its two keys,
    when the response obtained for it can be encoded, has the question as
    [user_input], the ground-truth answer as [retrieved_contexts], and as
    [response] the generated answer verbatim, or ["Error: "] followed by
    the message of the exception when the call raised. The records of the
    handler of [basellm.py] are left to C3. *)
Theorem C7_record_fields
    (invoke_llm : nat -> pystr -> result pystr)
    (invoke_rag : nat -> pystr -> result Rag.chain_result)
    (qa_pairs : list (gmap string pystr)) (file : list json_record)
    (k : nat) (p : gmap string pystr) (r : json_record) :
  qa_pairs !! k = Some p ->
  (fst (Rag.process_qa_pairs invoke_rag qa_pairs file) !! (length file + k)%nat
   = Some r ->
   has_keys p
   /\ user_input r = question_of p
   /\ retrieved_contexts r = truth_of p
   /\ match invoke_rag k (question_of p) with
      | Ok result =>
        if JsonLine.encodable (Rag.answer result)
        then response r = Rag.answer result
        else exists e,
            JsonLine.encode_error
              (JsonLine.dumps
                 (Rag.result_record (question_of p) result (truth_of p)) ++ [10])
            = Some e
            /\ response r = u "处理出错: " ++ str_exn e
      | Raise e => response r = u "处理出错: " ++ str_exn e
      end)
  /\ (fst (BaseLLM.process_all_questions invoke_llm qa_pairs file) !! k = Some r ->
      has_keys p -> pair_encodable p ->
      JsonLine.encodable
        (BaseLLM.get_llm_response (invoke_llm k) (question_of p)) = true ->
      user_input r = question_of p
      /\ retrieved_contexts r = truth_of p
      /\ match invoke_llm k (question_of p) with
         | Ok generated => response r = generated
         | Raise e => response r = u "Error: " ++ str_exn e
         end).
Proof.
  intros Hk. split.
  - unfold Rag.process_qa_pairs.
    destruct (loop_prefix invoke_rag qa_pairs 0 [] file)
      as (n & _ & -> & Hkeys & Hw & _).
    rewrite lookup_app_r by lia.
    replace (length file + k - length file)%nat with k by lia.
    rewrite list_lookup_imap. cbn [Nat.add].
    destruct (take n qa_pairs !! k) as [p'|] eqn:Hp'; [|discriminate].
    intros [= <-].
    assert (p' = p) as ->.
    { apply lookup_take_Some in Hp' as [Hp' _]. congruence. }
    pose proof (proj1 (Forall_forall _ _) Hkeys p (list_elem_of_lookup_2 _ _ _ Hp'))
      as Hkp.
    assert (W : writable (rag_line invoke_rag k p) = true).
    { apply (proj1 (Forall_forall _ _) Hw).
      apply list_elem_of_lookup. exists k. now rewrite list_lookup_imap, Hp'. }
    split; [exact Hkp|]. revert W. unfold rag_line.
    destruct (invoke_rag k (question_of p)) as [result|e]; [|now repeat split].
    destruct (JsonLine.encode_error _) as [e|] eqn:E.
    + intros W. split; [reflexivity|]. split; [reflexivity|].
      destruct (JsonLine.encodable (Rag.answer result)) eqn:Ha.
      * unfold writable in W. simpl in W.
        apply andb_true_iff in W as [W Wa]. apply andb_true_iff in W as [Wq _].
        assert (E' : JsonLine.encode_error
                       (JsonLine.dumps
                          (Rag.result_record (question_of p) result (truth_of p))
                        ++ [10]) = None).
        { apply encode_error_None. simpl. now rewrite Wq, Ha, Wa. }
        congruence.
      * exists e. now split.
    + intros W. split; [reflexivity|]. split; [reflexivity|].
      apply encode_error_None in E. simpl in E.
      apply andb_true_iff in E as [E _]. apply andb_true_iff in E as [_ ->].
      reflexivity.
  - intros Hr Hkeys [Hq Ha] Hg.
    unfold BaseLLM.process_all_questions in Hr.
    destruct (last qa_pairs) as [last_pair|] eqn:Hlast;
      [|apply last_None in Hlast; now subst].
    destruct (collect_prefix last_pair (BaseLLM.submit_all invoke_llm 0 qa_pairs) [])
      as (n & _ & Hrun & _).
    rewrite Hrun in Hr. cbn [app] in Hr.
    change (List.map (collected_line last_pair)
              (take n (BaseLLM.submit_all invoke_llm 0 qa_pairs)))
      with (collected_line last_pair
              <$> take n (BaseLLM.submit_all invoke_llm 0 qa_pairs)) in Hr.
    rewrite list_lookup_fmap in Hr.
    destruct (take n (BaseLLM.submit_all invoke_llm 0 qa_pairs) !! k)
      as [future|] eqn:Hf; [|discriminate].
    injection Hr as <-.
    apply lookup_take_Some in Hf as [Hf _].
    rewrite submit_all_lookup, Hk in Hf. cbn [Nat.add] in Hf. injection Hf as <-.
    destruct (process_single_question_keys (invoke_llm k) p Hkeys) as (r0 & -> & Hr0).
    unfold collected_line. rewrite Hr0.
    rewrite (proj2 (encode_error_None _)) by (simpl; now rewrite Hq, Hg, Ha).
    split; [reflexivity|]. split; [reflexivity|].
    unfold BaseLLM.get_llm_response. simpl.
    now destruct (invoke_llm k (question_of p)).
Qed.

(** The first of two questions, answered by the model. *)
Lemma C7_record_fields_witness :
  fst (Rag.process_qa_pairs Pairs.chain_answering [Pairs.fever; Pairs.cough] [])
    !! 0%nat = Some Logs.fever_answered
  /\ fst (BaseLLM.process_all_questions Pairs.answering [Pairs.fever; Pairs.cough] [])
       !! 0%nat = Some Logs.fever_answered
  /\ user_input Logs.fever_answered = question_of Pairs.fever
  /\ retrieved_contexts Logs.fever_answered = truth_of Pairs.fever
  /\ response Logs.fever_answered = u "drink water".
Proof.
  destruct (C7_record_fields Pairs.answering Pairs.chain_answering
              [Pairs.fever; Pairs.cough] [] 0 Pairs.fever Logs.fever_answered eq_refl)
    as [Hrag Hllm].
  destruct (Hrag eq_refl) as (_ & _ & _ & Hr).
  assert (Hkeys : has_keys Pairs.fever) by (split; eexists; reflexivity).
  assert (Henc : pair_encodable Pairs.fever) by (split; reflexivity).
  destruct (Hllm eq_refl Hkeys Henc eq_refl) as (Hq & Ha & _).
  split; [reflexivity|]. split; [reflexivity|].
  split; [exact Hq|]. split; [exact Ha | exact Hr].
Defined.

(** * Further properties *)

(** ** The corpus builder *)

Section BuilderFacts.

Import RagExcel.

Lemma build_from_row_indices (r : roles) cols (i : nat) (rws : list (list cell)) :
  row_index <$> build_from r cols i rws `sublist_of` seq i (length rws).
Proof.
  revert i. induction rws as [|row rest IH]; intros i; simpl.
  - constructor.
  - destruct (build_row r cols i row) as [d|] eqn:E; simpl.
    + rewrite (build_row_index _ _ _ _ _ E). apply sublist_skip, IH.
    + apply sublist_cons, IH.
Qed.

Lemma build_row_nonblank (r : roles) cols (i : nat) (row : list cell) (d : Document) :
  build_row r cols i row = Some d ->
  strip (row_question r cols row) <> [] /\ strip (row_answer r cols row) <> []
  /\ d = {| page_content :=
              u "Q: " ++ strip (row_question r cols row) ++ [10] ++ u "A: "
              ++ strip (final_answer (row_status r cols row)
                          (row_corrected r cols row) (row_answer r cols row));
            row_index := i;
            question := strip (row_question r cols row);
            answer := strip (final_answer (row_status r cols row)
                               (row_corrected r cols row) (row_answer r cols row));
            status := row_status r cols row;
            has_correction :=
              if truthy (row_corrected r cols row)
              then truthy (strip (row_corrected r cols row)) else false |}.
Proof.
  unfold build_row.
  destruct (truthy (strip (row_question r cols row))) eqn:Hq;
    destruct (truthy (strip (row_answer r cols row))) eqn:Ha; simpl;
    try discriminate.
  intros [= <-]. apply truthy_true in Hq, Ha. now repeat split.
Qed.

End BuilderFacts.

(** X1. Every document of a build has a question and an answer that are not
    empty and are trimmed, and its text is ["Q: "], the question, a line
    break, ["A: "] and the answer. *)
Theorem X1_document_invariant (r : RagExcel.roles) (df : DataFrame)
    (d : RagExcel.Document) :
  d ∈ RagExcel.build_documents r df ->
  RagExcel.question d <> [] /\ RagExcel.answer d <> []
  /\ strip (RagExcel.question d) = RagExcel.question d
  /\ strip (RagExcel.answer d) = RagExcel.answer d
  /\ RagExcel.page_content d
     = u "Q: " ++ RagExcel.question d ++ [10] ++ u "A: " ++ RagExcel.answer d.
Proof.
  intros (k & row & _ & Hb)%elem_of_build_from.
  apply build_row_nonblank in Hb as (Hq & Ha & ->). simpl.
  split; [exact Hq|]. split.
  - unfold RagExcel.final_answer.
    destruct (eq_int _ 1); simpl; [|exact Ha].
    destruct (truthy (strip (RagExcel.row_corrected r (columns df) row))) eqn:Hc;
      [now apply truthy_true | exact Ha].
  - split; [apply strip_idem|]. split; [apply strip_idem | reflexivity].
Qed.

Lemma X1_document_invariant_witness :
  RagExcel.question Samples.fever_document <> []
  /\ RagExcel.answer Samples.fever_document <> []
  /\ strip (RagExcel.question Samples.fever_document)
     = RagExcel.question Samples.fever_document
  /\ strip (RagExcel.answer Samples.fever_document)
     = RagExcel.answer Samples.fever_document
  /\ RagExcel.page_content Samples.fever_document
     = u "Q: " ++ RagExcel.question Samples.fever_document ++ [10] ++ u "A: "
       ++ RagExcel.answer Samples.fever_document.
Proof.
  apply (X1_document_invariant Fixtures.review_roles Samples.reviewed_sheet).
  apply list_elem_of_singleton. vm_compute. reflexivity.
Defined.

(** X2. The documents of a build follow the rows: their row indices are a
    subsequence of 0, 1, ..., n-1 for a sheet of n rows, hence strictly
    increasing and without repetition, and there are at most n documents. *)
Theorem X2_documents_follow_rows (r : RagExcel.roles) (df : DataFrame) :
  RagExcel.row_index <$> RagExcel.build_documents r df
    `sublist_of` seq 0 (length (rows df))
  /\ NoDup (RagExcel.row_index <$> RagExcel.build_documents r df)
  /\ (length (RagExcel.build_documents r df) <= length (rows df))%nat.
Proof.
  pose proof (build_from_row_indices r (columns df) 0 (rows df)) as H.
  split; [exact H|]. split.
  - eapply sublist_NoDup; [apply NoDup_seq | exact H].
  - apply sublist_length in H. now rewrite length_fmap, length_seq in H.
Qed.

(** X3. The flag [has_correction] of a document tells that the row carries a
    corrected answer that is not blank, whether or not it was used: the
    answer of the document differs from the trimmed original answer only
    when the flag is set and the status is 1. *)
Theorem X3_has_correction_flag (r : RagExcel.roles) (cols : list label)
    (i : nat) (row : list cell) (d : RagExcel.Document) :
  RagExcel.build_row r cols i row = Some d ->
  RagExcel.has_correction d = truthy (strip (RagExcel.row_corrected r cols row))
  /\ RagExcel.status d = RagExcel.row_status r cols row
  /\ (RagExcel.answer d <> strip (RagExcel.row_answer r cols row) ->
      RagExcel.has_correction d = true /\ eq_int (RagExcel.status d) 1 = true).
Proof.
  intros (_ & _ & ->)%build_row_nonblank. simpl.
  assert (Hflag : (if truthy (RagExcel.row_corrected r cols row)
                   then truthy (strip (RagExcel.row_corrected r cols row))
                   else false)
                  = truthy (strip (RagExcel.row_corrected r cols row))).
  { destruct (RagExcel.row_corrected r cols row) eqn:E; reflexivity. }
  rewrite Hflag. split; [reflexivity|]. split; [reflexivity|].
  unfold RagExcel.final_answer.
  destruct (eq_int _ 1); simpl; [|congruence].
  destruct (truthy (strip (RagExcel.row_corrected r cols row))); [now split | congruence].
Qed.

(** The row that is not reviewed: the flag is set, the answer is the
    original one. *)
Lemma X3_has_correction_flag_witness :
  exists d,
    RagExcel.build_row Fixtures.review_roles Fixtures.review_columns 0
      Fixtures.fever_unreviewed = Some d
    /\ RagExcel.has_correction d = true
    /\ RagExcel.answer d = u "多喝水".
Proof.
  eexists. split; [vm_compute; reflexivity|]. split; [|reflexivity].
  exact (proj1 (X3_has_correction_flag Fixtures.review_roles Fixtures.review_columns
                  0%nat Fixtures.fever_unreviewed _ eq_refl)).
Defined.

(** X4. A run changes the file system through the store call only: when
    the trace of a run has no store write, the file system is as before and
    nothing was built; and the store is written only after the directory
    was found missing, the sheet found, read and its roles resolved. *)
Theorem X4_only_the_store_writes {FS : Type}
    (path_exists : FS -> string -> bool)
    (read_excel : FS -> string -> result DataFrame)
    (split_documents : list RagExcel.Document -> list RagExcel.Document)
    (from_documents : list RagExcel.Document -> string -> FS -> FS * option exn)
    (fs fs' : FS) (t : list RagExcel.event) (o : RagExcel.outcome) :
  RagExcel.run path_exists read_excel split_documents from_documents fs = (t, fs', o) ->
  (RagExcel.StoreWrite RagExcel.persistent_directory ∉ t ->
   fs' = fs /\ RagExcel.is_built o = false)
  /\ (RagExcel.StoreWrite RagExcel.persistent_directory ∈ t ->
      path_exists fs RagExcel.persistent_directory = false
      /\ path_exists fs RagExcel.file_path = true
      /\ exists df r,
          RagExcel.read_and_resolve read_excel fs = Ok (df, r)
          /\ fs' = fst (from_documents
                          (split_documents (RagExcel.build_documents r df))
                          RagExcel.persistent_directory fs)).
Proof.
  unfold RagExcel.run.
  destruct (path_exists fs RagExcel.persistent_directory) eqn:Hd; simpl.
  { intros [= <- <- <-]. split; [now split|].
    intros H. apply list_elem_of_singleton in H. discriminate. }
  destruct (path_exists fs RagExcel.file_path) eqn:Hf; simpl.
  2:{ intros [= <- <- <-]. split; [now split|].
      intros H. apply list_elem_of_singleton in H. discriminate. }
  destruct (RagExcel.read_and_resolve read_excel fs) as [[df r]|e] eqn:Hr.
  2:{ intros [= <- <- <-]. split; [now split|].
      intros H. repeat (apply elem_of_cons in H as [H|H]; [discriminate|]).
      inversion H. }
  destruct (from_documents _ _ fs) as [fs1 [e|]] eqn:Hs; intros [= <- <- <-].
  all: split;
    [ intros H; exfalso; apply H; do 3 apply list_elem_of_further; apply list_elem_of_here
    | intros _; repeat split; exists df, r; split; [reflexivity | now rewrite Hs] ].
Qed.

(** Neither the store nor the sheet exists: the run fails and leaves the
    file system as it was. *)
Lemma X4_only_the_store_writes_witness :
  exists t o, World.run Samples.empty_world = (t, Samples.empty_world, o)
              /\ RagExcel.is_built o = false.
Proof.
  destruct (World.run Samples.empty_world) as [[t w] o] eqn:E.
  destruct (proj1 (X4_only_the_store_writes World.path_exists World.read_excel
                     (fun docs => docs) World.from_documents
                     Samples.empty_world w t o E)) as [-> Ho].
  - apply (f_equal (fun x => fst (fst x))) in E. simpl in E. rewrite <- E.
    vm_compute. intros H. apply list_elem_of_singleton in H. discriminate.
  - now exists t, o.
Defined.

(** ** The QA-JSON extractor *)

Section ExtractorFacts.

Import Excel2QA.

(** The number of the two roles found so far. *)
Let found (n : names) : nat :=
  (match question_col n with Some _ => 1 | None => 0 end
   + match answer_col n with Some _ => 1 | None => 0 end)%nat.

Lemma scan_step_found (n : names) (col : label) :
  (found (scan_step n col) <= S (found n))%nat.
Proof.
  unfold scan_step, found.
  repeat case_bool_decide; destruct n as [[?|] [?|] ?]; simpl; lia.
Qed.

Lemma foldl_scan_found (cols : list label) (n : names) :
  (found (foldl scan_step n cols) <= found n + length cols)%nat.
Proof.
  revert n. induction cols as [|c cols IH]; intros n; simpl; [lia|].
  pose proof (IH (scan_step n c)). pose proof (scan_step_found n c). lia.
Qed.

Lemma scan_both_two_columns (cols : list label) (q a : label) :
  question_col (scan_columns cols) = Some q ->
  answer_col (scan_columns cols) = Some a ->
  (2 <= length cols)%nat.
Proof.
  intros Hq Ha. unfold scan_columns in *.
  pose proof (foldl_scan_found cols
                {| question_col := None; answer_col := None;
                   corrected_answer_col := None |}) as H.
  unfold found in H. rewrite Hq, Ha in H. simpl in H. lia.
Qed.

Lemma scan_columns_snoc (cols : list label) (c : label) :
  scan_columns (cols ++ [c]) = scan_step (scan_columns cols) c.
Proof. unfold scan_columns. now rewrite foldl_snoc. Qed.

Lemma standard_names_disjoint (c : label) :
  c ∈ possible_question_cols -> c ∈ possible_answer_cols -> False.
Proof.
  intros Hq Ha.
  assert (H : Forall (fun x => x ∉ possible_answer_cols) possible_question_cols).
  { unfold possible_question_cols.
    repeat (apply Forall_cons_2;
            [cbv beta; apply (bool_decide_eq_true_1 _); vm_compute; reflexivity|]).
    apply Forall_nil_2. }
  rewrite Forall_forall in H. exact (H c Hq Ha).
Qed.

Lemma scan_question_last (cols : list label) :
  question_col (scan_columns cols)
  = last (filter (fun c => c ∈ possible_question_cols) cols).
Proof.
  induction cols as [|c cols IH] using rev_ind; [reflexivity|].
  rewrite scan_columns_snoc, filter_app. unfold scan_step.
  rewrite filter_cons, filter_nil.
  destruct (decide (c ∈ possible_question_cols)) as [Hc|Hc].
  - rewrite bool_decide_eq_true_2 by exact Hc. simpl. now rewrite last_snoc.
  - rewrite bool_decide_eq_false_2 by exact Hc. rewrite app_nil_r, <- IH.
    repeat case_bool_decide; reflexivity.
Qed.

Lemma scan_answer_last (cols : list label) :
  answer_col (scan_columns cols)
  = last (filter (fun c => c ∈ possible_answer_cols) cols).
Proof.
  induction cols as [|c cols IH] using rev_ind; [reflexivity|].
  rewrite scan_columns_snoc, filter_app. unfold scan_step.
  rewrite filter_cons, filter_nil.
  destruct (decide (c ∈ possible_answer_cols)) as [Hc|Hc].
  - assert (Hq : c ∉ possible_question_cols)
      by (intros Hq; exact (standard_names_disjoint c Hq Hc)).
    rewrite (bool_decide_eq_false_2 _ Hq), (bool_decide_eq_true_2 _ Hc).
    simpl. now rewrite last_snoc.
  - rewrite (bool_decide_eq_false_2 _ Hc). rewrite app_nil_r, <- IH.
    repeat case_bool_decide; reflexivity.
Qed.

Lemma extract_from_ids (q a : label) (c : option label) cols (i : nat)
    (rws : list (list cell)) :
  id <$> extract_from q a c cols i rws `sublist_of` seq (S i) (length rws).
Proof.
  revert i. induction rws as [|row rest IH]; intros i; simpl.
  - constructor.
  - destruct (extract_row q a c cols i row) as [p|] eqn:E; simpl.
    + rewrite (extract_row_id _ _ _ _ _ _ _ E). apply sublist_skip, IH.
    + apply sublist_cons, IH.
Qed.

Lemma extract_qa_pairs_ids (df : DataFrame) :
  id <$> extract_qa_pairs (Some df) `sublist_of` seq 1 (length (rows df)).
Proof.
  unfold extract_qa_pairs.
  destruct (question_answer_cols (columns df)) as [[q a]|].
  - apply extract_from_ids.
  - apply sublist_nil_l.
Qed.

Lemma elem_of_extract_qa_pairs (df : DataFrame) (p : QAPair) :
  p ∈ extract_qa_pairs (Some df) ->
  exists q a c k row, rows df !! k = Some row
                      /\ extract_row q a c (columns df) k row = Some p.
Proof.
  unfold extract_qa_pairs.
  destruct (question_answer_cols (columns df)) as [[q a]|]; [|intros H; inversion H].
  intros (k & row & Hk & Hp)%elem_of_extract_from.
  now exists q, a, (corrected_answer_col (scan_columns (columns df))), k, row.
Qed.

End ExtractorFacts.

(** X5. The extractor finds no question and answer columns exactly when
    the sheet has fewer than two columns, and it then returns no pair. *)
Theorem X5_fewer_than_two_columns (df : DataFrame) :
  (Excel2QA.question_answer_cols (columns df) = None
   <-> (length (columns df) < 2)%nat)
  /\ ((length (columns df) < 2)%nat -> Excel2QA.extract_qa_pairs (Some df) = []).
Proof.
  assert (H : Excel2QA.question_answer_cols (columns df) = None
              <-> (length (columns df) < 2)%nat).
  { unfold Excel2QA.question_answer_cols.
    destruct (Excel2QA.question_col (Excel2QA.scan_columns (columns df)))
      as [q|] eqn:Hq;
      destruct (Excel2QA.answer_col (Excel2QA.scan_columns (columns df)))
        as [a|] eqn:Ha.
    { pose proof (scan_both_two_columns _ _ _ Hq Ha). split; [discriminate | lia]. }
    all: case_bool_decide as Hlen; [|split; [intros _; lia | reflexivity]].
    all: destruct (columns df) as [|c0 [|c1 rest]]; simpl in *; try lia.
    all: split; [discriminate | lia]. }
  split; [exact H|].
  intros Hlt. unfold Excel2QA.extract_qa_pairs.
  now rewrite (proj2 H Hlt).
Qed.

(** X6. The columns the extractor reads: the last column with a standard
    question name and the last column with a standard answer name when both
    exist, and the first two columns otherwise. *)
Theorem X6_column_choice (cols : list label) :
  Excel2QA.question_answer_cols cols
  = match last (filter (fun c => c ∈ Excel2QA.possible_question_cols) cols),
          last (filter (fun c => c ∈ Excel2QA.possible_answer_cols) cols) with
    | Some q, Some a => Some (q, a)
    | _, _ =>
      match cols with
      | c0 :: c1 :: _ => Some (c0, c1)
      | _ => None
      end
    end.
Proof.
  unfold Excel2QA.question_answer_cols.
  rewrite scan_question_last, scan_answer_last.
  destruct (last (filter (fun c => c ∈ Excel2QA.possible_question_cols) cols)) as [q|];
    destruct (last (filter (fun c => c ∈ Excel2QA.possible_answer_cols) cols)) as [a|];
    try reflexivity.
  all: destruct cols as [|c0 [|c1 rest]]; reflexivity.
Qed.

(** X7. The pairs follow the rows: their ids are a subsequence of
    1, 2, ..., n for a sheet of n rows, so they increase strictly and do
    not repeat, there are at most n pairs, and the [row_index] of a pair is
    its id. *)
Theorem X7_pairs_follow_rows (df : DataFrame) :
  Excel2QA.id <$> Excel2QA.extract_qa_pairs (Some df)
    `sublist_of` seq 1 (length (rows df))
  /\ NoDup (Excel2QA.id <$> Excel2QA.extract_qa_pairs (Some df))
  /\ (length (Excel2QA.extract_qa_pairs (Some df)) <= length (rows df))%nat
  /\ Forall (fun p => Excel2QA.row_index p = Excel2QA.id p)
       (Excel2QA.extract_qa_pairs (Some df)).
Proof.
  pose proof (extract_qa_pairs_ids df) as H.
  split; [exact H|]. split; [|split].
  - eapply sublist_NoDup; [apply NoDup_seq | exact H].
  - apply sublist_length in H. now rewrite length_fmap, length_seq in H.
  - apply Forall_forall. intros p (q & a & c & k & row & _ & Hp)%elem_of_extract_qa_pairs.
    revert Hp. unfold Excel2QA.extract_row.
    destruct (Excel2QA.row_answer a c (columns df) row) as [ans used].
    destruct (negb _ && negb _); [discriminate|]. now intros [= <-].
Qed.

(** X8. Every pair of the dataset has a question or an answer that is not
    empty; both are trimmed, the two lengths recorded are their lengths,
    and a pair marked as using the corrected answer has an answer. *)
Theorem X8_pair_invariant (df : DataFrame) (p : Excel2QA.QAPair) :
  p ∈ Excel2QA.extract_qa_pairs (Some df) ->
  (Excel2QA.question p <> [] \/ Excel2QA.answer p <> [])
  /\ strip (Excel2QA.question p) = Excel2QA.question p
  /\ strip (Excel2QA.answer p) = Excel2QA.answer p
  /\ Excel2QA.question_length p = length (Excel2QA.question p)
  /\ Excel2QA.answer_length p = length (Excel2QA.answer p)
  /\ (Excel2QA.used_corrected_answer p = true -> Excel2QA.answer p <> []).
Proof.
  intros (q & a & c & k & row & _ & Hp)%elem_of_extract_qa_pairs.
  revert Hp. unfold Excel2QA.extract_row, Excel2QA.row_answer.
  destruct (truthy (Excel2QA.row_corrected c (columns df) row)) eqn:Hc.
  - cbn iota beta. rewrite row_corrected_stripped, Hc. simpl negb.
    rewrite andb_false_r.
    intros [= <-]. simpl. apply truthy_true in Hc.
    rewrite row_corrected_stripped.
    repeat split; try reflexivity; try apply strip_idem.
    + now right.
    + intros _. exact Hc.
  - destruct (truthy (strip (text_of (row_get (columns df) row q)))) eqn:Hq;
      destruct (truthy (strip (text_of (row_get (columns df) row a)))) eqn:Ha;
      simpl; try discriminate; intros [= <-]; simpl;
      repeat split; try reflexivity; try apply strip_idem; try discriminate.
    all: first [ left; now apply truthy_true | right; now apply truthy_true ].
Qed.

Lemma X8_pair_invariant_witness :
  exists p,
    Excel2QA.extract_qa_pairs (Some Samples.reviewed_sheet) = [p]
    /\ Excel2QA.question_length p = length (Excel2QA.question p)
    /\ (Excel2QA.used_corrected_answer p = true -> Excel2QA.answer p <> []).
Proof.
  eexists. split; [vm_compute; reflexivity|].
  refine (let H := X8_pair_invariant Samples.reviewed_sheet _ _ in
          conj (proj1 (proj2 (proj2 (proj2 H))))
               (proj2 (proj2 (proj2 (proj2 (proj2 H)))))).
  apply list_elem_of_singleton. vm_compute. reflexivity.
Defined.

(** X9. The count of corrected answers that the extractor prints is the
    number of pairs of the dataset marked as using the corrected answer: a
    row whose corrected answer is used is never skipped. *)
Theorem X9_corrected_count (q a : label) (c : option label) (cols : list label)
    (i : nat) (rws : list (list cell)) :
  Excel2QAReport.corrected_count c cols rws
  = length (List.filter Excel2QA.used_corrected_answer
              (Excel2QA.extract_from q a c cols i rws)).
Proof.
  revert i. induction rws as [|row rest IH]; intros i; simpl; [reflexivity|].
  rewrite (IH (S i)). unfold Excel2QA.extract_row, Excel2QA.row_answer.
  destruct (truthy (Excel2QA.row_corrected c cols row)) eqn:Hc; cbn iota beta.
  - rewrite row_corrected_stripped, Hc. simpl negb. rewrite andb_false_r.
    reflexivity.
  - destruct (negb _ && negb _); reflexivity.
Qed.

Section AnalysisFacts.

Import Excel2QA Excel2QAReport.

Lemma length_buckets (qa_pairs : list QAPair) :
  (count (fun qa => length (question qa) <? 50)%nat qa_pairs
   + count (fun qa => (50 <=? length (question qa))%nat
                      && (length (question qa) <? 200)%nat) qa_pairs
   + count (fun qa => 200 <=? length (question qa))%nat qa_pairs
   = length qa_pairs)%nat.
Proof.
  unfold count. induction qa_pairs as [|p rest IH]; [reflexivity|].
  cbn [List.filter].
  destruct (Nat.ltb_spec (length (question p)) 50);
    destruct (Nat.leb_spec 50 (length (question p)));
    destruct (Nat.ltb_spec (length (question p)) 200);
    destruct (Nat.leb_spec 200 (length (question p)));
    cbn [andb length]; lia.
Qed.

End AnalysisFacts.

(** X10. [analyze_data] reports nothing for an empty dataset only; in its
    report the questions counted as short, medium and long add up to the
    number of pairs. *)
Theorem X10_length_distribution (qa_pairs : list Excel2QA.QAPair) :
  (Excel2QAReport.analyze_data qa_pairs = None <-> qa_pairs = [])
  /\ (forall a, Excel2QAReport.analyze_data qa_pairs = Some a ->
                Excel2QAReport.total_pairs a = length qa_pairs
                /\ (Excel2QAReport.short_questions a
                    + Excel2QAReport.medium_questions a
                    + Excel2QAReport.long_questions a
                    = Excel2QAReport.total_pairs a)%nat).
Proof.
  destruct qa_pairs as [|p rest].
  - split; [now split | discriminate].
  - split; [split; discriminate|].
    intros a [= <-]. split; [reflexivity|]. apply length_buckets.
Qed.

Lemma X10_length_distribution_witness :
  exists a,
    Excel2QAReport.analyze_data (Excel2QA.extract_qa_pairs (Some Samples.reviewed_sheet))
    = Some a
    /\ (Excel2QAReport.short_questions a + Excel2QAReport.medium_questions a
        + Excel2QAReport.long_questions a = Excel2QAReport.total_pairs a)%nat.
Proof.
  eexists. split; [vm_compute; reflexivity|].
  exact (proj2 (proj2 (X10_length_distribution
                         (Excel2QA.extract_qa_pairs (Some Samples.reviewed_sheet)))
                  _ eq_refl)).
Defined.

(** X11. When [main] writes a dataset, it holds at least one pair, and its
    counts satisfy total_pairs <= processed_rows <= 200; a sheet that
    cannot be read, or that yields no pair, writes nothing. *)
Theorem X11_dataset_counts (sheet : result DataFrame) :
  (forall d, Excel2QAReport.main sheet = Some d ->
             (1 <= Excel2QAReport.ds_total_pairs d)%nat
             /\ (Excel2QAReport.ds_total_pairs d <= Excel2QAReport.ds_processed_rows d)%nat
             /\ (Excel2QAReport.ds_processed_rows d <= 200)%nat
             /\ Excel2QAReport.ds_total_pairs d
                = length (Excel2QAReport.ds_qa_pairs d)
             /\ Excel2QAReport.ds_qa_pairs d = Excel2QA.main_pairs sheet)
  /\ (Excel2QAReport.main sheet = None <-> Excel2QA.main_pairs sheet = []).
Proof.
  unfold Excel2QAReport.main, Excel2QA.main_pairs.
  destruct (Excel2QA.load_excel_data sheet Excel2QA.default_max_rows) as [df|] eqn:Hl.
  2:{ split; [discriminate | now split]. }
  assert (Hrows : (length (rows df) <= 200)%nat).
  { revert Hl. unfold Excel2QA.load_excel_data, Excel2QA.read_excel.
    destruct sheet as [df0|e]; simpl; [|discriminate].
    intros [= <-]. simpl. rewrite length_take. unfold Excel2QA.default_max_rows. lia. }
  pose proof (sublist_length _ _ (extract_qa_pairs_ids df)) as Hlen.
  rewrite length_fmap, length_seq in Hlen.
  destruct (Excel2QA.extract_qa_pairs (Some df)) as [|p rest] eqn:Hp.
  - split; [discriminate | now split].
  - split; [|split; discriminate].
    intros d [= <-]. simpl in *. repeat split; lia.
Qed.

Lemma X11_dataset_counts_witness :
  exists d,
    Excel2QAReport.main (Ok Samples.reviewed_sheet) = Some d
    /\ (Excel2QAReport.ds_total_pairs d <= Excel2QAReport.ds_processed_rows d)%nat.
Proof.
  eexists. split; [vm_compute; reflexivity|].
  exact (proj1 (proj2 (proj1 (X11_dataset_counts (Ok Samples.reviewed_sheet))
                         _ eq_refl))).
Defined.

(** ** remove_think.py *)

Section FindFacts.

Lemma find_cons_None (c : N) (s pat : pystr) :
  find (c :: s) pat = None -> startswith (c :: s) pat = false /\ find s pat = None.
Proof.
  simpl find. destruct (startswith (c :: s) pat); [discriminate|].
  destruct (find s pat); [discriminate | now split].
Qed.

Lemma find_drop_None (n : nat) (s pat : pystr) :
  find s pat = None -> find (drop n s) pat = None.
Proof.
  revert s. induction n as [|n IH]; intros s H; [now rewrite drop_0|].
  destruct s as [|c s]; [exact H|]. simpl drop.
  apply IH. now apply find_cons_None in H.
Qed.

Lemma startswith_other_head (c p : N) (s pat : pystr) :
  c <> p -> startswith (c :: s) (p :: pat) = false.
Proof. intros H. simpl. now apply N.eqb_neq in H as ->. Qed.

Lemma find_here (s pat : pystr) :
  startswith s pat = true -> find s pat = Some 0%nat.
Proof. intros H. destruct s; simpl; now rewrite H. Qed.

Lemma find_later (c : N) (s pat : pystr) :
  startswith (c :: s) pat = false -> find (c :: s) pat = S <$> find s pat.
Proof. intros H. simpl find. now rewrite H. Qed.

(** The first occurrence of a pattern that begins with [p], after a text
    without [p]. *)
Lemma find_after_free (p : N) (pat b rest : pystr) :
  Forall (fun x => x <> p) b ->
  find (b ++ (p :: pat) ++ rest) (p :: pat) = Some (length b).
Proof.
  induction 1 as [|x b Hx _ IH].
  - rewrite app_nil_l. apply find_here, startswith_app.
  - rewrite <- app_comm_cons.
    rewrite find_later by (now apply startswith_other_head).
    now rewrite IH.
Qed.

End FindFacts.

Section ThinkFacts.

Import RemoveThink.

Lemma think_match_without_close (s : pystr) :
  find s close_tag = None -> think_match s = None.
Proof.
  intros H. unfold think_match. destruct (startswith s open_tag); [|reflexivity].
  now rewrite (find_drop_None _ _ _ H).
Qed.

Lemma think_match_without_open (s : pystr) :
  find s open_tag = None -> think_match s = None.
Proof.
  intros H. unfold think_match.
  destruct (startswith s open_tag) eqn:E; [|reflexivity].
  rewrite (find_here _ _ E) in H. discriminate.
Qed.

Lemma sub_think_unmatched (s : pystr) :
  (forall n, think_match (drop n s) = None) -> sub_think 0 s = s.
Proof.
  induction s as [|c s IH]; intros H; [reflexivity|].
  simpl. pose proof (H 0%nat) as H0. rewrite drop_0 in H0. rewrite H0.
  f_equal. apply IH. intros n. exact (H (S n)).
Qed.

Lemma sub_think_skip (k : nat) (s : pystr) :
  sub_think k s = sub_think 0 (drop k s).
Proof.
  revert k. induction s as [|c s IH]; intros k.
  - now rewrite drop_nil.
  - destruct k as [|k]; [now rewrite drop_0|]. simpl sub_think at 1. apply IH.
Qed.

Lemma sub_think_sublist (k : nat) (s : pystr) : sub_think k s `sublist_of` s.
Proof.
  revert k. induction s as [|c s IH]; intros k; simpl; [constructor|].
  destruct k as [|k]; [|apply sublist_cons, IH].
  destruct (think_match (c :: s)); [apply sublist_cons, IH | apply sublist_skip, IH].
Qed.

Lemma sub_think_free_prefix (a rest : pystr) :
  Forall (fun x => x <> 60) a ->
  sub_think 0 (a ++ rest) = a ++ sub_think 0 rest.
Proof.
  induction 1 as [|x a Hx _ IH]; [reflexivity|].
  simpl. unfold think_match.
  change open_tag with (60 :: u "think>").
  rewrite (startswith_other_head x 60 _ _ Hx). now rewrite IH.
Qed.

Lemma sub_think_match (c : N) (s : pystr) (n : nat) :
  think_match (c :: s) = Some n ->
  sub_think 0 (c :: s) = sub_think 0 (drop (pred n) s).
Proof.
  intros H.
  change (sub_think 0 (c :: s))
    with (match think_match (c :: s) with
          | Some n => sub_think (pred n) s
          | None => c :: sub_think 0 s
          end).
  rewrite H. apply sub_think_skip.
Qed.

Lemma sub_think_block (b c : pystr) :
  Forall (fun x => x <> 60) b ->
  sub_think 0 (open_tag ++ b ++ close_tag ++ c) = sub_think 0 c.
Proof.
  intros Hb.
  assert (Hm : think_match (open_tag ++ b ++ close_tag ++ c)
               = Some (7 + length b + 8)%nat).
  { unfold think_match. rewrite startswith_app, drop_app_length.
    change close_tag with (60 :: u "/think>").
    now rewrite (find_after_free 60 (u "/think>") b c Hb). }
  set (s' := u "think>" ++ b ++ close_tag ++ c).
  assert (E : open_tag ++ b ++ close_tag ++ c = 60 :: s') by reflexivity.
  rewrite E in Hm |- *. rewrite (sub_think_match _ _ _ Hm). f_equal.
  subst s'. rewrite !app_assoc. apply drop_app_length'.
  rewrite !length_app. simpl. lia.
Qed.

Lemma lstrip_split (s : pystr) :
  exists ws, s = ws ++ lstrip s /\ Forall (fun x => isspace x = true) ws.
Proof.
  induction s as [|c s (ws & IH & Hws)]; [now exists []|]. simpl.
  destruct (isspace c) eqn:Hc.
  - exists (c :: ws). split; [now rewrite IH at 1 | now constructor].
  - now exists [].
Qed.

(** A text is its trimmed form between two runs of white space. *)
Lemma strip_split (s : pystr) :
  exists ws1 ws2,
    s = ws1 ++ strip s ++ ws2
    /\ Forall (fun x => isspace x = true) ws1
    /\ Forall (fun x => isspace x = true) ws2.
Proof.
  destruct (lstrip_split s) as (ws1 & H1 & Hw1).
  destruct (lstrip_split (rev (lstrip s))) as (ws2 & H2 & Hw2).
  exists ws1, (rev ws2). split; [|split; [exact Hw1|]].
  - rewrite H1 at 1. f_equal. unfold strip, rstrip.
    rewrite <- rev_app_distr, <- H2. now rewrite rev_involutive.
  - apply Forall_forall. intros x Hx.
    rewrite Forall_forall in Hw2. apply Hw2.
    apply list_elem_of_In. apply list_elem_of_In in Hx. now apply in_rev.
Qed.

End ThinkFacts.

(** X12. A text with no opening tag, or with no closing tag, loses nothing
    but the white space at its ends: an unclosed block stays. *)
Theorem X12_nothing_to_remove (text : pystr) :
  find text RemoveThink.open_tag = None \/ find text RemoveThink.close_tag = None ->
  RemoveThink.sub_think 0 text = text
  /\ RemoveThink.remove_think_tags text = strip text.
Proof.
  intros H.
  assert (Hs : RemoveThink.sub_think 0 text = text).
  { apply sub_think_unmatched. intros n. destruct H as [H|H].
    - apply think_match_without_open. now apply find_drop_None.
    - apply think_match_without_close. now apply find_drop_None. }
  split; [exact Hs|]. unfold RemoveThink.remove_think_tags. now rewrite Hs.
Qed.

Lemma X12_nothing_to_remove_witness :
  RemoveThink.remove_think_tags (u " a<think>x ") = u "a<think>x".
Proof.
  exact (eq_trans
           (proj2 (X12_nothing_to_remove (u " a<think>x ") (or_intror eq_refl)))
           eq_refl).
Defined.

(** X13. A block is removed with its content, and the text before it is
    kept: for [a] and [b] without the character [<],
    [a <think> b </think> c] becomes [a] followed by what becomes of [c]. *)
Theorem X13_block_removed (a b c : pystr) :
  Forall (fun x => x <> 60) a ->
  Forall (fun x => x <> 60) b ->
  RemoveThink.sub_think 0
    (a ++ RemoveThink.open_tag ++ b ++ RemoveThink.close_tag ++ c)
  = a ++ RemoveThink.sub_think 0 c.
Proof.
  intros Ha Hb. rewrite (sub_think_free_prefix a _ Ha).
  now rewrite (sub_think_block b c Hb).
Qed.

Lemma X13_block_removed_witness :
  RemoveThink.sub_think 0 (u "否。<think>先想一想</think>多喝水")
  = u "否。" ++ RemoveThink.sub_think 0 (u "多喝水").
Proof.
  apply (X13_block_removed (u "否。") (u "先想一想") (u "多喝水"));
    repeat (apply Forall_cons_2; [discriminate|]); apply Forall_nil_2.
Defined.

(** X14. [remove_think_tags] only deletes characters: its result is a
    subsequence of the text, so it is never longer. *)
Theorem X14_only_deletes (text : pystr) :
  RemoveThink.remove_think_tags text `sublist_of` text
  /\ (length (RemoveThink.remove_think_tags text) <= length text)%nat.
Proof.
  assert (H : RemoveThink.remove_think_tags text `sublist_of` text).
  { unfold RemoveThink.remove_think_tags.
    destruct (strip_split (RemoveThink.sub_think 0 text)) as (w1 & w2 & Hs & _).
    transitivity (RemoveThink.sub_think 0 text); [|apply sub_think_sublist].
    rewrite Hs at 2. apply sublist_inserts_l, sublist_inserts_r. reflexivity. }
  split; [exact H | now apply sublist_length].
Qed.

Section JsonlFacts.

Import RemoveThink.

Lemma process_lines_acc (lines : list (option json)) (acc : report) :
  written (process_lines lines acc) = written acc ++ omap process_line lines
  /\ processed_count (process_lines lines acc)
     = (processed_count acc + length (omap process_line lines))%nat
  /\ (error_count (process_lines lines acc) + length (omap process_line lines)
      = error_count acc + length lines)%nat.
Proof.
  revert acc. induction lines as [|line rest IH]; intros acc; simpl.
  - rewrite app_nil_r. repeat split; lia.
  - destruct (process_line line) as [data|].
    + destruct (IH {| written := written acc ++ [data];
                      processed_count := S (processed_count acc);
                      error_count := error_count acc |}) as (-> & -> & He).
      simpl in *. rewrite <- app_assoc.
      change (list_omap _ _ process_line rest) with (omap process_line rest).
      repeat split; simpl; try reflexivity; lia.
    + destruct (IH {| written := written acc;
                      processed_count := processed_count acc;
                      error_count := S (error_count acc) |}) as (-> & -> & He).
      simpl in *.
      change (list_omap _ _ process_line rest) with (omap process_line rest).
      repeat split; try reflexivity; lia.
Qed.

(** What a written object holds under ["response"]. *)
Lemma process_line_response (parsed : option json) (m : gmap string json) (v : json) :
  process_line parsed = Some (JObj m) ->
  m !! "response"%string = Some v ->
  exists s, v = JStr s /\ s <> [] /\ strip s = s.
Proof.
  unfold process_line. destruct parsed as [data|]; [|discriminate].
  destruct data as [|b|z|s|l|m0]; simpl; try discriminate.
  - destruct (contains s (u "response")); discriminate.
  - destruct (existsb _ l); discriminate.
  - case_bool_decide as Hin.
    + destruct (m0 !! "response"%string) as [[| | |original| |]|]; try discriminate.
      intros [= <-]. rewrite lookup_insert_eq. intros [= <-].
      eexists. split; [reflexivity|].
      destruct (truthy (remove_think_tags original)) eqn:Ht.
      * split; [now apply truthy_true | apply strip_idem].
      * split; [discriminate | reflexivity].
    + intros [= <-] Hv. destruct Hin. now rewrite Hv.
Qed.

End JsonlFacts.

(** X15. [process_jsonl_file] accounts for every line: the lines written
    and the lines counted as errors add up to the lines read, the count of
    processed lines is the number of lines written, and a missing input
    file gives no report. *)
Theorem X15_every_line_counted (lines : list (option json)) :
  RemoveThink.process_jsonl_file None = None
  /\ exists r,
      RemoveThink.process_jsonl_file (Some lines) = Some r
      /\ RemoveThink.written r = omap RemoveThink.process_line lines
      /\ RemoveThink.processed_count r = length (RemoveThink.written r)
      /\ (RemoveThink.processed_count r + RemoveThink.error_count r
          = length lines)%nat.
Proof.
  split; [reflexivity|]. eexists. split; [reflexivity|].
  destruct (process_lines_acc lines
              {| RemoveThink.written := []; RemoveThink.processed_count := 0;
                 RemoveThink.error_count := 0 |}) as (Hw & Hp & He).
  simpl in *. rewrite Hw, Hp. repeat split. lia.
Qed.

(** X16. No line is written with an empty response: in every object written
    that has a ["response"], it is a string that is not empty and is
    trimmed. *)
Theorem X16_response_never_empty (lines : list (option json))
    (r : RemoveThink.report) (m : gmap string json) (v : json) :
  RemoveThink.process_jsonl_file (Some lines) = Some r ->
  JObj m ∈ RemoveThink.written r ->
  m !! "response"%string = Some v ->
  exists s, v = JStr s /\ s <> [] /\ strip s = s.
Proof.
  intros [= <-] Hin Hv.
  destruct (process_lines_acc lines
              {| RemoveThink.written := []; RemoveThink.processed_count := 0;
                 RemoveThink.error_count := 0 |}) as (Hw & _ & _).
  rewrite Hw in Hin. simpl in Hin.
  apply list_elem_of_omap in Hin as (line & _ & Hline).
  exact (process_line_response line m v Hline Hv).
Qed.

(** X17. Cleaning touches the response only: an object with a string
    response is written with the same keys and with every other value
    unchanged, and an object without a response is written as it is. *)
Theorem X17_other_fields_kept (m : gmap string json) (out : json) :
  RemoveThink.process_line (Some (JObj m)) = Some out ->
  exists m', out = JObj m'
             /\ dom m' = dom m
             /\ (forall k, k <> "response"%string -> m' !! k = m !! k)
             /\ (m !! "response"%string = None -> m' = m).
Proof.
  unfold RemoveThink.process_line. simpl. case_bool_decide as Hin.
  - destruct (m !! "response"%string) as [[| | |original| |]|] eqn:Hr;
      try discriminate.
    intros [= <-]. eexists. split; [reflexivity|]. split; [|split].
    + apply dom_insert_lookup_L. now rewrite Hr.
    + intros k Hk. now rewrite lookup_insert_ne.
    + discriminate.
  - intros [= <-]. exists m. repeat split.
Qed.

Lemma X16_response_never_empty_witness :
  exists s, JStr (u "无答案") = JStr s /\ s <> [] /\ strip s = s.
Proof.
  refine (X16_response_never_empty [Some (record_json Logs.only_thinking)] _
            (<["response"%string := JStr (u "无答案")]>
               (<["user_input"%string := JStr (u "咳嗽怎么办")]>
                  {["retrieved_contexts"%string := JStr (u "多休息")]}))
            (JStr (u "无答案")) eq_refl _ _).
  - apply list_elem_of_singleton. vm_compute. reflexivity.
  - vm_compute. reflexivity.
Defined.

Lemma X17_other_fields_kept_witness :
  exists m',
    RemoveThink.process_line (Some (record_json Logs.thinking)) = Some (JObj m')
    /\ m' !! "retrieved_contexts"%string = Some (JStr (u "多喝水"))
    /\ m' !! "user_input"%string = Some (JStr (u "发烧怎么办")).
Proof.
  destruct (RemoveThink.process_line (Some (record_json Logs.thinking)))
    as [out|] eqn:E; [|vm_compute in E; discriminate].
  destruct (X17_other_fields_kept _ out E) as (m' & -> & _ & Hkeep & _).
  exists m'. split; [reflexivity|]. split.
  - rewrite Hkeep by discriminate. vm_compute. reflexivity.
  - rewrite Hkeep by discriminate. vm_compute. reflexivity.
Defined.

(** ** tradition_nlp.py: reading the samples *)

Section SampleFacts.

Lemma record_json_fields (r : json_record) :
  exists m, record_json r = JObj m
            /\ m !! "user_input"%string = Some (JStr (user_input r))
            /\ m !! "response"%string = Some (JStr (response r))
            /\ m !! "reference"%string = None
            /\ m !! "retrieved_contexts"%string = Some (JStr (retrieved_contexts r)).
Proof.
  eexists. split; [reflexivity|]. repeat split; reflexivity.
Qed.

Lemma read_sample_record (i : nat) (r : json_record) :
  Evaluate.read_sample i (Some (record_json r)) = inr (sample_of r).
Proof.
  destruct (record_json_fields r) as (m & -> & _ & Hresp & Href & Hrc).
  unfold Evaluate.read_sample, dict_get. rewrite Hresp, Href, Hrc.
  unfold sample_of, py_or. simpl.
  destruct (retrieved_contexts r); reflexivity.
Qed.

Lemma read_samples_cons (i : nat) (line : option json) (rest : list (option json)) :
  Evaluate.read_samples i (line :: rest)
  = match Evaluate.read_sample i line with
    | inl e => inl e
    | inr s =>
      match Evaluate.read_samples (S i) rest with
      | inl e => inl e
      | inr samples => inr (s :: samples)
      end
    end.
Proof. reflexivity. Qed.

Lemma read_samples_records (i : nat) (records : list json_record) :
  Evaluate.read_samples i (Some ∘ record_json <$> records)
  = inr (sample_of <$> records).
Proof.
  revert i. induction records as [|r rest IH]; intros i; [reflexivity|].
  rewrite fmap_cons, read_samples_cons.
  change ((Some ∘ record_json) r) with (Some (record_json r)).
  now rewrite read_sample_record, IH.
Qed.

Lemma read_sample_readable (i : nat) (line : option json) :
  (exists s, Evaluate.read_sample i line = inr s) <-> readable line.
Proof.
  unfold Evaluate.read_sample, readable. split.
  - intros [s Hs]. destruct line as [[|b|z|t|l|m]|]; try discriminate.
    exists m. split; [reflexivity|].
    destruct (m !! "response"%string); [eauto | discriminate].
  - intros (m & -> & [v Hv]). rewrite Hv. eauto.
Qed.

Lemma read_samples_readable (i : nat) (lines : list (option json)) :
  (exists samples, Evaluate.read_samples i lines = inr samples)
  <-> Forall readable lines.
Proof.
  revert i. induction lines as [|line rest IH]; intros i; simpl.
  - split; [constructor | eauto].
  - split.
    + intros [samples Hs].
      destruct (Evaluate.read_sample i line) as [e|s] eqn:E; [discriminate|].
      destruct (Evaluate.read_samples (S i) rest) as [e|ss] eqn:Er; [discriminate|].
      apply Forall_cons_2.
      * apply (read_sample_readable i). eauto.
      * apply (IH (S i)). eauto.
    + intros [Hl Hr]%Forall_cons_1.
      apply (read_sample_readable i) in Hl as [s ->].
      apply (IH (S i)) in Hr as [ss ->]. eauto.
Qed.

Lemma read_samples_length (i : nat) (lines : list (option json))
    (samples : list Evaluate.sample) :
  Evaluate.read_samples i lines = inr samples -> length samples = length lines.
Proof.
  revert i samples. induction lines as [|line rest IH]; intros i samples; simpl.
  - now intros [= <-].
  - destruct (Evaluate.read_sample i line) as [e|s]; [discriminate|].
    destruct (Evaluate.read_samples (S i) rest) as [e|ss] eqn:Er; [discriminate|].
    intros [= <-]. simpl. f_equal. exact (IH _ _ Er).
Qed.

(** The exception is that of the first line that cannot be read. *)
Lemma read_samples_error (i : nat) (lines : list (option json))
    (e : Evaluate.read_error) :
  Evaluate.read_samples i lines = inl e ->
  exists k line,
    error_line e = (i + k)%nat /\ lines !! k = Some line /\ ~ readable line
    /\ Forall readable (take k lines).
Proof.
  revert i. induction lines as [|line rest IH]; intros i; [discriminate|].
  rewrite read_samples_cons.
  destruct (Evaluate.read_sample i line) as [e0|s] eqn:E.
  - intros [= <-]. exists 0%nat, line. repeat split.
    + unfold Evaluate.read_sample in E.
      destruct line as [[|b|z|t|l|m]|]; try (injection E as <-; simpl; lia).
      destruct (m !! "response"%string); [discriminate|].
      injection E as <-. simpl. lia.
    + intros Hr. apply (read_sample_readable i) in Hr as [s Hs]. congruence.
    + constructor.
  - destruct (Evaluate.read_samples (S i) rest) as [e1|ss] eqn:Er; [|discriminate].
    intros [= <-]. destruct (IH (S i) Er) as (k & l & Hk & Hl & Hbad & Hgood).
    exists (S k), l. repeat split; [lia | exact Hl | exact Hbad |].
    simpl. apply Forall_cons_2; [|exact Hgood].
    apply (read_sample_readable i). eauto.
Qed.

Lemma process_line_record (r : json_record) :
  RemoveThink.process_line (Some (record_json r)) = Some (record_json (cleaned r)).
Proof.
  destruct (record_json_fields r) as (m & Hm & _ & Hresp & _ & _).
  unfold RemoveThink.process_line. rewrite Hm. simpl.
  rewrite bool_decide_eq_true_2 by (now rewrite Hresp). rewrite Hresp.
  do 2 f_equal. injection Hm as <-. unfold cleaned. simpl.
  rewrite insert_insert_ne by discriminate. now rewrite insert_insert_eq.
Qed.

Lemma omap_process_line_records (records : list json_record) :
  omap RemoveThink.process_line (Some ∘ record_json <$> records)
  = record_json <$> (cleaned <$> records).
Proof.
  induction records as [|r rest IH]; [reflexivity|].
  rewrite !fmap_cons.
  change ((Some ∘ record_json) r) with (Some (record_json r)).
  change (omap RemoveThink.process_line
            (Some (record_json r) :: (Some ∘ record_json <$> rest)))
    with (match RemoveThink.process_line (Some (record_json r)) with
          | Some y => y :: omap RemoveThink.process_line (Some ∘ record_json <$> rest)
          | None => omap RemoveThink.process_line (Some ∘ record_json <$> rest)
          end).
  now rewrite process_line_record, IH.
Qed.

End SampleFacts.

(** X18. Reading a batch log, the evaluator takes from every line its
    response, and as reference the ground-truth answer stored under
    [retrieved_contexts] (the line has no ["reference"]), also when that
    answer is empty. *)
Theorem X18_reference_is_ground_truth (records : list json_record) :
  Evaluate.read_samples 0 (Some ∘ record_json <$> records)
  = inr (sample_of <$> records).
Proof. apply read_samples_records. Qed.

(** X19. Reading the samples is all or nothing: when a line does not parse
    to an object with a ["response"], the reading ends with the exception
    of the first such line and gives no sample at all; when it succeeds,
    there is one sample per line. *)
Theorem X19_all_lines_or_none (lines : list (option json)) :
  (~ Forall readable lines ->
   exists e line,
     Evaluate.read_samples 0 lines = inl e
     /\ lines !! error_line e = Some line
     /\ ~ readable line
     /\ Forall readable (take (error_line e) lines))
  /\ (forall samples, Evaluate.read_samples 0 lines = inr samples ->
                      length samples = length lines /\ Forall readable lines).
Proof.
  split.
  - intros Hn.
    destruct (Evaluate.read_samples 0 lines) as [e|samples] eqn:E.
    + destruct (read_samples_error 0 lines e E) as (k & line & Hk & Hline & Hbad & Hgood).
      exists e, line. rewrite Hk. simpl. now repeat split.
    + destruct Hn. apply (read_samples_readable 0). eauto.
  - intros samples E. split; [exact (read_samples_length 0 lines samples E)|].
    apply (read_samples_readable 0). eauto.
Qed.

Lemma X19_all_lines_or_none_witness :
  exists e,
    Evaluate.read_samples 0
      [Some (record_json Logs.thinking); Some (JObj ∅); None] = inl e
    /\ error_line e = 1%nat.
Proof.
  destruct (proj1 (X19_all_lines_or_none
                     [Some (record_json Logs.thinking); Some (JObj ∅); None]))
    as (e & line & He & _ & _ & _).
  - intros H. apply Forall_cons_1 in H as [_ H]. apply Forall_cons_1 in H as [H _].
    destruct H as (m & [= <-] & [v Hv]). vm_compute in Hv. discriminate.
  - exists e. split; [exact He|].
    vm_compute in He. injection He as <-. reflexivity.
Defined.

(** X20. A batch log stays readable after [remove_think.py]: every line is
    written (no error is counted), and the evaluator reads from the result
    one sample per line, with the cleaned response and the same
    ground-truth reference. *)
Theorem X20_cleaned_log_is_readable (records : list json_record) :
  exists r,
    RemoveThink.process_jsonl_file (Some (Some ∘ record_json <$> records)) = Some r
    /\ RemoveThink.error_count r = 0%nat
    /\ RemoveThink.written r = record_json <$> (cleaned <$> records)
    /\ Evaluate.read_samples 0 (Some <$> RemoveThink.written r)
       = inr (sample_of <$> (cleaned <$> records)).
Proof.
  eexists. split; [reflexivity|].
  destruct (process_lines_acc (Some ∘ record_json <$> records)
              {| RemoveThink.written := []; RemoveThink.processed_count := 0;
                 RemoveThink.error_count := 0 |}) as (Hw & _ & He).
  simpl in Hw, He. rewrite omap_process_line_records in Hw, He.
  rewrite !length_fmap in He. split; [lia|]. split; [exact Hw|].
  rewrite Hw, <- list_fmap_compose. apply read_samples_records.
Qed.

Section NameFacts.

Import Evaluate.

Lemma basename_from_no_slash (current s : pystr) :
  Forall (fun x => x <> 47) s -> basename_from current s = current.
Proof.
  induction 1 as [|x s Hx _ IH]; [reflexivity|]. simpl.
  apply N.eqb_neq in Hx as ->. exact IH.
Qed.

Lemma basename_from_slash (current dir rest : pystr) :
  basename_from current (dir ++ 47 :: rest) = basename_from rest rest.
Proof.
  revert current. induction dir as [|x dir IH]; intros current; [reflexivity|].
  simpl. destruct (x =? 47); apply IH.
Qed.

Lemma remove_all_suffix (old name : pystr) :
  remove_all old 0 old = [] ->
  find (name ++ old) old = Some (length name) ->
  remove_all old 0 (name ++ old) = name.
Proof.
  intros Hold. induction name as [|x name IH]; intros Hf; [exact Hold|].
  rewrite <- app_comm_cons in *.
  destruct (startswith (x :: name ++ old) old) eqn:E.
  - rewrite (find_here _ _ E) in Hf. discriminate.
  - rewrite (find_later _ _ _ E) in Hf.
    destruct (find (name ++ old) old) as [n|] eqn:En; [|discriminate].
    injection Hf as ->.
    change (remove_all old 0 (x :: name ++ old))
      with (if startswith (x :: name ++ old) old
            then remove_all old (pred (length old)) (name ++ old)
            else x :: remove_all old 0 (name ++ old)).
    rewrite E. f_equal. now apply IH.
Qed.

End NameFacts.

(** X21. The model name of a report is the name of the log file without its
    directory and without ["_return.jsonl"]: for a file name [name] with no
    slash in which ["_return.jsonl"] does not occur before the end,
    [dir/name_return.jsonl] gives [name]. *)
Theorem X21_model_name (dir name : pystr) :
  Forall (fun x => x <> 47) name ->
  find (name ++ u "_return.jsonl") (u "_return.jsonl") = Some (length name) ->
  Evaluate.model_name (dir ++ [47] ++ name ++ u "_return.jsonl") = name.
Proof.
  intros Hname Hfind. unfold Evaluate.model_name, Evaluate.basename.
  change (dir ++ [47] ++ name ++ u "_return.jsonl")
    with (dir ++ 47 :: (name ++ u "_return.jsonl")).
  rewrite basename_from_slash, basename_from_no_slash.
  - now apply remove_all_suffix.
  - apply Forall_app. split; [exact Hname|].
    repeat (apply Forall_cons_2; [discriminate|]). apply Forall_nil_2.
Qed.

Lemma X21_model_name_witness :
  Evaluate.model_name (u "/data/aj/HuaAgent/run/processed_data/qwen3_bge-m3_return.jsonl")
  = u "qwen3_bge-m3".
Proof.
  apply (X21_model_name (u "/data/aj/HuaAgent/run/processed_data") (u "qwen3_bge-m3")).
  - repeat (apply Forall_cons_2; [discriminate|]). apply Forall_nil_2.
  - reflexivity.
Defined.

(** ** The batch runs on any input *)

Section BatchFacts.

(** What a round of [rag.py] leaves in the log: the log as it was, or the
    log with one more line. *)
Lemma loop_appends (invoke : nat -> pystr -> result Rag.chain_result)
    (qa_pairs : list (gmap string pystr)) :
  forall (i : nat) (results f : list json_record),
    exists lines,
      fst (Rag.loop invoke i qa_pairs results f) = f ++ lines
      /\ (length lines <= length qa_pairs)%nat.
Proof.
  assert (Hstop : forall (f : list json_record) (n : nat),
             exists lines, f = f ++ lines /\ (length lines <= S n)%nat).
  { intros f n. exists []. rewrite app_nil_r. split; [reflexivity | simpl; lia]. }
  assert (Hnext : forall (f f' : list json_record) (r : json_record) (n : nat),
             (exists lines, f' = (f ++ [r]) ++ lines /\ (length lines <= n)%nat) ->
             exists lines, f' = f ++ lines /\ (length lines <= S n)%nat).
  { intros f f' r n (lines & -> & Hl). exists (r :: lines).
    rewrite <- app_assoc. split; [reflexivity | simpl; lia]. }
  induction qa_pairs as [|p rest IH]; intros i results f; cbn [Rag.loop].
  - exists []. now rewrite app_nil_r.
  - cbn [length].
    destruct (getitem p "question") as [q|e]; [|apply Hstop].
    destruct (getitem p "answer") as [a|e]; [|apply Hstop].
    unfold Rag.handle.
    destruct (invoke i q) as [r|e].
    + destruct (JsonLine.write f (Rag.result_record q r a)) as [f'|e] eqn:E.
      * apply write_inv in E as ->. eapply Hnext, IH.
      * destruct (JsonLine.write f (Rag.error_record q e a)) as [f'|e'] eqn:E';
          [|apply Hstop].
        apply write_inv in E' as ->. eapply Hnext, IH.
    + destruct (JsonLine.write f (Rag.error_record q e a)) as [f'|e'] eqn:E';
        [|apply Hstop].
      apply write_inv in E' as ->. eapply Hnext, IH.
Qed.

Lemma getitem_incomplete (p : gmap string pystr) :
  ~ has_keys p ->
  exists key,
    (key = "question"%string \/ key = "answer"%string)
    /\ match getitem p "question", getitem p "answer" with
       | Raise e, _ => e = KeyError key
       | Ok _, Raise e => e = KeyError key
       | Ok _, Ok _ => False
       end.
Proof.
  intros Hn. unfold getitem, has_keys in *.
  destruct (p !! "question"%string) as [q|] eqn:Hq.
  - destruct (p !! "answer"%string) as [a|] eqn:Ha.
    + destruct Hn. split; eauto.
    + exists "answer"%string. split; [now right | reflexivity].
  - exists "question"%string. split; [now left | reflexivity].
Qed.

(** The loop of [rag.py] up to the first incomplete pair. *)
Lemma loop_stops (invoke : nat -> pystr -> result Rag.chain_result)
    (pre : list (gmap string pystr)) (bad : gmap string pystr)
    (post : list (gmap string pystr)) :
  Forall has_keys pre -> Forall pair_encodable pre -> ~ has_keys bad ->
  forall (i : nat) (results f : list json_record),
    messages_encodable (fun k => invoke (i + k)%nat) pre ->
    exists key,
      (key = "question"%string \/ key = "answer"%string)
      /\ Rag.loop invoke i (pre ++ bad :: post) results f
         = (f ++ imap (fun k => rag_line invoke (i + k)) pre, Raise (KeyError key)).
Proof.
  intros Hpre. induction Hpre as [|p rest Hp _ IH]; intros Henc Hbad i results f Hm.
  - destruct (getitem_incomplete bad Hbad) as (key & Hkey & Hget).
    exists key. split; [exact Hkey|]. simpl. rewrite app_nil_r.
    destruct (getitem bad "question") as [q|e].
    + destruct (getitem bad "answer") as [a|e]; [contradiction | now subst].
    + now subst.
  - apply Forall_cons_1 in Henc as [Hpe Henc].
    apply messages_encodable_cons in Hm as [He Hm].
    cbn [app]. rewrite (loop_step invoke i p _ results f Hp Hpe He).
    destruct (IH Henc Hbad (S i) (results ++ successes invoke i p)
                (f ++ [rag_line invoke i p]) Hm) as (key & Hkey & ->).
    exists key. split; [exact Hkey|].
    rewrite <- app_assoc. cbn [imap]. rewrite Nat.add_0_r.
    rewrite (imap_ext (fun k => rag_line invoke (S i + k))
               ((fun k => rag_line invoke (i + k)) ∘ S) rest)
      by (intros k x _; simpl; now rewrite Nat.add_succ_r).
    reflexivity.
Qed.

End BatchFacts.

(** X22. [rag.py] never removes or changes what the log already holds: the
    earlier content is a prefix of the log after the run, whether the run
    finishes or raises, and at most one line per pair is added. *)
Theorem X22_rag_only_appends (invoke : nat -> pystr -> result Rag.chain_result)
    (qa_pairs : list (gmap string pystr)) (file : list json_record) :
  exists lines,
    fst (Rag.process_qa_pairs invoke qa_pairs file) = file ++ lines
    /\ (length lines <= length qa_pairs)%nat.
Proof. apply loop_appends. Qed.

(** X23. [rag.py] stops at the first pair that lacks its question or its
    answer. When the pairs before it hold strings free of lone surrogates
    under both keys and the messages of the exceptions raised by their
    calls can be encoded, the lines of those pairs are in the log, the run
    raises [KeyError] for the missing key, and no later pair is
    processed. *)
Theorem X23_rag_stops_at_incomplete_pair
    (invoke : nat -> pystr -> result Rag.chain_result)
    (pre : list (gmap string pystr)) (bad : gmap string pystr)
    (post : list (gmap string pystr)) (file : list json_record) :
  Forall has_keys pre -> Forall pair_encodable pre ->
  messages_encodable invoke pre -> ~ has_keys bad ->
  exists key,
    (key = "question"%string \/ key = "answer"%string)
    /\ Rag.process_qa_pairs invoke (pre ++ bad :: post) file
       = (file ++ imap (rag_line invoke) pre, Raise (KeyError key)).
Proof.
  intros Hpre Henc Hm Hbad.
  apply (loop_stops invoke pre bad post Hpre Henc Hbad 0 [] file Hm).
Qed.

(** One complete pair, whose answer cannot be written, before a pair
    without its answer. *)
Lemma X23_rag_stops_witness :
  exists key,
    Rag.process_qa_pairs Pairs.chain_garbling [Pairs.fever; Pairs.no_answer; Pairs.cough] []
    = ([] ++ imap (rag_line Pairs.chain_garbling) [Pairs.fever], Raise (KeyError key)).
Proof.
  destruct (X23_rag_stops_at_incomplete_pair Pairs.chain_garbling
              [Pairs.fever] Pairs.no_answer [Pairs.cough] [])
    as (key & _ & H).
  - apply Forall_cons_2; [|apply Forall_nil_2].
    split; eexists; vm_compute; reflexivity.
  - apply Forall_cons_2; [|apply Forall_nil_2]. split; vm_compute; reflexivity.
  - intros k p e _ [=].
  - intros [_ [a Ha]]. vm_compute in Ha. discriminate.
  - now exists key.
Defined.

(** X24. For pairs that each hold a string under ["question"] and under
    ["answer"], free of lone surrogates, and calls whose exceptions have
    messages that can be encoded: the list [rag.py] returns holds the
    records of the questions whose call returned, in order, and no error
    record, also when such a record could not be written; the log holds a
    line for every question. *)
Theorem X24_rag_returns_successes
    (invoke : nat -> pystr -> result Rag.chain_result)
    (qa_pairs : list (gmap string pystr)) (file : list json_record) :
  Forall has_keys qa_pairs -> Forall pair_encodable qa_pairs ->
  messages_encodable invoke qa_pairs ->
  Rag.process_qa_pairs invoke qa_pairs file
  = (file ++ imap (rag_line invoke) qa_pairs,
     Ok (mjoin (imap (successes invoke) qa_pairs))).
Proof.
  intros H He Hm.
  apply (loop_complete_pairs invoke qa_pairs H He 0 [] file Hm).
Qed.

(** Two questions whose answers cannot be written: two error lines in the
    log, two records returned. *)
Lemma X24_rag_returns_successes_witness :
  Rag.process_qa_pairs Pairs.chain_garbling [Pairs.fever; Pairs.cough] []
  = ([] ++ imap (rag_line Pairs.chain_garbling) [Pairs.fever; Pairs.cough],
     Ok (mjoin (imap (successes Pairs.chain_garbling) [Pairs.fever; Pairs.cough]))).
Proof.
  exact (X24_rag_returns_successes Pairs.chain_garbling [Pairs.fever; Pairs.cough] []
           complete_pairs encodable_pairs (garbling_messages _)).
Defined.

(** X25. [basellm.py] finishes and writes one line per pair whenever the
    last pair has its question and its answer, both free of lone
    surrogates: whichever of the two keys the other pairs lack, whatever
    strings they hold under them and whatever the model calls do. *)
Theorem X25_basellm_finishes (invoke : nat -> pystr -> result pystr)
    (qa_pairs : list (gmap string pystr)) (last_pair : gmap string pystr)
    (file : list json_record) :
  last qa_pairs = Some last_pair ->
  has_keys last_pair -> pair_encodable last_pair ->
  exists lines,
    BaseLLM.process_all_questions invoke qa_pairs file = (lines, None)
    /\ length lines = length qa_pairs.
Proof.
  intros Hlast Hk Hp.
  rewrite (process_all_questions_total invoke qa_pairs last_pair file Hlast Hk Hp).
  eexists. split; [reflexivity|]. now rewrite length_map, length_submit_all.
Qed.

(** A pair without its answer, then a complete pair, the model returning
    text that cannot be written. *)
Lemma X25_basellm_finishes_witness :
  exists lines,
    BaseLLM.process_all_questions Pairs.garbling [Pairs.no_answer; Pairs.fever] []
    = (lines, None)
    /\ length lines = 2%nat.
Proof.
  apply (X25_basellm_finishes Pairs.garbling [Pairs.no_answer; Pairs.fever] Pairs.fever []).
  - reflexivity.
  - split; eexists; vm_compute; reflexivity.
  - split; vm_compute; reflexivity.
Defined.

(** X28. In [basellm.py] the write of line 145 is inside the [try]: when
    the answer generated for a complete pair holds a lone surrogate, the
    record of that pair cannot be written and the handler writes, at its
    position, the error record made of the last pair: the question and the
    ground truth of the last pair, with ["Error: "] followed by the message
    of the codec. *)
Theorem X28_basellm_unwritable_answer (invoke : nat -> pystr -> result pystr)
    (qa_pairs : list (gmap string pystr)) (last_pair : gmap string pystr)
    (file : list json_record) (k : nat) (p : gmap string pystr)
    (generated : pystr) :
  last qa_pairs = Some last_pair ->
  has_keys last_pair -> pair_encodable last_pair ->
  qa_pairs !! k = Some p -> has_keys p ->
  invoke k (question_of p) = Ok generated ->
  JsonLine.encodable generated = false ->
  exists e,
    JsonLine.encode_error (JsonLine.dumps (record_of p generated) ++ [10]) = Some e
    /\ fst (BaseLLM.process_all_questions invoke qa_pairs file) !! k
       = Some {| user_input := question_of last_pair;
                 response := u "Error: " ++ str_exn e;
                 retrieved_contexts := truth_of last_pair |}.
Proof.
  intros Hlast Hk Hp Hkp Hkeys Hcall Hg.
  rewrite (process_all_questions_line invoke qa_pairs last_pair file k p
             Hlast Hk Hp Hkp Hkeys).
  unfold BaseLLM.get_llm_response. rewrite Hcall.
  destruct (JsonLine.encode_error (JsonLine.dumps (record_of p generated) ++ [10]))
    as [e|] eqn:E.
  - exists e. now split.
  - apply encode_error_None in E. simpl in E. rewrite Hg in E.
    rewrite andb_false_r in E. discriminate.
Qed.

(** The first of two questions, with a model whose answers hold a lone
    surrogate: its line carries the second question. *)
Lemma X28_basellm_unwritable_answer_witness :
  exists e,
    JsonLine.encode_error
      (JsonLine.dumps (record_of Pairs.fever [97; 0xD800; 98]) ++ [10]) = Some e
    /\ fst (BaseLLM.process_all_questions Pairs.garbling [Pairs.fever; Pairs.cough] [])
         !! 0%nat
       = Some {| user_input := question_of Pairs.cough;
                 response := u "Error: " ++ str_exn e;
                 retrieved_contexts := truth_of Pairs.cough |}.
Proof.
  apply (X28_basellm_unwritable_answer Pairs.garbling [Pairs.fever; Pairs.cough]
           Pairs.cough [] 0 Pairs.fever [97; 0xD800; 98]).
  - reflexivity.
  - split; eexists; vm_compute; reflexivity.
  - split; vm_compute; reflexivity.
  - reflexivity.
  - split; eexists; vm_compute; reflexivity.
  - reflexivity.
  - reflexivity.
Defined.

(** X29. On any input, the log after [rag.py] is the log before it followed
    by the lines of the first [n] pairs, in order, for some [n]: each of
    these pairs has its two keys, and the run returns exactly when [n] is
    the number of pairs. *)
Theorem X29_rag_log_is_lines_of_first_pairs
    (invoke : nat -> pystr -> result Rag.chain_result)
    (qa_pairs : list (gmap string pystr)) (file : list json_record) :
  exists n : nat,
    (n <= length qa_pairs)%nat
    /\ fst (Rag.process_qa_pairs invoke qa_pairs file)
       = file ++ imap (rag_line invoke) (take n qa_pairs)
    /\ Forall has_keys (take n qa_pairs)
    /\ (n = length qa_pairs
        <-> exists results, snd (Rag.process_qa_pairs invoke qa_pairs file) = Ok results).
Proof.
  destruct (loop_prefix invoke qa_pairs 0 [] file) as (n & Hn & Hrun & Hk & _ & Hret).
  exists n. split; [exact Hn|]. split; [exact Hrun|]. split; [exact Hk | exact Hret].
Qed.

Section CleanFacts.

Lemma encodable_sublist (s t : pystr) :
  s `sublist_of` t -> JsonLine.encodable t = true -> JsonLine.encodable s = true.
Proof.
  induction 1 as [|c s t _ IH|c s t _ IH]; simpl; [reflexivity| |].
  - intros [-> Ht]%andb_true_iff. now rewrite IH.
  - intros [_ Ht]%andb_true_iff. now apply IH.
Qed.

Lemma remove_think_tags_encodable (text : pystr) :
  JsonLine.encodable text = true ->
  JsonLine.encodable (RemoveThink.remove_think_tags text) = true.
Proof.
  apply encodable_sublist. unfold RemoveThink.remove_think_tags.
  destruct (strip_split (RemoveThink.sub_think 0 text)) as (w1 & w2 & Hs & _).
  transitivity (RemoveThink.sub_think 0 text); [|apply sub_think_sublist].
  rewrite Hs at 2. apply sublist_inserts_l, sublist_inserts_r. reflexivity.
Qed.

Lemma cleaned_writable (r : json_record) :
  writable r = true -> writable (cleaned r) = true.
Proof.
  unfold writable, cleaned. cbn [user_input response retrieved_contexts].
  intros [[-> Hr]%andb_true_iff ->]%andb_true_iff.
  rewrite andb_true_r. cbn [andb].
  destruct (truthy (RemoveThink.remove_think_tags (response r)));
    [now apply remove_think_tags_encodable | reflexivity].
Qed.

End CleanFacts.

(** X30. Every line the two runs write can be encoded: a record of the log
    holds no lone surrogate, whatever the pairs and the model calls; and
    the line that [remove_think.py] makes of such a record can be encoded
    too. *)
Theorem X30_log_lines_can_be_encoded
    (invoke_llm : nat -> pystr -> result pystr)
    (invoke_rag : nat -> pystr -> result Rag.chain_result)
    (qa_pairs : list (gmap string pystr)) (file : list json_record) :
  (exists lines,
      fst (Rag.process_qa_pairs invoke_rag qa_pairs file) = file ++ lines
      /\ Forall (fun r => writable r = true) lines)
  /\ (qa_pairs <> [] ->
      Forall (fun r => writable r = true)
        (fst (BaseLLM.process_all_questions invoke_llm qa_pairs file)))
  /\ (forall r, writable r = true -> writable (cleaned r) = true).
Proof.
  split; [|split].
  - destruct (loop_prefix invoke_rag qa_pairs 0 [] file) as (n & _ & Hrun & _ & Hw & _).
    eexists. split; [exact Hrun | exact Hw].
  - intros Hne. unfold BaseLLM.process_all_questions.
    destruct (last qa_pairs) as [last_pair|] eqn:Hlast;
      [|apply last_None in Hlast; contradiction].
    destruct (collect_prefix last_pair (BaseLLM.submit_all invoke_llm 0 qa_pairs) [])
      as (n & _ & -> & Hw & _).
    exact Hw.
  - apply cleaned_writable.
Qed.

(** Two questions whose generated answers hold a lone surrogate: the two
    lines written are error records; and a line of a model that thinks
    aloud. *)
Lemma X30_log_lines_can_be_encoded_witness :
  Forall (fun r => writable r = true)
    (fst (BaseLLM.process_all_questions Pairs.garbling [Pairs.fever; Pairs.cough] []))
  /\ writable (cleaned Logs.thinking) = true.
Proof.
  destruct (X30_log_lines_can_be_encoded Pairs.garbling Pairs.chain_garbling
              [Pairs.fever; Pairs.cough] []) as (_ & Hllm & Hclean).
  split.
  - apply Hllm. discriminate.
  - apply Hclean. reflexivity.
Defined.

(** ** The two converters side by side *)

Section BlankFacts.

Lemma lstrip_blank (s : pystr) :
  Forall (fun x => isspace x = true) s -> lstrip s = [].
Proof. induction 1 as [|x s Hx _ IH]; [reflexivity|]. simpl. now rewrite Hx. Qed.

(** A text is trimmed to nothing exactly when it is made of white space. *)
Lemma strip_nil_iff (s : pystr) :
  strip s = [] <-> Forall (fun x => isspace x = true) s.
Proof.
  split.
  - intros H. destruct (strip_split s) as (w1 & w2 & Hs & H1 & H2).
    rewrite H in Hs. rewrite Hs. apply Forall_app. now split.
  - intros H. unfold strip. now rewrite (lstrip_blank s H).
Qed.

Lemma corrected_of_both (r : RagExcel.roles) cols (row : list cell) :
  Excel2QA.row_corrected (RagExcel.corrected_col r) cols row
  = strip (RagExcel.row_corrected r cols row).
Proof.
  unfold Excel2QA.row_corrected, RagExcel.row_corrected.
  destruct (RagExcel.corrected_col r) as [l|]; [|reflexivity].
  now destruct (truthy l && notna (row_get cols row l)).
Qed.

End BlankFacts.

(** X26. On a reviewed row the two converters agree: when the status is 1
    and the builder makes a document of a row, the extractor, reading the
    same columns, makes a pair with the same question and the same
    answer. *)
Theorem X26_converters_agree_when_reviewed (r : RagExcel.roles)
    (cols : list label) (i j : nat) (row : list cell) (d : RagExcel.Document) :
  eq_int (RagExcel.row_status r cols row) 1 = true ->
  RagExcel.build_row r cols i row = Some d ->
  exists p,
    Excel2QA.extract_row (RagExcel.question_col r) (RagExcel.answer_col r)
      (RagExcel.corrected_col r) cols j row = Some p
    /\ Excel2QA.question p = RagExcel.question d
    /\ Excel2QA.answer p = RagExcel.answer d.
Proof.
  intros Hs (Hq & Ha & ->)%build_row_nonblank.
  unfold Excel2QA.extract_row, Excel2QA.row_answer, RagExcel.final_answer.
  rewrite corrected_of_both, Hs. simpl andb.
  fold (RagExcel.row_question r cols row). fold (RagExcel.row_answer r cols row).
  apply truthy_true in Hq.
  destruct (truthy (strip (RagExcel.row_corrected r cols row))) eqn:Hc;
    cbn iota beta; rewrite Hq; simpl negb; rewrite andb_false_l.
  - eexists. split; [reflexivity|]. simpl. split; [reflexivity | apply strip_idem].
  - eexists. split; [reflexivity|]. simpl. now split.
Qed.

Lemma X26_converters_agree_witness :
  exists p,
    Excel2QA.extract_row (u "问题") (u "答案") (Some (u "医生更正答案"))
      Fixtures.review_columns 0 Fixtures.fever_reviewed = Some p
    /\ Excel2QA.question p = RagExcel.question Samples.fever_document
    /\ Excel2QA.answer p = RagExcel.answer Samples.fever_document.
Proof.
  apply (X26_converters_agree_when_reviewed Fixtures.review_roles
           Fixtures.review_columns 0 0 Fixtures.fever_reviewed Samples.fever_document).
  - reflexivity.
  - vm_compute. reflexivity.
Defined.

(** X27. The builder skips a row exactly when its question or its answer
    consists of white space only (an empty or missing cell included); the
    corrected answer plays no part in this. *)
Theorem X27_builder_skips_blank_rows (r : RagExcel.roles) (cols : list label)
    (i : nat) (row : list cell) :
  RagExcel.build_row r cols i row = None
  <-> Forall (fun x => isspace x = true) (RagExcel.row_question r cols row)
      \/ Forall (fun x => isspace x = true) (RagExcel.row_answer r cols row).
Proof.
  rewrite <- !strip_nil_iff. unfold RagExcel.build_row.
  destruct (truthy (strip (RagExcel.row_question r cols row))) eqn:Hq;
    destruct (truthy (strip (RagExcel.row_answer r cols row))) eqn:Ha; simpl;
    first [apply truthy_true in Hq | apply truthy_false in Hq];
    first [apply truthy_true in Ha | apply truthy_false in Ha];
    split; try discriminate; try tauto; intros _; tauto.
Qed.
